(** * SimploVoice: intent classification, entity extraction and response routing

    A shallow embedding of the pattern-based NLU classifier
    ([nlu_processor.py]), the room store query ([database.py]), the
    rule-based response generator ([response_generator.py]) and the
    orchestration glue with its language-model path ([brain.py]).

    Conventions of the embedding.
    - A Python [str] is a [string]: the sequence of its UTF-8 bytes.  The
      classifier is English-only; [lower], [strip] and the regular
      expressions below follow Python on ASCII text.
    - A Python [float] that holds a price or a score is a rational [Q];
      the scores are quotients of two small integers and the seeded prices
      are integral, where the rational and the binary value agree.
    - A [dict] iterated in insertion order is an association list.
    - A call that can raise returns [option]; [None] is the exception. *)

From Stdlib Require Import Bool List Arith ZArith QArith Qminmax Qabs Lia Ascii String.
From Stdlib Require Import DecimalString DecimalN Sorted.
Import ListNotations.
Close Scope Q_scope.
Open Scope nat_scope.
Open Scope list_scope.
Open Scope string_scope.

(** ** Python string primitives *)
Module PyStr.

Definition nl : string := String (ascii_of_nat 10) EmptyString.
Definition dq : string := String (ascii_of_nat 34) EmptyString.

(** [str.isspace] on one ASCII character: TAB, LF, VT, FF, CR, FS, GS, RS,
    US and SPACE. *)
Definition isspace (c : ascii) : bool :=
  let n := nat_of_ascii c in
  ((9 <=? n) && (n <=? 13) || (28 <=? n) && (n <=? 32))%nat.

Definition isdigit (c : ascii) : bool :=
  let n := nat_of_ascii c in ((48 <=? n) && (n <=? 57))%nat.

Definition isupper (c : ascii) : bool :=
  let n := nat_of_ascii c in ((65 <=? n) && (n <=? 90))%nat.

Definition islower (c : ascii) : bool :=
  let n := nat_of_ascii c in ((97 <=? n) && (n <=? 122))%nat.

(** A word character of [re]: letter, digit or underscore. *)
Definition isword (c : ascii) : bool :=
  isupper c || islower c || isdigit c || (nat_of_ascii c =? 95)%nat.

Definition lower_char (c : ascii) : ascii :=
  if isupper c then ascii_of_nat (nat_of_ascii c + 32) else c.

(** [s.lower()] *)
Fixpoint lower (s : string) : string :=
  match s with
  | EmptyString => EmptyString
  | String c s' => String (lower_char c) (lower s')
  end.

Fixpoint lstrip (s : string) : string :=
  match s with
  | EmptyString => EmptyString
  | String c s' => if isspace c then lstrip s' else s
  end.

(** Removes the trailing white space: a character is kept when it is not
    white space or when something is kept after it. *)
Fixpoint rstrip (s : string) : string :=
  match s with
  | EmptyString => EmptyString
  | String c s' =>
      match rstrip s' with
      | EmptyString => if isspace c then EmptyString else String c EmptyString
      | t => String c t
      end
  end.

(** [s.strip()] *)
Definition strip (s : string) : string := rstrip (lstrip s).

(** [needle in hay] *)
Fixpoint contains (needle hay : string) : bool :=
  prefix needle hay ||
  match hay with
  | EmptyString => false
  | String _ hay' => contains needle hay'
  end.

(** [sep.join(l)] *)
Fixpoint join (sep : string) (l : list string) : string :=
  match l with
  | [] => EmptyString
  | [x] => x
  | x :: l' => x ++ sep ++ join sep l'
  end.

(** [str(n)] for an [int] *)
Definition of_Z (n : Z) : string := NilZero.string_of_int (Z.to_int n).

End PyStr.

(** ** The fragment of Python's [re] used by the pattern tables

    A backtracking matcher with the priorities of [re]: alternatives are
    tried left to right, repetitions are greedy.  Every repetition in the
    tables is over one character class ([.*], [\s+], [\s*], [\d+],
    [\d{1,2}], [[\s\!]*]), so [Rep] repeats a class. *)
Module Re.

Inductive cclass : Type :=
| CAny                          (* .   any character but a newline *)
| CSpace                        (* \s *)
| CDigit                        (* \d *)
| CSet (members : string)       (* [abc] *)
| CUnion (a b : cclass).

Inductive regex : Type :=
| Lit (s : string)              (* literal text *)
| Cls (c : cclass)
| Seq (r1 r2 : regex)
| Alt (r1 r2 : regex)           (* r1|r2 *)
| Opt (r : regex)               (* (r)? *)
| Rep (c : cclass) (lo : nat) (hi : option nat)   (* c{lo,hi}, greedy *)
| WordB                         (* \b *)
| Bol                           (* ^ *)
| Eol.                          (* $ *)

(** A position in the subject: the character before it and what follows. *)
Record cursor : Type := mkCursor { prev : option ascii; rest : string }.

Fixpoint mem_char (c : ascii) (s : string) : bool :=
  match s with
  | EmptyString => false
  | String x s' => Ascii.eqb x c || mem_char c s'
  end.

Fixpoint cclass_mem (cl : cclass) (c : ascii) : bool :=
  match cl with
  | CAny => negb (Ascii.eqb c (ascii_of_nat 10))
  | CSpace => PyStr.isspace c
  | CDigit => PyStr.isdigit c
  | CSet m => mem_char (PyStr.lower_char c) (PyStr.lower m)
  | CUnion a b => cclass_mem a c || cclass_mem b c
  end.

Definition word_before (c : cursor) : bool :=
  match prev c with Some x => PyStr.isword x | None => false end.

Definition word_after (c : cursor) : bool :=
  match rest c with String x _ => PyStr.isword x | EmptyString => false end.

(** [re.IGNORECASE]: letters are compared after lower-casing. *)
Fixpoint lit_match (s : string) (pv : option ascii) (t : string) : option cursor :=
  match s with
  | EmptyString => Some (mkCursor pv t)
  | String a s' =>
      match t with
      | String x t' =>
          if Ascii.eqb (PyStr.lower_char a) (PyStr.lower_char x)
          then lit_match s' (Some x) t' else None
      | EmptyString => None
      end
  end.

Definition hi_pred (hi : option nat) : option nat :=
  match hi with Some n => Some (Nat.pred n) | None => None end.

(** Greedy repetition: take one more character first, give it back when the
    continuation fails. *)
Fixpoint rep_match (p : ascii -> bool) (lo : nat) (hi : option nat)
    (k : cursor -> option cursor) (pv : option ascii) (t : string) {struct t}
    : option cursor :=
  let stop := match lo with O => k (mkCursor pv t) | S _ => None end in
  match hi with
  | Some O => stop
  | _ =>
      match t with
      | String x t' =>
          if p x then
            match rep_match p (Nat.pred lo) (hi_pred hi) k (Some x) t' with
            | Some e => Some e
            | None => stop
            end
          else stop
      | EmptyString => stop
      end
  end.

Fixpoint exec (r : regex) (k : cursor -> option cursor) (c : cursor) : option cursor :=
  match r with
  | Lit s =>
      match lit_match s (prev c) (rest c) with
      | Some c' => k c'
      | None => None
      end
  | Cls cl =>
      match rest c with
      | String x t' => if cclass_mem cl x then k (mkCursor (Some x) t') else None
      | EmptyString => None
      end
  | Seq r1 r2 => exec r1 (exec r2 k) c
  | Alt r1 r2 =>
      match exec r1 k c with
      | Some e => Some e
      | None => exec r2 k c
      end
  | Opt r1 =>
      match exec r1 k c with
      | Some e => Some e
      | None => k c
      end
  | Rep cl lo hi => rep_match (cclass_mem cl) lo hi k (prev c) (rest c)
  | WordB => if xorb (word_before c) (word_after c) then k c else None
  | Bol => match prev c with None => k c | Some _ => None end
  | Eol =>
      match rest c with
      | EmptyString => k c
      | String x EmptyString => if Ascii.eqb x (ascii_of_nat 10) then k c else None
      | _ => None
      end
  end.

(** A match anchored at the cursor: where it ends. *)
Definition match_at (r : regex) (c : cursor) : option cursor := exec r Some c.

Fixpoint search_from (r : regex) (pv : option ascii) (t : string) : bool :=
  match match_at r (mkCursor pv t) with
  | Some _ => true
  | None =>
      match t with
      | EmptyString => false
      | String x t' => search_from r (Some x) t'
      end
  end.

(** [re.search(r, text, re.IGNORECASE) is not None] *)
Definition search (r : regex) (text : string) : bool := search_from r None text.

(** A match object: where it starts and [group(0)]. *)
Record rmatch : Type := mkMatch { start : nat; group0 : string }.

(** Scans the subject left to right; after a match of [n] characters the
    next [n - 1] positions are skipped, so matches do not overlap.  (After
    an empty match the scan moves on by one character.) *)
Fixpoint finditer_from (r : regex) (pos skip : nat) (pv : option ascii) (t : string)
    : list rmatch :=
  match skip with
  | S skip' =>
      match t with
      | EmptyString => []
      | String x t' => finditer_from r (S pos) skip' (Some x) t'
      end
  | O =>
      match match_at r (mkCursor pv t) with
      | Some e =>
          let n := String.length t - String.length (rest e) in
          mkMatch pos (substring 0 n t) ::
          match t with
          | EmptyString => []
          | String x t' => finditer_from r (S pos) (Nat.pred n) (Some x) t'
          end
      | None =>
          match t with
          | EmptyString => []
          | String x t' => finditer_from r (S pos) 0 (Some x) t'
          end
      end
  end.

(** [re.finditer(r, text, re.IGNORECASE)] *)
Definition finditer (r : regex) (text : string) : list rmatch :=
  finditer_from r 0 0 None text.

Coercion Lit : string >-> regex.
Notation "a >> b" := (Seq a b) (at level 41, right associativity).
Notation "a <|> b" := (Alt a b) (at level 42, right associativity).

Definition b_ : regex := WordB.                    (* \b  *)
Definition s1 : regex := Rep CSpace 1 None.        (* \s+ *)
Definition s0 : regex := Rep CSpace 0 None.        (* \s* *)
Definition any : regex := Rep CAny 0 None.         (* .*  *)

End Re.

(** ** nlu_processor.py *)
Module NLU.
Import Re.

(** [class Intent(Enum)], in declaration order. *)
Inductive Intent : Type :=
| QUERY_ROOMS | QUERY_PRICES | CHECK_AVAILABILITY | COMPARE_RATES
| BOOK_ROOM | GREETING | GOODBYE | HELP | UNKNOWN.

Definition Intent_eqb (a b : Intent) : bool :=
  match a, b with
  | QUERY_ROOMS, QUERY_ROOMS | QUERY_PRICES, QUERY_PRICES
  | CHECK_AVAILABILITY, CHECK_AVAILABILITY | COMPARE_RATES, COMPARE_RATES
  | BOOK_ROOM, BOOK_ROOM | GREETING, GREETING | GOODBYE, GOODBYE
  | HELP, HELP | UNKNOWN, UNKNOWN => true
  | _, _ => false
  end.

(** [Intent.value] *)
Definition Intent_value (i : Intent) : string :=
  match i with
  | QUERY_ROOMS => "query_rooms" | QUERY_PRICES => "query_prices"
  | CHECK_AVAILABILITY => "check_availability" | COMPARE_RATES => "compare_rates"
  | BOOK_ROOM => "book_room" | GREETING => "greeting" | GOODBYE => "goodbye"
  | HELP => "help" | UNKNOWN => "unknown"
  end.

(** [Entity]: fields [type], [value], [confidence]. *)
Record Entity : Type := mkEntity
  { e_type : string; e_value : string; e_confidence : Q }.

(** [NLUResult]: fields [intent], [confidence], [entities], [original_text]. *)
Record NLUResult : Type := mkNLUResult
  { intent : Intent; confidence : Q; entities : list Entity; original_text : string }.

(** [w1\s+w2\s+...\s+wn] *)
Fixpoint words (l : list string) : regex :=
  match l with
  | [] => Lit ""
  | [w] => Lit w
  | w :: l' => Lit w >> s1 >> words l'
  end.

Definition rooms_ : regex := "room" >> Opt "s".                    (* rooms? *)
Definition types_ : regex := "type" >> Opt "s".                    (* types? *)
Definition options_ : regex := "option" >> Opt "s".                (* options? *)
Definition accommodations_ : regex := "accommodation" >> Opt "s".  (* accommodations? *)
Definition suites_ : regex := "suite" >> Opt "s".                  (* suites? *)
Definition sp_or_dash : regex := Opt (Cls (CSet " -")).            (* [ -]? *)

(** [_initialize_intent_patterns]: the table in the order of the dict
    literal, which is the order [.items()] iterates in. *)
Definition intent_patterns : list (Intent * list regex) :=
  [ (GREETING,
     [ b_ >> ("hello" <|> "hi" <|> "hey" <|> "greetings"
              <|> ("good" >> s1 >> ("morning" <|> "afternoon" <|> "evening"))
              <|> "hola" <|> "namaste") >> b_
     ; Bol >> ("hi" <|> "hello" <|> "hey")
           >> Rep (CUnion CSpace (CSet "!")) 0 None >> Eol ]);
    (GOODBYE,
     [ b_ >> ("bye" <|> "goodbye" <|> words ["see"; "you"] <|> words ["take"; "care"]
              <|> words ["have"; "a"; "good"] <|> ("thank" >> s0 >> "you")
              <|> "thanks" <|> "thnx" <|> "cheers") >> b_
     ; b_ >> ("bye" <|> "cya" <|> words ["see"; "ya"] <|> "later" <|> "thank") >> b_ ]);
    (QUERY_ROOMS,
     [ b_ >> ("what" <|> "which" <|> "show" <|> "list" <|> "tell" <|> "display") >> any
          >> (rooms_ <|> types_ <|> options_ <|> accommodations_) >> b_
     ; b_ >> ("available" <|> "have") >> any
          >> (rooms_ <|> suites_ <|> accommodations_) >> b_
     ; b_ >> rooms_ >> s1
          >> ("available" <|> words ["do"; "you"; "have"] <|> types_) >> b_
     ; b_ >> Opt (words ["can"; "you"] >> s1) >> ("show" <|> "tell" <|> "describe") >> any
          >> (rooms_ <|> options_) >> b_
     ; b_ >> (words ["i"; "want"; "to"; "see"] <|> words ["looking"; "for"]) >> any
          >> (rooms_ <|> options_) >> b_
     ; b_ >> (words ["what"; "kind"] <|> ("what" >> s1 >> types_)) >> any
          >> (rooms_ <|> accommodations_) >> b_ ]);
    (QUERY_PRICES,
     [ b_ >> ("what" <|> words ["how"; "much"] <|> words ["tell"; "me"]) >> any
          >> ("price" <|> "cost" <|> "rate" <|> "charge" <|> "tariff" <|> "fee") >> b_
     ; b_ >> ("price" <|> "cost" <|> "rate" <|> "charge" <|> "tariff") >> any
          >> ("room" <|> "deluxe" <|> "suite" <|> "standard" <|> "night") >> b_
     ; b_ >> words ["how"; "much"] >> s1
          >> ("is" <|> "are" <|> "does" <|> "do" <|> "for" <|> "per") >> b_
     ; b_ >> (("what" >> Opt "'" >> "s") <|> words ["what"; "is"]) >> any
          >> ("price" <|> "cost" <|> "rate") >> b_
     ; b_ >> (words ["how"; "expensive"] <|> words ["how"; "costly"] <|> "pricing"
              <|> ("rate" >> Opt "s")) >> b_
     ; b_ >> words ["can"; "you"; "tell"] >> any
          >> ("price" <|> "cost" <|> "rate") >> b_ ]);
    (CHECK_AVAILABILITY,
     [ b_ >> ("available" <|> "availability" <|> "vacant" <|> "free" <|> "open") >> any
          >> ("room" <|> "tonight" <|> "today" <|> "tomorrow") >> b_
     ; b_ >> words ["do"; "you"; "have"] >> s1 >> Opt ("any" >> s1)
          >> (rooms_ <|> "deluxe" <|> "suite" <|> "standard" <|> "vacancy") >> b_
     ; b_ >> ("is" <|> "are") >> any
          >> ("room" <|> "deluxe" <|> "suite" <|> "standard") >> any
          >> ("available" <|> "vacant" <|> "free" <|> "open") >> b_
     ; b_ >> ("any" <|> "got") >> any
          >> (rooms_ <|> "vacancies" <|> "availability") >> any
          >> ("available" <|> "free" <|> "left") >> b_
     ; b_ >> (words ["can"; "i"; "get"] <|> words ["looking"; "for"]) >> any
          >> ("room" <|> "vacancy") >> b_ ]);
    (COMPARE_RATES,
     [ b_ >> ("difference" <|> "compare" <|> "comparison" <|> "vs" <|> "versus") >> any
          >> ("rate" <|> "price" <|> "cost") >> b_
     ; b_ >> ("direct" <|> "booking.com" <|> "ota" <|> "online" <|> "makemytrip" <|> "agoda")
          >> any >> ("rate" <|> "price" <|> "booking" <|> "vs") >> b_
     ; b_ >> ("cheaper" <|> "discount" <|> "save" <|> "saving" <|> "deal" <|> "offer") >> b_
     ; b_ >> Opt ("why" >> s1)
          >> (words ["book"; "direct"] <|> words ["direct"; "booking"]) >> b_
     ; b_ >> (words ["better"; "deal"] <|> words ["best"; "price"]
              <|> words ["lowest"; "rate"]) >> b_ ]);
    (BOOK_ROOM,
     [ b_ >> ("book" <|> "reserve" <|> "reservation" <|> words ["make"; "a"; "booking"]) >> b_
     ; b_ >> words ["i"; "want"] >> s1
          >> (words ["to"; "book"] <|> words ["to"; "reserve"] <|> words ["a"; "room"]) >> b_
     ; b_ >> (words ["can"; "i"] <|> words ["how"; "to"] <|> words ["how"; "do"; "i"]) >> any
          >> ("book" <|> "reserve") >> b_
     ; b_ >> (words ["direct"; "book"] <|> words ["book"; "direct"]
              <|> words ["book"; "from"; "here"]) >> b_
     ; b_ >> (words ["need"; "a"; "room"] <|> words ["want"; "a"; "room"]
              <|> words ["get"; "a"; "room"]) >> b_
     ; b_ >> ("proceed" <|> words ["go"; "ahead"]) >> any
          >> ("booking" <|> "reservation") >> b_ ]);
    (HELP,
     [ b_ >> ("help" <|> "assist" <|> "support") >> b_
     ; b_ >> ("what" <|> "when" <|> "where" <|> "how") >> any
          >> (("check" >> sp_or_dash >> "in") <|> ("check" >> sp_or_dash >> "out")
              <|> "time" <|> "hour") >> b_
     ; b_ >> ("wifi" <|> "internet" <|> ("wi" >> sp_or_dash >> "fi") <|> "password") >> b_
     ; b_ >> ("parking" <|> "park") >> b_
     ; b_ >> ("breakfast" <|> "food" <|> "meal" <|> "dining") >> b_
     ; b_ >> ("cancel" <|> "cancellation" <|> "refund") >> b_
     ; b_ >> ("payment" <|> "pay" <|> "credit" <|> "cash") >> b_
     ; b_ >> ("pet" <|> "pets" <|> "dog" <|> "cat" <|> "animal") >> b_
     ; b_ >> ("allow" <|> "accept" <|> "permit") >> b_
     ; b_ >> (("do you " >> ("have" <|> "offer" <|> "provide")) <|> "is there" <|> "can i"
              <|> ("are" >> any >> "allowed")) >> b_
     ; b_ >> ("policy" <|> "policies" <|> "rule" <|> "rules") >> b_
     ; b_ >> ("pickup" <|> "airport" <|> "transport") >> b_ ]) ].

Definition digits_ (lo hi : nat) : regex := Rep CDigit lo (Some hi).   (* \d{lo,hi} *)
Definition sep_ : regex := Cls (CSet "/-").                            (* [/-] *)

(** [_initialize_entity_patterns]: per entity type, the patterns with their
    canonical value ([None] keeps the matched text). *)
Definition entity_patterns : list (string * list (regex * option string)) :=
  [ ("room_type",
     [ (b_ >> words ["deluxe"; "room"] >> b_, Some "deluxe")
     ; (b_ >> "deluxe" >> b_, Some "deluxe")
     ; (b_ >> words ["suite"; "room"] >> b_, Some "suite")
     ; (b_ >> "suite" >> b_, Some "suite")
     ; (b_ >> words ["standard"; "room"] >> b_, Some "standard")
     ; (b_ >> "standard" >> b_, Some "standard")
     ; (b_ >> words ["executive"; "room"] >> b_, Some "executive")
     ; (b_ >> "executive" >> b_, Some "executive")
     ; (b_ >> words ["luxury"; "room"] >> b_, Some "deluxe")
     ; (b_ >> words ["premium"; "room"] >> b_, Some "deluxe")
     ; (b_ >> words ["basic"; "room"] >> b_, Some "standard")
     ; (b_ >> words ["regular"; "room"] >> b_, Some "standard") ]);
    ("number",
     [ (b_ >> Rep CDigit 1 None >> b_, None)
     ; (b_ >> ("one" <|> "two" <|> "three" <|> "four" <|> "five" <|> "six" <|> "seven"
               <|> "eight" <|> "nine" <|> "ten") >> b_, None) ]);
    ("date",
     [ (b_ >> ("today" <|> "tomorrow" <|> "tonight") >> b_, None)
     ; (b_ >> digits_ 1 2 >> sep_ >> digits_ 1 2 >> sep_ >> digits_ 2 4 >> b_, None) ]);
    ("booking_source",
     [ (b_ >> ("booking.com" <|> "airbnb" <|> "expedia" <|> "ota" <|> "online") >> b_,
        Some "ota")
     ; (b_ >> ("direct" <|> "directly" <|> "website") >> b_, Some "direct") ]) ].

(** The inner loop of [_recognize_intent]: [score += 1] per pattern found. *)
Definition count_matches (patterns : list regex) (text : string) : nat :=
  fold_left (fun score pattern => if search pattern text then S score else score)
            patterns 0.

(** [score / len(patterns)] *)
Definition ratio (score len : nat) : Q :=
  (inject_Z (Z.of_nat score) / inject_Z (Z.of_nat len))%Q.

(** [d[k] = v] on a dict kept in insertion order. *)
Fixpoint dict_set {V : Type} (k : Intent) (v : V) (d : list (Intent * V))
    : list (Intent * V) :=
  match d with
  | [] => [(k, v)]
  | (k', v') :: d' =>
      if Intent_eqb k' k then (k, v) :: d' else (k', v') :: dict_set k v d'
  end.

(** The outer loop of [_recognize_intent]: the dict [intent_scores]. *)
Definition score_intents (table : list (Intent * list regex)) (text : string)
    : list (Intent * Q) :=
  fold_left
    (fun intent_scores entry =>
       let '(intent, patterns) := entry in
       let score := count_matches patterns text in
       if (0 <? score)%nat
       then dict_set intent (Qmin (ratio score (List.length patterns)) 1) intent_scores
       else intent_scores)
    table [].

(** [max(d, key=d.get)] continued from a current best: a later key replaces
    the best only when its value is strictly greater. *)
Fixpoint max_by_value (best : Intent * Q) (d : list (Intent * Q)) : Intent * Q :=
  match d with
  | [] => best
  | x :: d' =>
      max_by_value (if Qle_bool (snd x) (snd best) then best else x) d'
  end.

Definition _recognize_intent (text : string) : Intent * Q :=
  match score_intents intent_patterns text with
  | [] => (UNKNOWN, 0%Q)
  | first :: others => max_by_value first others
  end.

Definition entity_of (entity_type : string) (default_value : option string)
    (m : rmatch) : Entity :=
  mkEntity entity_type
           (match default_value with Some v => v | None => group0 m end)
           (9 # 10).

(** [_extract_entities]: three nested loops appending to [entities]. *)
Definition _extract_entities (text : string) : list Entity :=
  fold_left
    (fun entities entry =>
       let '(entity_type, patterns) := entry in
       fold_left
         (fun entities pd =>
            let '(pattern, default_value) := pd in
            fold_left
              (fun entities m => (entities ++ [entity_of entity_type default_value m])%list)
              (finditer pattern text) entities)
         patterns entities)
    entity_patterns [].

Definition process (text : string) : NLUResult :=
  let text_lower := PyStr.strip (PyStr.lower text) in
  let '(intent, intent_confidence) := _recognize_intent text_lower in
  let entities := _extract_entities text_lower in
  mkNLUResult intent intent_confidence entities text.

End NLU.


(** ** Exceptions *)
Inductive res (A : Type) : Type :=
| Ok (a : A)
| Raise (exn : string).
Arguments Ok {A} a.
Arguments Raise {A} exn.

Definition bind {A B : Type} (m : res A) (k : A -> res B) : res B :=
  match m with
  | Ok a => k a
  | Raise e => Raise e
  end.

Notation "x <- m ;; k" := (bind m (fun x => k))
  (at level 61, m at next level, right associativity).

Fixpoint mapM {A B : Type} (f : A -> res B) (l : list A) : res (list B) :=
  match l with
  | [] => Ok []
  | x :: l' => y <- f x ;; ys <- mapM f l' ;; Ok (y :: ys)
  end.

(** ** Numbers as Python prints them *)
Module PyNum.

(** Round to the nearest integer, ties to the even one: [round(x)] and the
    rounding of the [.0f] presentation. *)
Definition round_half_even (q : Q) : Z :=
  let n := Qnum q in
  let d := Zpos (Qden q) in
  let f := (n / d)%Z in
  let r2 := (2 * (n mod d))%Z in
  if (r2 <? d)%Z then f
  else if (d <? r2)%Z then (f + 1)%Z
  else if Z.even f then f else (f + 1)%Z.

(** Decimal digits of a natural number, most significant first. *)
Definition digits (n : N) : string := NilZero.string_of_uint (N.to_uint n).

(** Commas every three characters, on the reversed digit string. *)
Fixpoint group3_rev (l : list ascii) : list ascii :=
  match l with
  | a :: b :: c :: ((_ :: _) as tl) => a :: b :: c :: ","%char :: group3_rev tl
  | _ => l
  end.

Definition group3 (s : string) : string :=
  string_of_list_ascii (rev (group3_rev (rev (list_ascii_of_string s)))).

(** [format(x, ',.0f')]: sign, then the rounded magnitude with thousands
    separators and no fractional part. *)
Definition format_comma_0f (x : Q) : string :=
  (if (Qnum x <? 0)%Z then "-" else "") ++
  group3 (digits (Z.to_N (Z.abs (round_half_even x)))).

End PyNum.

(** ** config.py: [BusinessConfig] *)
Record BusinessConfig : Type := mkBusinessConfig
  { direct_discount_percentage : Z;
    currency_symbol : string;
    min_confidence_threshold : Q }.

(** The values [_load_business_config] takes when the environment sets none. *)
Definition default_business : BusinessConfig :=
  mkBusinessConfig 15 "₹" (1 # 2).

(** ** database.py *)
Module DB.

(** A row of table [rooms]. *)
Record RoomRow : Type := mkRoomRow
  { row_id : Z; row_name : string; row_room_type : string;
    row_rack_rate : Q; row_direct_rate : Q; row_inventory : Z;
    row_description : option string; row_amenities : option string;
    row_max_occupancy : Z }.

(** A row of table [faqs]. *)
Record FaqRow : Type := mkFaqRow
  { row_question : string; row_answer : string;
    row_category : option string; row_priority : Z }.

Record Store : Type := mkStore { rooms : list RoomRow; faqs : list FaqRow }.

(** The dict [get_rooms] builds per row. *)
Record Room : Type := mkRoom
  { room_id : Z; name : string; room_type : string;
    rack_rate : Q; direct_rate : Q; inventory : Z;
    description : option string; amenities : option string;
    max_occupancy : Z; savings : Q; discount_percentage : Z }.

(** The dict [search_faqs] builds per row. *)
Record Faq : Type := mkFaq
  { question : string; answer : string; category : option string }.

Fixpoint insert_by {A : Type} (le : A -> A -> bool) (x : A) (l : list A) : list A :=
  match l with
  | [] => [x]
  | y :: l' => if le x y then x :: l else y :: insert_by le x l'
  end.

(** [ORDER BY]: a stable sort, rows with equal keys stay in table order. *)
Definition order_by {A : Type} (le : A -> A -> bool) (l : list A) : list A :=
  fold_right (insert_by le) [] l.

(** The loop body of [get_rooms]; the division raises on a zero rack rate. *)
Definition room_of_row (r : RoomRow) : res Room :=
  if Qeq_bool (row_rack_rate r) 0
  then Raise "ZeroDivisionError"
  else Ok (mkRoom (row_id r) (row_name r) (row_room_type r)
                  (row_rack_rate r) (row_direct_rate r) (row_inventory r)
                  (row_description r) (row_amenities r) (row_max_occupancy r)
                  (row_rack_rate r - row_direct_rate r)%Q
                  (PyNum.round_half_even
                     (((row_rack_rate r - row_direct_rate r) / row_rack_rate r) * 100)%Q)).

(** [SELECT * FROM rooms [WHERE inventory > 0] ORDER BY rack_rate] *)
Definition get_rooms (db : Store) (available_only : bool) : res (list Room) :=
  let selected :=
    if available_only
    then filter (fun r => (0 <? row_inventory r)%Z) (rooms db)
    else rooms db in
  mapM room_of_row
       (order_by (fun a b => Qle_bool (row_rack_rate a) (row_rack_rate b)) selected).

(** [text LIKE '%term%'] for a term without the wildcards [%] and [_]:
    SQLite's LIKE ignores the case of ASCII letters. *)
Definition like (term text : string) : bool :=
  PyStr.contains (PyStr.lower term) (PyStr.lower text).

(** [WHERE question LIKE ? OR answer LIKE ? ORDER BY priority DESC LIMIT 5] *)
Definition search_faqs (db : Store) (search_term : string) : list Faq :=
  map (fun f => mkFaq (row_question f) (row_answer f) (row_category f))
      (firstn 5
         (order_by (fun a b => (row_priority b <=? row_priority a)%Z)
            (filter (fun f => like search_term (row_question f)
                              || like search_term (row_answer f))
                    (faqs db)))).

End DB.

(** ** response_generator.py *)
Module RG.
Import PyStr DB.

(** [ResponseContext]; the entities are the dicts with keys [type], [value]
    and [confidence].  The object is mutable: a handler returns the context
    as it leaves it. *)
Record ResponseContext : Type := mkContext
  { intent : NLU.Intent;
    entities : list NLU.Entity;
    user_query : string;
    room_data : option (list Room) }.

Definition set_room_data (context : ResponseContext) (rooms : list Room)
    : ResponseContext :=
  mkContext (intent context) (entities context) (user_query context) (Some rooms).

(** The truth value of [context.room_data]: [None] and [[]] are false. *)
Definition has_room_data (context : ResponseContext) : bool :=
  match room_data context with
  | Some (_ :: _) => true
  | _ => false
  end.

(** [context.room_data] read as a list. *)
Definition rooms_of (context : ResponseContext) : list Room :=
  match room_data context with
  | Some rooms => rooms
  | None => []
  end.

(** [[e for e in context.entities if e['type'] == 'room_type']] *)
Definition room_type_entities (context : ResponseContext) : list NLU.Entity :=
  filter (fun e => String.eqb (NLU.e_type e) "room_type") (entities context).

(** [room_type.lower() in r['name'].lower()] *)
Definition name_matches (room_type : string) (r : Room) : bool :=
  contains (lower room_type) (lower (name r)).

Definition str_len {A : Type} (l : list A) : string := of_Z (Z.of_nat (List.length l)).

Section Generator.

Variable cfg : BusinessConfig.
Variable db : Store.

(** [business_rules['price_format'].format(price)] with the format
    [currency_symbol + '{:,.0f}'] (a symbol free of braces). *)
Definition _format_price (price : Q) : string :=
  currency_symbol cfg ++ PyNum.format_comma_0f price.

(** [if not context.room_data: context.room_data = get_rooms()] *)
Definition fetch_if_missing (context : ResponseContext) : res ResponseContext :=
  if has_room_data context then Ok context
  else rooms <- get_rooms db true ;; Ok (set_room_data context rooms).

Definition greeting_template : string :=
  "Hi there! ðŸ‘‹ I'm your booking assistant. I can show you rooms, prices, and help you save 15% by booking direct. What are you looking for?".

Definition goodbye_template : string :=
  "Thanks for chatting! ðŸ™Œ Remember, book direct to save 15%. Have a wonderful day!".

Definition help_template : string :=
  "I can help you with:" ++ nl ++ "â€¢ View rooms & amenities" ++ nl
  ++ "â€¢ Check prices & compare rates" ++ nl ++ "â€¢ Book rooms directly" ++ nl
  ++ "â€¢ Answer FAQs" ++ nl ++ nl ++ "What would you like to know?".

Definition _handle_greeting (context : ResponseContext) : res (string * ResponseContext) :=
  Ok (greeting_template, context).

Definition _handle_goodbye (context : ResponseContext) : res (string * ResponseContext) :=
  Ok (goodbye_template, context).

Definition faq_keywords : list (string * list string) :=
  [ ("check-in", ["check-in"; "check in"; "checkin"; "check out"; "checkout"; "time"; "hour"]);
    ("WiFi", ["wifi"; "internet"; "wi-fi"; "password"; "network"]);
    ("cancellation", ["cancel"; "cancellation"; "refund"]);
    ("parking", ["parking"; "park"; "vehicle"; "car"]);
    ("breakfast", ["breakfast"; "food"; "meal"; "dining"]);
    ("payment", ["payment"; "pay"; "credit"; "cash"; "card"]);
    ("pets", ["pet"; "pets"; "dog"; "cat"; "animal"]);
    ("airport", ["airport"; "pickup"; "transport"; "shuttle"]) ].

(** The loop over [faq_keywords.items()], leaving at the first category
    whose search returns something. *)
Fixpoint find_faqs (query_lower : string) (table : list (string * list string))
    (faqs : list Faq) : list Faq :=
  match table with
  | [] => faqs
  | (search_term, keywords) :: table' =>
      if existsb (fun keyword => contains keyword query_lower) keywords then
        match search_faqs db search_term with
        | [] => find_faqs query_lower table' []
        | found => found
        end
      else find_faqs query_lower table' faqs
  end.

Definition _handle_help (context : ResponseContext) : res (string * ResponseContext) :=
  let query_lower := lower (user_query context) in
  match find_faqs query_lower faq_keywords [] with
  | faq :: _ =>
      Ok ("**" ++ question faq ++ "**" ++ nl ++ nl ++ answer faq ++ nl ++ nl
          ++ "Need help with something else?", context)
  | [] => Ok (help_template, context)
  end.

(** The text [_handle_room_query] builds from the rooms it is left with. *)
Definition room_query_response (rooms : list Room) : string :=
  match rooms with
  | [room] =>
      (* Single room response - more conversational *)
      let savings := (rack_rate room - direct_rate room)%Q in
      "Great choice! Our **" ++ name room ++ "** is available ("
      ++ of_Z (inventory room) ++ " rooms left)." ++ nl ++ nl
      ++ "ðŸ’° **Pricing:** OTA sites charge " ++ _format_price (rack_rate room)
      ++ "/night, but book direct for just " ++ _format_price (direct_rate room)
      ++ " - save " ++ _format_price savings ++ "!" ++ nl ++ nl
      ++ "Ready to book?"
  | _ =>
      (* Multiple rooms - show comparison *)
      let response := "We have " ++ str_len rooms ++ " room types available:" ++ nl ++ nl in
      let response :=
        fold_left
          (fun response room =>
             let savings := (rack_rate room - direct_rate room)%Q in
             response
             ++ ("**" ++ name room ++ "** - " ++ _format_price (direct_rate room) ++ "/night ")
             ++ ("(save " ++ _format_price savings ++ "!) â€¢ " ++ of_Z (inventory room)
                 ++ " available" ++ nl))
          rooms response in
      response ++ nl ++ "âœ¨ *All prices are 15% off OTA rates when you book direct!*"
  end.

Definition no_rooms_apology : string :=
  "I apologize, but we don't have any rooms available at the moment. Please check back later.".

Definition _handle_room_query (context : ResponseContext) : res (string * ResponseContext) :=
  context <- fetch_if_missing context ;;
  if negb (has_room_data context) then Ok (no_rooms_apology, context)
  else
    (* Filter by room type if entity exists *)
    let context :=
      match room_type_entities context with
      | e :: _ =>
          set_room_data context (filter (name_matches (NLU.e_value e)) (rooms_of context))
      | [] => context
      end in
    Ok (room_query_response (rooms_of context), context).

(** [matching_rooms], empty when no room-type entity is present. *)
Definition matching_rooms (context : ResponseContext) : list Room :=
  match room_type_entities context with
  | e :: _ => filter (name_matches (NLU.e_value e)) (rooms_of context)
  | [] => []
  end.

(** The text [_handle_price_query] builds once the rooms are in the context. *)
Definition price_query_response (context : ResponseContext) : string :=
  match matching_rooms context with
  | room :: _ =>
      let savings := (rack_rate room - direct_rate room)%Q in
      "**" ++ name room ++ " Pricing:**" ++ nl ++ nl
      ++ "ðŸ·ï¸ OTA Platforms: " ++ _format_price (rack_rate room) ++ nl
      ++ "âœ¨ Direct Booking: " ++ _format_price (direct_rate room) ++ nl ++ nl
      ++ "ðŸ’° **You save " ++ _format_price savings ++ "** by booking directly!" ++ nl ++ nl
      ++ "That's a " ++ of_Z (direct_discount_percentage cfg)
      ++ "% discount compared to Booking.com, Expedia, etc."
  | [] =>
      (* Show all prices in a clean format *)
      let response := "**Direct Booking Prices** (15% off OTA rates):" ++ nl ++ nl in
      let response :=
        fold_left
          (fun response room =>
             let savings := (rack_rate room - direct_rate room)%Q in
             response
             ++ ("â€¢ **" ++ name room ++ ":** " ++ _format_price (direct_rate room) ++ "/night ")
             ++ ("*(save " ++ _format_price savings ++ ")*" ++ nl))
          (rooms_of context) response in
      response ++ nl
      ++ "ðŸ’¡ These are direct booking prices - all 15% cheaper than Booking.com/MakeMyTrip!"
  end.

Definition _handle_price_query (context : ResponseContext) : res (string * ResponseContext) :=
  context <- fetch_if_missing context ;;
  Ok (price_query_response context, context).

(** The tail of [_handle_availability]: general availability. *)
Definition general_availability (context : ResponseContext) : string :=
  match filter (fun r => (0 <? inventory r)%Z) (rooms_of context) with
  | [] =>
      "Unfortunately, we're fully booked at the moment. Would you like me to check alternative dates?"
  | available =>
      let response := "We have " ++ str_len available ++ " room types available:" ++ nl ++ nl in
      let response :=
        fold_left
          (fun response room =>
             response ++ ("- " ++ name room ++ ": " ++ of_Z (inventory room) ++ " rooms at "
                          ++ _format_price (direct_rate room) ++ nl))
          available response in
      response ++ nl ++ "ðŸ’¡ Book directly to save 15%!"
  end.

Definition sold_out_message (room : Room) : string :=
  "Sorry, " ++ name room ++ " is currently sold out. Can I suggest another room type?".

(** The text [_handle_availability] builds once the rooms are in the context. *)
Definition availability_response (context : ResponseContext) : string :=
  match matching_rooms context with
  | room :: _ =>
      if (0 <? inventory room)%Z then
        "Yes! We have **" ++ of_Z (inventory room) ++ " " ++ name room
        ++ "(s)** available." ++ nl ++ nl
        ++ "Direct booking rate: " ++ _format_price (direct_rate room) ++ nl
        ++ "(Save " ++ _format_price (savings room) ++ " vs OTA platforms)" ++ nl ++ nl
        ++ "Would you like to proceed with booking?"
      else sold_out_message room
  | [] => general_availability context
  end.

Definition _handle_availability (context : ResponseContext) : res (string * ResponseContext) :=
  context <- fetch_if_missing context ;;
  Ok (availability_response context, context).

Definition Qsum (l : list Q) : Q := fold_left Qplus l 0%Q.

(** The text [_handle_rate_comparison] builds once the rooms are in the
    context; the three totals are computed and not shown. *)
Definition rate_comparison_response (context : ResponseContext) : string :=
  let response := "**Direct Booking vs OTA Platforms:**" ++ nl ++ nl in
  let response := response ++ ("Here's how much you save by booking directly:" ++ nl ++ nl) in
  let total_ota := Qsum (map rack_rate (rooms_of context)) in
  let total_direct := Qsum (map direct_rate (rooms_of context)) in
  let total_savings := (total_ota - total_direct)%Q in
  let response :=
    fold_left
      (fun response room =>
         let savings := (rack_rate room - direct_rate room)%Q in
         response
         ++ ("**" ++ name room ++ ":**" ++ nl)
         ++ ("- Booking.com/Expedia: " ++ _format_price (rack_rate room) ++ nl)
         ++ ("- Our Direct Rate: " ++ _format_price (direct_rate room) ++ nl)
         ++ ("- Your Savings: " ++ _format_price savings ++ nl ++ nl))
      (rooms_of context) response in
  response
  ++ ("ðŸŽ¯ **Bottom Line:** By booking directly, you avoid OTA commissions and get "
      ++ of_Z (direct_discount_percentage cfg) ++ "% off!" ++ nl ++ nl
      ++ "No hidden fees. No middleman. Just better prices.").

Definition _handle_rate_comparison (context : ResponseContext)
    : res (string * ResponseContext) :=
  context <- fetch_if_missing context ;;
  Ok (rate_comparison_response context, context).

(** The text for a booking request that names no bookable room. *)
Definition booking_options_response (context : ResponseContext) : string :=
  let room_list :=
    join nl
      (map (fun r => "â€¢ **" ++ name r ++ "** - " ++ _format_price (direct_rate r)
                     ++ "/night (" ++ of_Z (inventory r) ++ " available)")
           (rooms_of context)) in
  "Absolutely! I'd be happy to help you book directly and save 15%! ðŸŽ‰" ++ nl ++ nl
  ++ "**Available rooms:**" ++ nl ++ room_list ++ nl ++ nl
  ++ "ðŸ“ž **Book now:** Call +91-XXXX-XXXX or visit www.simplotel.com" ++ nl
  ++ "ðŸ’° **Use code DIRECT15** for your 15% discount!" ++ nl ++ nl
  ++ "Which room type interests you?".

(** The tail of [_handle_booking]: no specific room, show the options. *)
Definition booking_options (context : ResponseContext) : res (string * ResponseContext) :=
  context <- fetch_if_missing context ;;
  Ok (booking_options_response context, context).

(** The text for a booking request that names a room in the context. *)
Definition booking_response (room : Room) : string :=
  let savings := (rack_rate room - direct_rate room)%Q in
  "Perfect! Let me help you book the **" ++ name room ++ "**." ++ nl ++ nl
  ++ "ðŸ“ž **Call us at: +91-XXXX-XXXX** (24/7 booking line)" ++ nl
  ++ "ðŸ’» **Or book online at: www.simplotel.com/direct-booking**" ++ nl ++ nl
  ++ "ðŸ’° **Your Price:** " ++ _format_price (direct_rate room)
  ++ "/night (save " ++ _format_price savings ++ "!)" ++ nl
  ++ "âœ… **Mention code:** DIRECT15 to confirm your discount" ++ nl ++ nl
  ++ "Ready to book now? Just call or visit our website!".

Definition _handle_booking (context : ResponseContext) : res (string * ResponseContext) :=
  match room_type_entities context with
  | e :: _ =>
      (* User specified room type *)
      context <- fetch_if_missing context ;;
      match filter (name_matches (NLU.e_value e)) (rooms_of context) with
      | room :: _ => Ok (booking_response room, context)
      | [] => booking_options context
      end
  | [] => booking_options context
  end.

Definition _handle_unknown (context : ResponseContext) : res (string * ResponseContext) :=
  Ok ("I'm not sure I understood that correctly. I can help you with:" ++ nl ++ nl
      ++ "- Viewing available rooms and prices" ++ nl
      ++ "- Comparing direct booking vs OTA rates" ++ nl
      ++ "- Checking room availability" ++ nl
      ++ "- Making reservations" ++ nl ++ nl
      ++ "What would you like to know?", context).

(** [handler_map.get(context.intent, self._handle_unknown)(context)] *)
Definition generate_response (context : ResponseContext) : res (string * ResponseContext) :=
  match intent context with
  | NLU.GREETING => _handle_greeting context
  | NLU.GOODBYE => _handle_goodbye context
  | NLU.HELP => _handle_help context
  | NLU.QUERY_ROOMS => _handle_room_query context
  | NLU.QUERY_PRICES => _handle_price_query context
  | NLU.CHECK_AVAILABILITY => _handle_availability context
  | NLU.COMPARE_RATES => _handle_rate_comparison context
  | NLU.BOOK_ROOM => _handle_booking context
  | NLU.UNKNOWN => _handle_unknown context
  end.

End Generator.

(** [build_context_prompt]: the system prompt of the language-model path. *)
Definition intent_guidance (i : NLU.Intent) : option string :=
  match i with
  | NLU.QUERY_ROOMS => Some (nl ++ nl ++ "User wants to see available rooms. List all rooms with names, key features, and BOTH prices with savings.")
  | NLU.QUERY_PRICES => Some (nl ++ nl ++ "User asking about prices. Show BOTH Rack Rate and Direct Rate with exact savings amount.")
  | NLU.COMPARE_RATES => Some (nl ++ nl ++ "User comparing prices. Show side-by-side comparison with OTA vs Direct rates and total savings.")
  | NLU.CHECK_AVAILABILITY => Some (nl ++ nl ++ "User checking availability. Confirm available rooms with prices and offer to book.")
  | NLU.BOOK_ROOM => Some (nl ++ nl ++ "User wants to book. Ask for: room type (if not mentioned), dates, guest name. Confirm the direct booking savings.")
  | NLU.GREETING => Some (nl ++ nl ++ "Greet warmly and briefly mention you can help with rooms, prices, and bookings.")
  | NLU.HELP => Some (nl ++ nl ++ "List what you can help with: view rooms, check prices, compare rates, make bookings. Ask what they need.")
  | _ => None
  end.

Definition build_context_prompt (i : NLU.Intent) (entities : list NLU.Entity) : string :=
  let base_prompt :=
    "You are a quick, helpful hotel booking assistant. Keep responses SHORT (1-3 sentences) and NATURAL."
    ++ nl ++ nl ++ "RULES:" ++ nl
    ++ "- Show room name, key feature, and BOTH prices (OTA vs Direct)" ++ nl
    ++ "- Direct booking is 15% cheaper - mention the â‚¹ saved" ++ nl
    ++ "- Be friendly and conversational, not robotic" ++ nl
    ++ "- Don't repeat yourself or over-explain" ++ nl ++ nl
    ++ "Example: " ++ dq
    ++ "Our Deluxe Room has a king bed and city view. OTA price: â‚¹3,000/night. Book direct: â‚¹2,550 (save â‚¹450!). Want to book?"
    ++ dq in
  let base_prompt :=
    match intent_guidance i with
    | Some guidance => base_prompt ++ guidance
    | None => base_prompt
    end in
  match filter (fun e => String.eqb (NLU.e_type e) "room_type") entities with
  | [] => base_prompt
  | room_entities =>
      base_prompt ++ (nl ++ nl ++ "User mentioned room type: "
                      ++ join ", " (map NLU.e_value room_entities) ++ ". Focus on this room.")
  end.

End RG.

(** ** brain.py *)
Module Brain.
Import PyStr DB.

(** A tool call of a completion: [id], [function.name], [function.arguments]. *)
Record ToolCall : Type := mkToolCall
  { tc_id : string; tc_name : string; tc_arguments : string }.

(** [response.choices[i].message]: [content] may be [None]. *)
Record ChatMessage : Type := mkChatMessage
  { content : option string; tool_calls : list ToolCall }.

(** The entries of [messages]. *)
Inductive Message : Type :=
| SystemMsg (content : string)
| UserMsg (content : string)
| AssistantToolCalls (calls : list ToolCall)
| ToolMsg (tool_call_id name content : string).

(** [client.chat.completions.create]: given the messages and whether the
    tools are offered, the list [response.choices], or an exception
    (network error, timeout, malformed reply). *)
Definition Client : Type := list Message -> bool -> res (list ChatMessage).

Section Orchestrator.

Variable cfg : BusinessConfig.
Variable db : Store.
(** [client] is [None] when no API key is configured. *)
Variable client : option Client.
Variable json_dumps : list Room -> string.

Definition create (messages : list Message) (tools : bool) : res (list ChatMessage) :=
  match client with
  | Some c => c messages tools
  | None => Raise "AttributeError"
  end.

(** [choices[0].message] *)
Definition first_choice (choices : list ChatMessage) : res ChatMessage :=
  match choices with
  | m :: _ => Ok m
  | [] => Raise "IndexError"
  end.

Definition _fallback_response (nlu_result : NLU.NLUResult) (entities : list NLU.Entity)
    (room_data : option (list Room)) : res string :=
  let context :=
    RG.mkContext (NLU.intent nlu_result) entities (NLU.original_text nlu_result) room_data in
  r <- RG.generate_response cfg db context ;; Ok (fst r).

(** The body of the [try] block of [_generate_ai_response]. *)
Definition ai_attempt (user_text : string) (nlu_result : NLU.NLUResult)
    (room_data : option (list Room)) (entities : list NLU.Entity) : res (option string) :=
  let context_prompt := RG.build_context_prompt (NLU.intent nlu_result) entities in
  let system_content :=
    match room_data with
    | Some ((_ :: _) as rooms) =>
        context_prompt ++ (nl ++ nl ++ "Available rooms data: " ++ json_dumps rooms)
    | _ => context_prompt
    end in
  let messages := [SystemMsg system_content; UserMsg user_text] in
  choices <- create messages true ;;
  response_message <- first_choice choices ;;
  let no_tool :=
    match content response_message with
    | Some (String c s) => Ok (Some (String c s))
    | _ => r <- _fallback_response nlu_result entities room_data ;; Ok (Some r)
    end in
  match tool_calls response_message with
  | tool_call :: _ =>
      if String.eqb (tc_name tool_call) "get_rooms" then
        rooms_data <- get_rooms db true ;;
        let messages :=
          (messages ++ [AssistantToolCalls [tool_call];
                        ToolMsg (tc_id tool_call) (tc_name tool_call)
                                (json_dumps rooms_data)])%list in
        final_choices <- create messages false ;;
        final_message <- first_choice final_choices ;;
        Ok (content final_message)
      else no_tool
  | [] => no_tool
  end.

(** [try: ... except Exception: return _fallback_response(...)] *)
Definition _generate_ai_response (user_text : string) (nlu_result : NLU.NLUResult)
    (room_data : option (list Room)) (entities : list NLU.Entity) : res (option string) :=
  match ai_attempt user_text nlu_result room_data entities with
  | Ok r => Ok r
  | Raise _ => r <- _fallback_response nlu_result entities room_data ;; Ok (Some r)
  end.

Definition needs_rooms (i : NLU.Intent) : bool :=
  match i with
  | NLU.QUERY_ROOMS | NLU.QUERY_PRICES | NLU.CHECK_AVAILABILITY | NLU.COMPARE_RATES => true
  | _ => false
  end.

(** [get_agent_response]; the returned value is a [str], or [None] where
    the language-model path hands back a missing content.  The final
    [log_query] catches its own failures and does not touch the response. *)
Definition get_agent_response (user_text : string) (use_ai : option bool)
    : res (option string) :=
  let nlu_result := NLU.process user_text in
  room_data <-
    (if needs_rooms (NLU.intent nlu_result)
     then rooms <- get_rooms db true ;; Ok (Some rooms)
     else Ok None) ;;
  let entities := NLU.entities nlu_result in
  let should_use_ai := match use_ai with Some b => b | None => false end in
  match should_use_ai, client with
  | true, Some _ => _generate_ai_response user_text nlu_result room_data entities
  | _, _ =>
      let context := RG.mkContext (NLU.intent nlu_result) entities user_text room_data in
      r <- RG.generate_response cfg db context ;; Ok (Some (fst r))
  end.

End Orchestrator.

End Brain.

(** ** The rows [init_db] seeds *)
Module Seed.
Import DB.

Definition rooms_with (suite_inventory : Z) : list RoomRow :=
  [ mkRoomRow 1 "Deluxe Room" "deluxe" 5000 4250 10
      (Some "Spacious room with premium amenities") (Some "WiFi, TV, AC, Mini-bar") 2;
    mkRoomRow 2 "Suite Room" "suite" 8000 6800 suite_inventory
      (Some "Luxury suite with separate living area")
      (Some "WiFi, TV, AC, Mini-bar, Bathtub, Balcony") 4;
    mkRoomRow 3 "Standard Room" "standard" 3000 2550 15
      (Some "Comfortable room with essential amenities") (Some "WiFi, TV, AC") 2;
    mkRoomRow 4 "Executive Room" "executive" 6500 5525 8
      (Some "Business-class room with work desk") (Some "WiFi, TV, AC, Mini-bar, Work Desk") 2 ].

Definition faq_rows : list FaqRow :=
  [ mkFaqRow "What is the check-in time?"
      "Check-in time is 2:00 PM and check-out is 12:00 PM." (Some "policies") 10;
    mkFaqRow "Do you offer airport pickup?"
      "Yes, we offer complimentary airport pickup for suite bookings. For other rooms, it's available at ₹500."
      (Some "services") 8;
    mkFaqRow "Is WiFi free?" "Yes, high-speed WiFi is complimentary for all guests."
      (Some "amenities") 9;
    mkFaqRow "What is your cancellation policy?"
      "Free cancellation up to 24 hours before check-in. After that, one night's charge applies."
      (Some "policies") 10;
    mkFaqRow "Do you have parking facilities?" "Yes, we have free parking for all guests."
      (Some "facilities") 7;
    mkFaqRow "Is breakfast included?"
      "Breakfast is complimentary for direct bookings. OTA bookings can add breakfast for ₹300 per person."
      (Some "dining") 9;
    mkFaqRow "What payment methods do you accept?"
      "We accept cash, credit/debit cards, UPI, and bank transfers." (Some "payments") 6;
    mkFaqRow "Are pets allowed?"
      "Yes, we are pet-friendly. Additional charge of ₹500 per night applies."
      (Some "policies") 5 ].

(** The store as seeded (five suites). *)
Definition store : Store := mkStore (rooms_with 5) faq_rows.

(** The seeded store once every suite is taken. *)
Definition store_suite_sold_out : Store := mkStore (rooms_with 0) faq_rows.

End Seed.


(** * Properties *)

Open Scope nat_scope.

(** ** Strings *)
Section StringFacts.
Import PyStr.

(** Every character is white space (true of the empty string). *)
Fixpoint all_space (s : string) : bool :=
  match s with
  | EmptyString => true
  | String c s' => isspace c && all_space s'
  end.

Lemma isspace_not_upper c : isspace c = true -> isupper c = false.
Proof.
  unfold isspace, isupper. cbv zeta.
  destruct (65 <=? nat_of_ascii c) eqn:E; [|reflexivity].
  apply Nat.leb_le in E. intros H.
  apply orb_true_iff in H. destruct H as [H|H];
    apply andb_true_iff in H; destruct H as [_ H]; apply Nat.leb_le in H; lia.
Qed.

Lemma lower_all_space s : all_space s = true -> lower s = s.
Proof.
  induction s as [|c s IH]; simpl; [reflexivity|].
  intros H. apply andb_true_iff in H. destruct H as [Hc Hs].
  unfold lower_char. rewrite (isspace_not_upper c Hc), (IH Hs). reflexivity.
Qed.

Lemma lstrip_all_space s : all_space s = true -> lstrip s = "".
Proof.
  induction s as [|c s IH]; simpl; [reflexivity|].
  intros H. apply andb_true_iff in H. destruct H as [Hc Hs].
  rewrite Hc. exact (IH Hs).
Qed.

Lemma strip_lower_all_space s : all_space s = true -> strip (lower s) = "".
Proof.
  intros H. rewrite (lower_all_space s H). unfold strip.
  rewrite (lstrip_all_space s H). reflexivity.
Qed.

End StringFacts.

(** ** Intent scoring *)
Section IntentScoring.
Import Re NLU.

(** The score of one table entry: matched patterns over patterns. *)
Definition pattern_score (patterns : list regex) (text : string) : Q :=
  ratio (count_matches patterns text) (List.length patterns).

(** What [score_intents] collects, read off the table entry by entry. *)
Definition scored (table : list (Intent * list regex)) (text : string)
    : list (Intent * Q) :=
  flat_map
    (fun entry =>
       if (0 <? count_matches (snd entry) text)%nat
       then [(fst entry, Qmin (pattern_score (snd entry) text) 1)]
       else [])
    table.

Lemma count_matches_from patterns text n :
  fold_left (fun score pattern => if search pattern text then S score else score)
            patterns n
  = n + count_matches patterns text.
Proof.
  unfold count_matches. revert n.
  induction patterns as [|p ps IH]; intros n; simpl; [lia|].
  rewrite IH. rewrite (IH (if search p text then 1 else 0)).
  destruct (search p text); lia.
Qed.

Lemma count_matches_le patterns text :
  count_matches patterns text <= List.length patterns.
Proof.
  induction patterns as [|p ps IH]; [apply Nat.le_refl|].
  unfold count_matches in *. simpl.
  rewrite count_matches_from. unfold count_matches.
  destruct (search p text); simpl; lia.
Qed.

(** The score counts the patterns found somewhere in the text. *)
Lemma count_matches_filter patterns text :
  count_matches patterns text
  = List.length (filter (fun pattern => search pattern text) patterns).
Proof.
  induction patterns as [|p ps IH]; [reflexivity|].
  unfold count_matches in *. simpl.
  rewrite count_matches_from. unfold count_matches. rewrite IH.
  destruct (search p text); reflexivity.
Qed.

Lemma dict_set_fresh (V : Type) k (v : V) d :
  ~ In k (map fst d) -> dict_set k v d = (d ++ [(k, v)])%list.
Proof.
  induction d as [|[k' v'] d IH]; simpl; intros H; [reflexivity|].
  destruct (Intent_eqb k' k) eqn:E.
  - exfalso. apply H. left. destruct k', k; simpl in E; congruence.
  - rewrite IH; [reflexivity|]. intros Hin. apply H. right. exact Hin.
Qed.

Lemma scored_keys table text x :
  In x (scored table text) -> In (fst x) (map fst table).
Proof.
  unfold scored. intros H. apply in_flat_map in H.
  destruct H as [e [He Hx]].
  destruct (0 <? count_matches (snd e) text)%nat; simpl in Hx; [|contradiction].
  destruct Hx as [<-|[]]. simpl. apply in_map. exact He.
Qed.

Lemma score_intents_from table text acc :
  NoDup (map fst table) ->
  (forall k, In k (map fst acc) -> ~ In k (map fst table)) ->
  fold_left
    (fun intent_scores entry =>
       let '(intent, patterns) := entry in
       let score := count_matches patterns text in
       if (0 <? score)%nat
       then dict_set intent (Qmin (ratio score (List.length patterns)) 1) intent_scores
       else intent_scores)
    table acc
  = (acc ++ scored table text)%list.
Proof.
  revert acc. induction table as [|[i ps] table IH]; intros acc Hnd Hacc; simpl.
  - rewrite app_nil_r. reflexivity.
  - inversion Hnd as [|? ? Hi Hnd']; subst.
    unfold pattern_score. simpl.
    destruct (0 <? count_matches ps text)%nat eqn:E.
    + rewrite dict_set_fresh.
      * rewrite IH; [rewrite <- app_assoc; reflexivity | exact Hnd' |].
        intros k Hk. rewrite map_app in Hk. apply in_app_or in Hk.
        destruct Hk as [Hk|[<-|[]]]; [|exact Hi].
        intros Hin. apply (Hacc k Hk). right. exact Hin.
      * intros Hin. apply (Hacc i Hin). left. reflexivity.
    + simpl. apply IH; [exact Hnd'|].
      intros k Hk Hin. apply (Hacc k Hk). right. exact Hin.
Qed.

Lemma score_intents_scored table text :
  NoDup (map fst table) -> score_intents table text = scored table text.
Proof.
  intros Hnd. unfold score_intents.
  apply (score_intents_from table text [] Hnd).
  intros k [].
Qed.

Lemma intent_patterns_keys :
  map fst intent_patterns =
  [GREETING; GOODBYE; QUERY_ROOMS; QUERY_PRICES; CHECK_AVAILABILITY;
   COMPARE_RATES; BOOK_ROOM; HELP].
Proof. reflexivity. Qed.

Lemma intent_patterns_NoDup : NoDup (map fst intent_patterns).
Proof.
  rewrite intent_patterns_keys.
  repeat (constructor; [simpl; intuition discriminate|]). constructor.
Qed.

(** The entry [max_by_value] returns splits the dict: strictly smaller
    values before it, no greater value after it. *)
Lemma max_by_value_split d : forall best,
  exists l1 l2,
    best :: d = (l1 ++ max_by_value best d :: l2)%list
    /\ Forall (fun x => (snd x < snd (max_by_value best d))%Q) l1
    /\ Forall (fun x => (snd x <= snd (max_by_value best d))%Q) l2.
Proof.
  induction d as [|x d IH]; intros best; simpl.
  - exists [], []. repeat split; constructor.
  - destruct (Qle_bool (snd x) (snd best)) eqn:E.
    + apply Qle_bool_iff in E.
      destruct (IH best) as [l1 [l2 [Heq [H1 H2]]]].
      set (m := max_by_value best d) in *. clearbody m.
      destruct l1 as [|y l1]; simpl in Heq; injection Heq as Hb Hd.
      * exists [], (x :: d). simpl. repeat split.
        -- rewrite Hb. reflexivity.
        -- constructor.
        -- constructor; [rewrite <- Hb; exact E | rewrite Hd; exact H2].
      * subst y. exists (best :: x :: l1), l2. simpl. repeat split.
        -- rewrite Hd. reflexivity.
        -- inversion H1 as [|? ? Hlt Hl1]; subst.
           constructor; [exact Hlt|]. constructor; [|exact Hl1].
           eapply Qle_lt_trans; eassumption.
        -- exact H2.
    + assert (Hlt : (snd best < snd x)%Q).
      { apply Qnot_le_lt. intros H. apply Qle_bool_iff in H. congruence. }
      destruct (IH x) as [l1 [l2 [Heq [H1 H2]]]].
      set (m := max_by_value x d) in *. clearbody m.
      exists (best :: l1), l2. simpl. repeat split.
      * rewrite Heq. reflexivity.
      * constructor; [|exact H1].
        destruct l1 as [|y l1]; simpl in Heq; injection Heq as Hb Hd.
        -- rewrite <- Hb. exact Hlt.
        -- subst y. inversion H1; subst. eapply Qlt_trans; eassumption.
      * exact H2.
Qed.

Lemma max_by_value_In d best : In (max_by_value best d) (best :: d).
Proof.
  destruct (max_by_value_split d best) as [l1 [l2 [Heq _]]].
  rewrite Heq. apply in_or_app. right. left. reflexivity.
Qed.

(** A split of the collected scores is a split of the table. *)
Lemma scored_split table text : forall l1 i q l2,
  scored table text = (l1 ++ (i, q) :: l2)%list ->
  exists before patterns after,
    table = (before ++ (i, patterns) :: after)%list
    /\ l1 = scored before text /\ l2 = scored after text
    /\ 0 < count_matches patterns text
    /\ q = Qmin (pattern_score patterns text) 1.
Proof.
  induction table as [|[k ps] table IH]; intros l1 i q l2 H.
  - destruct l1; discriminate.
  - unfold scored in H. simpl in H. fold (scored table text) in H.
    destruct (0 <? count_matches ps text)%nat eqn:E.
    + destruct l1 as [|y l1]; simpl in H.
      * inversion H; subst. exists [], ps, table.
        repeat split. apply Nat.ltb_lt. exact E.
      * inversion H as [[Hy Hrest]]. subst y.
        destruct (IH _ _ _ _ Hrest) as [b [p [a [Ht [Hl1 [Hl2 [Hc Hq]]]]]]].
        exists ((k, ps) :: b), p, a. rewrite Ht.
        repeat split; try assumption.
        unfold scored. simpl. rewrite E. simpl. f_equal. exact Hl1.
    + simpl in H.
      destruct (IH _ _ _ _ H) as [b [p [a [Ht [Hl1 [Hl2 [Hc Hq]]]]]]].
      exists ((k, ps) :: b), p, a. rewrite Ht.
      repeat split; try assumption.
      unfold scored. simpl. rewrite E. simpl. exact Hl1.
Qed.

Lemma pattern_score_bounds patterns text :
  0 < count_matches patterns text ->
  (0 < pattern_score patterns text)%Q /\ (pattern_score patterns text <= 1)%Q.
Proof.
  intros Hc. pose proof (count_matches_le patterns text) as Hle.
  unfold pattern_score, ratio.
  assert (Hlen : (0 < inject_Z (Z.of_nat (List.length patterns)))%Q).
  { rewrite <- (Zlt_Qlt 0). lia. }
  split.
  - apply Qlt_shift_div_l; [exact Hlen|].
    rewrite Qmult_0_l. rewrite <- (Zlt_Qlt 0). lia.
  - apply Qle_shift_div_r; [exact Hlen|].
    rewrite Qmult_1_l. rewrite <- Zle_Qle. lia.
Qed.

Lemma pattern_score_unmatched patterns text :
  count_matches patterns text = 0 -> (pattern_score patterns text == 0)%Q.
Proof.
  intros H. unfold pattern_score, ratio. rewrite H. simpl.
  unfold Qdiv. apply Qmult_0_l.
Qed.

Lemma Qmin_score patterns text :
  0 < count_matches patterns text ->
  (Qmin (pattern_score patterns text) 1 == pattern_score patterns text)%Q.
Proof.
  intros H. apply Q.min_l. apply (pattern_score_bounds patterns text H).
Qed.

(** Entries that were collected with a value below [q], or not collected at
    all, have a pattern score below [q]. *)
Lemma scored_Forall (R : Q -> Q -> Prop) table text q :
  (forall a b, (a == b)%Q -> R b q -> R a q) ->
  R 0%Q q ->
  Forall (fun x => R (snd x) q) (scored table text) ->
  Forall (fun entry => R (pattern_score (snd entry) text) q) table.
Proof.
  intros Hcompat H0. induction table as [|[k ps] table IH]; intros H; [constructor|].
  unfold scored in H. simpl in H. fold (scored table text) in H.
  destruct (0 <? count_matches ps text)%nat eqn:E.
  - simpl in H. inversion H as [|? ? Hx Hrest]; subst. simpl in Hx.
    constructor; [|exact (IH Hrest)]. simpl.
    apply Nat.ltb_lt in E.
    apply (Hcompat _ _ (Qeq_sym _ _ (Qmin_score ps text E))). exact Hx.
  - simpl in H. constructor; [|exact (IH H)]. simpl.
    apply Nat.ltb_ge in E.
    apply (Hcompat _ 0%Q); [|exact H0].
    apply pattern_score_unmatched. lia.
Qed.

End IntentScoring.

Section Classifier.
Import Re NLU.

Lemma process_intent text :
  intent (process text) = fst (_recognize_intent (PyStr.strip (PyStr.lower text))).
Proof.
  unfold process. destruct (_recognize_intent _) as [i q]. reflexivity.
Qed.

Lemma process_confidence text :
  confidence (process text) = snd (_recognize_intent (PyStr.strip (PyStr.lower text))).
Proof.
  unfold process. destruct (_recognize_intent _) as [i q]. reflexivity.
Qed.

Lemma process_entities text :
  entities (process text) = _extract_entities (PyStr.strip (PyStr.lower text)).
Proof.
  unfold process. destruct (_recognize_intent _) as [i q]. reflexivity.
Qed.

(** The two outcomes of [_recognize_intent]: nothing matched, or the
    returned entry splits the pattern table into entries that score
    strictly less before it and entries that score no more after it. *)
Lemma recognize_intent_cases t :
  (_recognize_intent t = (UNKNOWN, 0%Q)
   /\ Forall (fun entry => count_matches (snd entry) t = 0) intent_patterns)
  \/ exists before patterns after,
       intent_patterns = (before ++ (fst (_recognize_intent t), patterns) :: after)%list
       /\ 0 < count_matches patterns t
       /\ (snd (_recognize_intent t) == pattern_score patterns t)%Q
       /\ Forall (fun entry => (pattern_score (snd entry) t < snd (_recognize_intent t))%Q)
                 before
       /\ Forall (fun entry => (pattern_score (snd entry) t <= snd (_recognize_intent t))%Q)
                 after.
Proof.
  unfold _recognize_intent.
  rewrite (score_intents_scored _ t intent_patterns_NoDup).
  destruct (scored intent_patterns t) as [|first others] eqn:Hs.
  - left. split; [reflexivity|].
    apply Forall_forall. intros e He.
    destruct (count_matches (snd e) t) eqn:Hc; [reflexivity|exfalso].
    assert (Hin : In (fst e, Qmin (pattern_score (snd e) t) 1) (scored intent_patterns t)).
    { unfold scored. apply in_flat_map. exists e. split; [exact He|].
      rewrite Hc. simpl. left. reflexivity. }
    rewrite Hs in Hin. exact Hin.
  - right.
    destruct (max_by_value_split others first) as [l1 [l2 [Heq [H1 H2]]]].
    destruct (max_by_value first others) as [i q] eqn:Hm.
    cbn [fst snd] in H1, H2 |- *.
    rewrite Heq in Hs.
    destruct (scored_split _ _ _ _ _ _ Hs) as [b [ps [a [Ht [Hl1 [Hl2 [Hc Hq]]]]]]].
    pose proof (pattern_score_bounds ps t Hc) as [Hpos Hle1].
    assert (Hqs : (q == pattern_score ps t)%Q).
    { rewrite Hq. apply Qmin_score. exact Hc. }
    exists b, ps, a. repeat split; try assumption.
    + subst l1. apply (scored_Forall Qlt b t q); [| |exact H1].
      * intros x y Hxy Hy. rewrite Hxy. exact Hy.
      * rewrite Hqs. exact Hpos.
    + subst l2. apply (scored_Forall Qle a t q); [| |exact H2].
      * intros x y Hxy Hy. rewrite Hxy. exact Hy.
      * rewrite Hqs. apply Qlt_le_weak. exact Hpos.
Qed.

Lemma unknown_not_in_table : ~ In UNKNOWN (map fst intent_patterns).
Proof. rewrite intent_patterns_keys. simpl. intuition discriminate. Qed.

End Classifier.

(** C1.  The confidence of [classify] lies in [0,1], is zero exactly when the
    intent is UNKNOWN, and otherwise is the number of the winning intent's
    patterns found in the lower-cased, trimmed text divided by the number of
    its patterns (at least one of them is found: an intent without a match is
    not a candidate). *)
Theorem classify_confidence_is_match_fraction (text : string) :
  let t := PyStr.strip (PyStr.lower text) in
  let r := NLU.process text in
  (0 <= NLU.confidence r /\ NLU.confidence r <= 1)%Q
  /\ ((NLU.confidence r == 0)%Q <-> NLU.intent r = NLU.UNKNOWN)
  /\ (NLU.intent r <> NLU.UNKNOWN ->
      exists patterns,
        In (NLU.intent r, patterns) NLU.intent_patterns
        /\ let matching := filter (fun pattern => Re.search pattern t) patterns in
           0 < List.length matching
           /\ (NLU.confidence r ==
               inject_Z (Z.of_nat (List.length matching))
               / inject_Z (Z.of_nat (List.length patterns)))%Q).
Proof.
  intros t r. subst r.
  rewrite process_intent, process_confidence. fold t.
  destruct (recognize_intent_cases t)
    as [[Hu _] | [b [ps [a [Ht [Hc [Hq _]]]]]]].
  - rewrite Hu. simpl. repeat split; try discriminate; try reflexivity.
    intros H. exfalso. apply H. reflexivity.
  - pose proof (pattern_score_bounds ps t Hc) as [Hpos Hle1].
    assert (Hkey : In (fst (NLU._recognize_intent t)) (map fst NLU.intent_patterns)).
    { rewrite Ht. rewrite map_app. apply in_or_app. right. left. reflexivity. }
    assert (Hne : fst (NLU._recognize_intent t) <> NLU.UNKNOWN).
    { intros E. rewrite E in Hkey. exact (unknown_not_in_table Hkey). }
    repeat split.
    + rewrite Hq. apply Qlt_le_weak. exact Hpos.
    + rewrite Hq. exact Hle1.
    + intros H0. exfalso. rewrite Hq in H0. rewrite H0 in Hpos.
      exact (Qlt_irrefl _ Hpos).
    + intros E. exfalso. exact (Hne E).
    + intros _. exists ps. split.
      * rewrite Ht. apply in_or_app. right. left. reflexivity.
      * cbv zeta. rewrite <- count_matches_filter. split; [exact Hc|exact Hq].
Qed.

(** The tie-break the claim C2 describes: whenever an intent of the table
    attains the score that is returned, the returned intent is declared no
    later than it in [class Intent]. *)
Definition enum_rank (i : NLU.Intent) : nat :=
  match i with
  | NLU.QUERY_ROOMS => 0 | NLU.QUERY_PRICES => 1 | NLU.CHECK_AVAILABILITY => 2
  | NLU.COMPARE_RATES => 3 | NLU.BOOK_ROOM => 4 | NLU.GREETING => 5
  | NLU.GOODBYE => 6 | NLU.HELP => 7 | NLU.UNKNOWN => 8
  end.

Definition ties_go_to_first_declared (text : string) : Prop :=
  let t := PyStr.strip (PyStr.lower text) in
  forall i patterns,
    In (i, patterns) NLU.intent_patterns ->
    (pattern_score patterns t == NLU.confidence (NLU.process text))%Q ->
    enum_rank (NLU.intent (NLU.process text)) <= enum_rank i.

(** C2, as stated, fails: on "hi show rooms available" GREETING (1 of 2
    patterns) and QUERY_ROOMS (3 of 6) tie at the maximal score 1/2, and the
    classifier returns GREETING although QUERY_ROOMS is declared first. *)
Lemma tie_break_by_enum_order_fails :
  NLU.process "hi show rooms available"
  = NLU.mkNLUResult NLU.GREETING (1 # 2) [] "hi show rooms available"
  /\ Forall (fun entry =>
               (pattern_score (snd entry) "hi show rooms available" <= 1 # 2)%Q)
            NLU.intent_patterns
  /\ ~ ties_go_to_first_declared "hi show rooms available".
Proof.
  split; [vm_compute; reflexivity|]. split.
  - repeat (constructor; [vm_compute; discriminate|]). constructor.
  - intros H.
    specialize (H NLU.QUERY_ROOMS (nth 2 (map snd NLU.intent_patterns) [])).
    assert (Hin : In (NLU.QUERY_ROOMS, nth 2 (map snd NLU.intent_patterns) [])
                     NLU.intent_patterns).
    { simpl. right. right. left. reflexivity. }
    specialize (H Hin). vm_compute in H.
    assert (Hle : 5 <= 0) by (apply H; reflexivity).
    inversion Hle.
Qed.

(** C2, amended.  The returned intent is the first entry of the pattern table
    (GREETING, GOODBYE, QUERY_ROOMS, QUERY_PRICES, CHECK_AVAILABILITY,
    COMPARE_RATES, BOOK_ROOM, HELP) that attains the maximal score: every
    entry before it scores strictly less, every entry after it scores no
    more; with no match at all the intent is UNKNOWN.  The result is a
    function of the text alone. *)
Theorem ties_go_to_first_table_entry (text : string) :
  let t := PyStr.strip (PyStr.lower text) in
  let r := NLU.process text in
  map fst NLU.intent_patterns
  = [NLU.GREETING; NLU.GOODBYE; NLU.QUERY_ROOMS; NLU.QUERY_PRICES;
     NLU.CHECK_AVAILABILITY; NLU.COMPARE_RATES; NLU.BOOK_ROOM; NLU.HELP]
  /\ ((NLU.intent r = NLU.UNKNOWN
       /\ Forall (fun entry => NLU.count_matches (snd entry) t = 0) NLU.intent_patterns)
      \/ exists before patterns after,
           NLU.intent_patterns = (before ++ (NLU.intent r, patterns) :: after)%list
           /\ (NLU.confidence r == pattern_score patterns t)%Q
           /\ Forall (fun entry => (pattern_score (snd entry) t < NLU.confidence r)%Q) before
           /\ Forall (fun entry => (pattern_score (snd entry) t <= NLU.confidence r)%Q) after).
Proof.
  intros t r. subst r. split; [reflexivity|].
  rewrite process_intent, process_confidence. fold t.
  destruct (recognize_intent_cases t)
    as [[Hu Hall] | [b [ps [a [Ht [Hc [Hq [Hb Ha]]]]]]]].
  - left. rewrite Hu. split; [reflexivity|exact Hall].
  - right. exists b, ps, a. repeat split; assumption.
Qed.

(** C7.  [classify] is total, so no input raises; on an empty or all-white
    text it returns UNKNOWN with confidence 0.0 and no entity. *)
Theorem blank_text_is_unknown (text : string) :
  (exists r, NLU.process text = r)
  /\ (all_space text = true ->
      NLU.process text = NLU.mkNLUResult NLU.UNKNOWN 0 [] text).
Proof.
  split; [eexists; reflexivity|].
  intros H. unfold NLU.process.
  rewrite (strip_lower_all_space text H).
  vm_compute. reflexivity.
Qed.

Lemma blank_text_is_unknown_witness :
  NLU.process (" " ++ PyStr.nl ++ " ")
  = NLU.mkNLUResult NLU.UNKNOWN 0 [] (" " ++ PyStr.nl ++ " ").
Proof.
  apply (proj2 (blank_text_is_unknown (" " ++ PyStr.nl ++ " "))).
  reflexivity.
Defined.

(** C10.  The single mention "deluxe room" is found once by the pattern for
    "deluxe room" and once by the pattern for "deluxe"; the result holds two
    entities, both of type room_type with value "deluxe" and confidence 0.9. *)
Theorem deluxe_room_yields_two_entities :
  NLU.entities (NLU.process "deluxe room")
  = [ NLU.mkEntity "room_type" "deluxe" (9 # 10);
      NLU.mkEntity "room_type" "deluxe" (9 # 10) ]
  /\ map (fun pd => map Re.group0 (Re.finditer (fst pd) "deluxe room"))
         (firstn 2 (nth 0 (map snd NLU.entity_patterns) []))
     = [ ["deluxe room"]; ["deluxe"] ]
  /\ map (fun pd => List.length (Re.finditer (fst pd) "deluxe room"))
         (flat_map snd NLU.entity_patterns)
     = [1; 1; 0; 0; 0; 0; 0; 0; 0; 0; 0; 0; 0; 0; 0; 0; 0; 0].
Proof.
  repeat split; vm_compute; reflexivity.
Qed.

(** ** Entity extraction *)
Section EntityOrder.
Import Re NLU.

Lemma fold_left_ext_in (A B : Type) (f g : B -> A -> B) l :
  (forall acc x, In x l -> f acc x = g acc x) ->
  forall acc, fold_left f l acc = fold_left g l acc.
Proof.
  induction l as [|x l IH]; intros H acc; simpl; [reflexivity|].
  rewrite (H acc x (or_introl eq_refl)).
  apply IH. intros a y Hy. apply H. right. exact Hy.
Qed.

Lemma fold_left_append (A B : Type) (f : A -> list B) l : forall acc,
  fold_left (fun acc x => (acc ++ f x)%list) l acc = (acc ++ flat_map f l)%list.
Proof.
  induction l as [|x l IH]; intros acc; simpl.
  - rewrite app_nil_r. reflexivity.
  - rewrite IH, app_assoc. reflexivity.
Qed.

Lemma fold_left_snoc (A B : Type) (f : A -> B) l : forall acc,
  fold_left (fun acc x => (acc ++ [f x])%list) l acc = (acc ++ map f l)%list.
Proof.
  induction l as [|x l IH]; intros acc; simpl.
  - rewrite app_nil_r. reflexivity.
  - rewrite IH, <- app_assoc. reflexivity.
Qed.

(** The entities a text yields, read off the pattern table: entity types
    in table order, their patterns in table order, the matches of one
    pattern from left to right. *)
Definition entities_by_table (text : string) : list Entity :=
  flat_map
    (fun entry =>
       flat_map
         (fun pd => map (entity_of (fst entry) (snd pd)) (finditer (fst pd) text))
         (snd entry))
    entity_patterns.

Lemma extract_entities_by_table text :
  _extract_entities text = entities_by_table text.
Proof.
  unfold _extract_entities, entities_by_table.
  generalize entity_patterns. intros table.
  rewrite <- (app_nil_l (flat_map _ table)).
  rewrite <- fold_left_append.
  apply fold_left_ext_in. intros acc [ty pats] _.
  rewrite <- fold_left_append.
  apply fold_left_ext_in. intros acc' [p dv] _.
  apply fold_left_snoc.
Qed.

(** The loops of [_extract_entities], each entity kept with the position
    at which its match starts. *)
Definition located_entities (text : string) : list (nat * Entity) :=
  fold_left
    (fun entities entry =>
       let '(entity_type, patterns) := entry in
       fold_left
         (fun entities pd =>
            let '(pattern, default_value) := pd in
            fold_left
              (fun entities m =>
                 (entities ++ [(start m, entity_of entity_type default_value m)])%list)
              (finditer pattern text) entities)
         patterns entities)
    entity_patterns [].

Lemma located_entities_by_table text :
  located_entities text
  = flat_map
      (fun entry =>
         flat_map
           (fun pd => map (fun m => (start m, entity_of (fst entry) (snd pd) m))
                          (finditer (fst pd) text))
           (snd entry))
      entity_patterns.
Proof.
  unfold located_entities.
  generalize entity_patterns. intros table.
  rewrite <- (app_nil_l (flat_map _ table)).
  rewrite <- fold_left_append.
  apply fold_left_ext_in. intros acc [ty pats] _.
  rewrite <- fold_left_append.
  apply fold_left_ext_in. intros acc' [p dv] _.
  apply fold_left_snoc.
Qed.

Lemma located_entities_entities text :
  map snd (located_entities text) = _extract_entities text.
Proof.
  rewrite located_entities_by_table, extract_entities_by_table.
  unfold entities_by_table. generalize entity_patterns. intros table.
  induction table as [|[ty pats] table IH]; simpl; [reflexivity|].
  rewrite map_app, IH. f_equal.
  induction pats as [|[p dv] pats IHp]; simpl; [reflexivity|].
  rewrite map_app, IHp, map_map. reflexivity.
Qed.

(** The matches of one pattern come in strictly increasing position. *)
Lemma finditer_from_sorted r t : forall pos skip pv,
  Forall (fun m => pos <= start m) (finditer_from r pos skip pv t)
  /\ StronglySorted lt (map start (finditer_from r pos skip pv t)).
Proof.
  induction t as [|x t IH]; intros pos skip pv.
  - destruct skip; simpl.
    + destruct (match_at r _); simpl; repeat constructor.
    + repeat constructor.
  - assert (Hweak : forall skip' pv',
               Forall (fun m => pos <= start m) (finditer_from r (S pos) skip' pv' t)
               /\ Forall (fun m => pos < start m) (finditer_from r (S pos) skip' pv' t)).
    { intros skip' pv'. destruct (IH (S pos) skip' pv') as [H _].
      split; eapply Forall_impl; try exact H; simpl; intros; lia. }
    destruct skip as [|skip]; simpl.
    + destruct (match_at r _); simpl.
      * split.
        -- constructor; [simpl; lia|]. apply Hweak.
        -- constructor; [apply IH|].
           apply Forall_map. apply Hweak.
      * split; [apply Hweak|apply IH].
    + split; [apply Hweak|apply IH].
Qed.

Lemma finditer_sorted r text : StronglySorted lt (map start (finditer r text)).
Proof. apply finditer_from_sorted. Qed.

End EntityOrder.

(** The order the claim C6 describes: entities listed by the position of
    their match in the text. *)
Definition entities_in_text_order (text : string) : Prop :=
  Sorted le (map fst (located_entities (PyStr.strip (PyStr.lower text)))).

(** C6, as stated, fails: in "suite and deluxe" the word "suite" comes first,
    yet the deluxe entity (matched at 10) is listed before the suite entity
    (matched at 0), because the deluxe patterns precede the suite patterns in
    the table. *)
Lemma entities_not_in_text_order :
  NLU.entities (NLU.process "suite and deluxe")
  = [ NLU.mkEntity "room_type" "deluxe" (9 # 10);
      NLU.mkEntity "room_type" "suite" (9 # 10) ]
  /\ map fst (located_entities "suite and deluxe") = [10; 0]
  /\ ~ entities_in_text_order "suite and deluxe".
Proof.
  split; [vm_compute; reflexivity|]. split; [vm_compute; reflexivity|].
  unfold entities_in_text_order.
  replace (map fst (located_entities (PyStr.strip (PyStr.lower "suite and deluxe"))))
    with [10; 0] by (vm_compute; reflexivity).
  intros H. inversion H as [|? ? _ Hd]; subst.
  inversion Hd as [|? ? Hle]; subst. inversion Hle.
Qed.

(** C6, amended.  The entities are listed entity type by entity type in the
    order of the pattern table (room_type, number, date, booking_source),
    within a type pattern by pattern in table order, and within one pattern
    by increasing match position; several entities of one type may coexist. *)
Theorem entities_follow_pattern_table (text : string) :
  let t := PyStr.strip (PyStr.lower text) in
  NLU.entities (NLU.process text)
  = flat_map
      (fun entry =>
         flat_map
           (fun pd => map (NLU.entity_of (fst entry) (snd pd)) (Re.finditer (fst pd) t))
           (snd entry))
      NLU.entity_patterns
  /\ map fst NLU.entity_patterns = ["room_type"; "number"; "date"; "booking_source"]
  /\ forall pattern, StronglySorted lt (map Re.start (Re.finditer pattern t)).
Proof.
  intros t. rewrite process_entities. fold t. split; [|split].
  - apply extract_entities_by_table.
  - reflexivity.
  - intros pattern. apply finditer_sorted.
Qed.

(** ** Price formatting *)
Section PriceFormat.
Import PyNum.

Definition comma : ascii := ","%char.

(** The string without its thousands separators. *)
Definition remove_commas (s : string) : string :=
  string_of_list_ascii
    (filter (fun c => negb (Ascii.eqb c comma)) (list_ascii_of_string s)).

(** Counted from the right, every fourth character is a separator and no
    other one is. *)
Definition commas_every_fourth (s : string) : Prop :=
  let l := rev (list_ascii_of_string s) in
  forall i, i < List.length l -> (nth i l comma = comma <-> i mod 4 = 3).

Definition all_digits (l : list ascii) : Prop :=
  Forall (fun c => PyStr.isdigit c = true) l.

Lemma digit_not_comma c : PyStr.isdigit c = true -> Ascii.eqb c comma = false.
Proof.
  intros H. destruct (Ascii.eqb c comma) eqn:E; [|reflexivity].
  apply Ascii.eqb_eq in E. subst c. vm_compute in H. discriminate.
Qed.

Lemma round_half_even_near (x : Q) :
  (2 * Qnum x - Zpos (Qden x) <= 2 * Zpos (Qden x) * round_half_even x
   /\ 2 * Zpos (Qden x) * round_half_even x <= 2 * Qnum x + Zpos (Qden x))%Z.
Proof.
  unfold round_half_even. destruct x as [n d]. cbn [Qnum Qden].
  pose proof (Z.div_mod n (Zpos d) ltac:(discriminate)) as Hdm.
  pose proof (Z.mod_pos_bound n (Zpos d) ltac:(reflexivity)) as Hm.
  set (f := (n / Zpos d)%Z) in *. set (m := (n mod Zpos d)%Z) in *.
  destruct (2 * m <? Zpos d)%Z eqn:E1; [apply Z.ltb_lt in E1; nia|].
  apply Z.ltb_ge in E1.
  destruct (Zpos d <? 2 * m)%Z eqn:E2; [apply Z.ltb_lt in E2; nia|].
  apply Z.ltb_ge in E2.
  destruct (Z.even f); nia.
Qed.

(** The printed integer is a nearest integer of the price. *)
Lemma round_half_even_nearest (x : Q) :
  (Qabs (x - inject_Z (round_half_even x)) <= 1 # 2)%Q.
Proof.
  apply Qabs_diff_Qle_condition.
  pose proof (round_half_even_near x) as [H1 H2].
  destruct x as [n d]. cbn [Qnum Qden] in H1, H2.
  set (r := round_half_even (n # d)) in *. clearbody r.
  unfold Qle, Qminus, Qplus, Qopp, inject_Z. cbn [Qnum Qden].
  split; nia.
Qed.

Lemma list3_ind (A : Type) (P : list A -> Prop) :
  P [] -> (forall a, P [a]) -> (forall a b, P [a; b]) -> (forall a b c, P [a; b; c]) ->
  (forall a b c d tl, P (d :: tl) -> P (a :: b :: c :: d :: tl)) ->
  forall l, P l.
Proof.
  intros H0 H1 H2 H3 H4 l.
  assert (Hn : forall n l, List.length l <= n -> P l).
  { clear l. induction n as [|n IH]; intros l Hl.
    - destruct l; [exact H0|simpl in Hl; lia].
    - destruct l as [|a [|b [|c [|d tl]]]]; auto.
      apply H4. apply IH. simpl in Hl |- *. lia. }
  exact (Hn (List.length l) l (Nat.le_refl _)).
Qed.

Lemma group3_rev_step (a b c d : ascii) tl :
  group3_rev (a :: b :: c :: d :: tl) = a :: b :: c :: comma :: group3_rev (d :: tl).
Proof. reflexivity. Qed.

Lemma group3_rev_remove l :
  all_digits l ->
  filter (fun c => negb (Ascii.eqb c comma)) (group3_rev l) = l.
Proof.
  induction l as [|a|a b|a b c|a b c d tl IH] using list3_ind; intros H.
  - reflexivity.
  - inversion H; subst. simpl. rewrite digit_not_comma by assumption. reflexivity.
  - inversion H as [|? ? Ha H']; subst. inversion H'; subst.
    simpl. rewrite !digit_not_comma by assumption. reflexivity.
  - inversion H as [|? ? Ha H']; subst. inversion H' as [|? ? Hb H'']; subst.
    inversion H''; subst.
    simpl. rewrite !digit_not_comma by assumption. reflexivity.
  - inversion H as [|? ? Ha H']; subst. inversion H' as [|? ? Hb H'']; subst.
    inversion H'' as [|? ? Hc H3]; subst.
    rewrite group3_rev_step.
    cbn [filter]. rewrite !digit_not_comma by assumption.
    replace (Ascii.eqb comma comma) with true by reflexivity.
    cbn [negb]. rewrite (IH H3). reflexivity.
Qed.

Lemma nth_digit_not_comma l i :
  all_digits l -> i < List.length l -> nth i l comma <> comma.
Proof.
  intros H Hi.
  assert (Hd : PyStr.isdigit (nth i l comma) = true).
  { revert i Hi. induction H as [|c l Hc H IH]; intros i Hi; simpl in *; [lia|].
    destruct i; [exact Hc|]. apply IH. lia. }
  intros E. rewrite E in Hd. vm_compute in Hd. discriminate.
Qed.

Lemma small_mod i : i < 3 -> i mod 4 <> 3.
Proof. intros H. rewrite Nat.mod_small by lia. lia. Qed.

Lemma group3_rev_commas l :
  all_digits l ->
  forall i, i < List.length (group3_rev l) ->
            (nth i (group3_rev l) comma = comma <-> i mod 4 = 3).
Proof.
  induction l as [|a|a b|a b c|a b c d tl IH] using list3_ind; intros H i Hi.
  - simpl in Hi. lia.
  - change (group3_rev [a]) with [a] in *. simpl in Hi. split; intros E.
    + exfalso. exact (nth_digit_not_comma _ _ H Hi E).
    + exfalso. exact (small_mod i ltac:(lia) E).
  - change (group3_rev [a; b]) with [a; b] in *. simpl in Hi. split; intros E.
    + exfalso. exact (nth_digit_not_comma _ _ H Hi E).
    + exfalso. exact (small_mod i ltac:(lia) E).
  - change (group3_rev [a; b; c]) with [a; b; c] in *. simpl in Hi. split; intros E.
    + exfalso. exact (nth_digit_not_comma _ _ H Hi E).
    + exfalso. exact (small_mod i ltac:(lia) E).
  - rewrite group3_rev_step in *.
    inversion H as [|? ? Ha H']; subst. inversion H' as [|? ? Hb H'']; subst.
    inversion H'' as [|? ? Hc H3]; subst.
    destruct i as [|[|[|[|j]]]].
    + split; intros E; [exfalso|discriminate].
      cbn [nth] in E. subst a. vm_compute in Ha. discriminate.
    + split; intros E; [exfalso|discriminate].
      cbn [nth] in E. subst b. vm_compute in Hb. discriminate.
    + split; intros E; [exfalso|discriminate].
      cbn [nth] in E. subst c. vm_compute in Hc. discriminate.
    + split; reflexivity.
    + cbn [nth]. cbn [List.length] in Hi.
      replace (S (S (S (S j))) mod 4) with (j mod 4).
      * apply (IH H3). lia.
      * replace (S (S (S (S j)))) with (j + 1 * 4) by lia.
        rewrite Nat.Div0.mod_add. reflexivity.
Qed.

Lemma group3_rev_nil l : group3_rev l = [] -> l = [].
Proof.
  destruct l as [|a [|b [|c [|d tl]]]]; simpl; intros H;
    [reflexivity|discriminate..].
Qed.

Lemma group3_rev_last l : l <> [] -> last (group3_rev l) comma = last l comma.
Proof.
  induction l as [|a|a b|a b c|a b c d tl IH] using list3_ind; intros H;
    try reflexivity.
  rewrite group3_rev_step.
  change (last (a :: b :: c :: comma :: group3_rev (d :: tl)) comma)
    with (match group3_rev (d :: tl) with
          | [] => comma
          | _ :: _ => last (group3_rev (d :: tl)) comma
          end).
  change (last (a :: b :: c :: d :: tl) comma) with (last (d :: tl) comma).
  rewrite <- IH by discriminate.
  destruct (group3_rev (d :: tl)) eqn:E; [|reflexivity].
  apply group3_rev_nil in E. discriminate E.
Qed.

Lemma uint_digits d : all_digits (list_ascii_of_string (NilEmpty.string_of_uint d)).
Proof. induction d; simpl; constructor; try reflexivity; assumption. Qed.

Lemma digits_all_digits n : all_digits (list_ascii_of_string (digits n)).
Proof.
  unfold digits, NilZero.string_of_uint.
  destruct (N.to_uint n); try apply uint_digits.
  repeat constructor.
Qed.

Lemma digits_nonempty n : list_ascii_of_string (digits n) <> [].
Proof.
  unfold digits, NilZero.string_of_uint.
  destruct (N.to_uint n); simpl; discriminate.
Qed.

Lemma all_digits_rev l : all_digits l -> all_digits (rev l).
Proof. unfold all_digits. intros H. apply Forall_rev. exact H. Qed.

Lemma remove_commas_group3 s :
  all_digits (list_ascii_of_string s) -> remove_commas (group3 s) = s.
Proof.
  intros H. unfold remove_commas, group3.
  rewrite list_ascii_of_string_of_list_ascii, filter_rev.
  rewrite (group3_rev_remove _ (all_digits_rev _ H)).
  rewrite rev_involutive. apply string_of_list_ascii_of_string.
Qed.

Lemma group3_commas s :
  all_digits (list_ascii_of_string s) -> commas_every_fourth (group3 s).
Proof.
  intros H. unfold commas_every_fourth, group3. cbv zeta.
  rewrite list_ascii_of_string_of_list_ascii, rev_involutive.
  apply group3_rev_commas. apply all_digits_rev. exact H.
Qed.

(** The leftmost character of the grouped number is a digit. *)
Lemma group3_leading_digit s :
  all_digits (list_ascii_of_string s) -> list_ascii_of_string s <> [] ->
  exists c rest, group3 s = String c rest /\ PyStr.isdigit c = true.
Proof.
  intros H Hne. unfold group3.
  set (l := list_ascii_of_string s) in *.
  assert (Hr : rev l <> []).
  { intros E. apply Hne. rewrite <- (rev_involutive l), E. reflexivity. }
  pose proof (group3_rev_last (rev l) Hr) as Hlast.
  destruct l as [|c l'] eqn:El; [contradiction|].
  assert (Hl : last (rev (c :: l')) comma = c).
  { simpl. apply last_last. }
  rewrite Hl in Hlast.
  destruct (group3_rev (rev (c :: l'))) as [|x g] eqn:Eg using rev_ind.
  - exfalso. apply Hr. apply group3_rev_nil. exact Eg.
  - rewrite last_last in Hlast. subst x.
    rewrite rev_app_distr. simpl.
    exists c, (string_of_list_ascii (rev g)). split; [reflexivity|].
    inversion H; assumption.
Qed.

End PriceFormat.

(** C9.  A price is rendered as the configured currency symbol followed by
    the price rounded to a nearest integer (no fractional part), written in
    decimal with a comma between groups of three digits; 4250.0 with symbol
    "₹" is rendered "₹4,250". *)
Theorem format_price_thousands (cfg : BusinessConfig) (price : Q) :
  let n := Z.to_N (Z.abs (PyNum.round_half_even price)) in
  exists body,
    RG._format_price cfg price
    = currency_symbol cfg ++ (if (Qnum price <? 0)%Z then "-" else "") ++ body
    /\ (Qabs (price - inject_Z (PyNum.round_half_even price)) <= 1 # 2)%Q
    /\ remove_commas body = PyNum.digits n
    /\ option_map N.of_uint (NilZero.uint_of_string (remove_commas body)) = Some n
    /\ commas_every_fourth body
    /\ (exists c rest, body = String c rest /\ PyStr.isdigit c = true)
    /\ RG._format_price default_business 4250 = "₹4,250".
Proof.
  intros n. exists (PyNum.group3 (PyNum.digits n)).
  pose proof (digits_all_digits n) as Hd.
  rewrite (remove_commas_group3 _ Hd).
  assert (Hnn : N.to_uint n <> Decimal.Nil).
  { intros E. pose proof (Unsigned.of_to n) as Hn. rewrite E in Hn.
    simpl in Hn. subst n. rewrite <- Hn in E. discriminate E. }
  split; [reflexivity|]. split; [apply round_half_even_nearest|].
  split; [reflexivity|]. split.
  { unfold PyNum.digits. rewrite (NilZero.usu _ Hnn). simpl.
    rewrite Unsigned.of_to. reflexivity. }
  split; [apply group3_commas; exact Hd|].
  split; [apply group3_leading_digit; [exact Hd|apply digits_nonempty]|].
  vm_compute. reflexivity.
Qed.

(** ** The rooms the handlers work on *)
Section FetchedRooms.
Import DB RG.

Variable cfg : BusinessConfig.
Variable db : Store.

Lemma insert_by_In (A : Type) (le : A -> A -> bool) x l y :
  In y (insert_by le x l) -> y = x \/ In y l.
Proof.
  induction l as [|z l IH]; simpl.
  - intros [<-|[]]. left. reflexivity.
  - destruct (le x z); simpl.
    + intros [<-|H]; [left; reflexivity|right; exact H].
    + intros [<-|H]; [right; left; reflexivity|].
      destruct (IH H) as [->|Hl]; [left; reflexivity|right; right; exact Hl].
Qed.

Lemma order_by_In (A : Type) (le : A -> A -> bool) l y :
  In y (order_by le l) -> In y l.
Proof.
  unfold order_by. induction l as [|x l IH]; simpl; [tauto|].
  intros H. destruct (insert_by_In _ _ _ _ _ H) as [->|Hl];
    [left; reflexivity|right; exact (IH Hl)].
Qed.

Lemma mapM_In (A B : Type) (f : A -> res B) l : forall ys y,
  mapM f l = Ok ys -> In y ys -> exists x, In x l /\ f x = Ok y.
Proof.
  induction l as [|x l IH]; simpl; intros ys y H Hy.
  - inversion H; subst. destruct Hy.
  - destruct (f x) as [b|e] eqn:Fx; cbn [bind] in H; [|discriminate].
    destruct (mapM f l) as [bs|e] eqn:Ml; cbn [bind] in H; [|discriminate].
    inversion H; subst. destruct Hy as [<-|Hy].
    + exists x. split; [left; reflexivity|exact Fx].
    + destruct (IH bs y eq_refl Hy) as [x' [Hx' Hf]].
      exists x'. split; [right; exact Hx'|exact Hf].
Qed.

(** [get_rooms()] hands out no room whose inventory is zero. *)
Lemma get_rooms_have_inventory rooms :
  get_rooms db true = Ok rooms -> Forall (fun r => (0 < inventory r)%Z) rooms.
Proof.
  unfold get_rooms. intros H. apply Forall_forall. intros room Hroom.
  destruct (mapM_In _ _ _ _ _ _ H Hroom) as [row [Hrow Hf]].
  apply order_by_In in Hrow. apply filter_In in Hrow. destruct Hrow as [_ Hinv].
  unfold room_of_row in Hf. destruct (Qeq_bool (row_rack_rate row) 0); [discriminate|].
  inversion Hf; subst. simpl. apply Z.ltb_lt. exact Hinv.
Qed.

(** With the rooms the orchestrator passes on, the inventory test of
    [_handle_availability] never fails: the sold-out answer is out of reach. *)
Lemma availability_after_get_rooms entities text rooms o c :
  get_rooms db true = Ok rooms ->
  _handle_availability cfg db (mkContext NLU.CHECK_AVAILABILITY entities text (Some rooms))
  = Ok (o, c) ->
  o = availability_response cfg c
  /\ rooms_of c = rooms
  /\ forall room others,
       matching_rooms c = room :: others -> (0 <? inventory room)%Z = true.
Proof.
  intros G. unfold _handle_availability, fetch_if_missing.
  assert (Hc : (if has_room_data (mkContext NLU.CHECK_AVAILABILITY entities text (Some rooms))
                then Ok (mkContext NLU.CHECK_AVAILABILITY entities text (Some rooms))
                else rooms0 <- get_rooms db true ;;
                     Ok (set_room_data
                           (mkContext NLU.CHECK_AVAILABILITY entities text (Some rooms))
                           rooms0))
               = Ok (mkContext NLU.CHECK_AVAILABILITY entities text (Some rooms))).
  { destruct (has_room_data _); [reflexivity|]. rewrite G. reflexivity. }
  rewrite Hc. cbn [bind]. intros H. inversion H; subst. clear H.
  split; [reflexivity|]. split; [reflexivity|].
  intros room others Hm. apply Z.ltb_lt.
  pose proof (get_rooms_have_inventory rooms G) as Hall.
  rewrite Forall_forall in Hall. apply Hall.
  unfold matching_rooms in Hm.
  destruct (room_type_entities _) as [|e l]; [discriminate|].
  assert (Hin : In room (filter (name_matches (NLU.e_value e)) rooms)).
  { change (rooms_of (mkContext NLU.CHECK_AVAILABILITY entities text (Some rooms)))
      with rooms in Hm. rewrite Hm. left. reflexivity. }
  apply filter_In in Hin. exact (proj1 Hin).
Qed.

(** The handler does answer "sold out" when the first matching room it is
    given has no inventory. *)
Lemma availability_sold_out context room others :
  has_room_data context = true ->
  matching_rooms context = room :: others ->
  (inventory room <= 0)%Z ->
  _handle_availability cfg db context = Ok (sold_out_message room, context).
Proof.
  intros Hd Hm Hinv. unfold _handle_availability, fetch_if_missing.
  rewrite Hd. cbn [bind]. unfold availability_response. rewrite Hm.
  assert (E : (0 <? inventory room)%Z = false) by (apply Z.ltb_ge; exact Hinv).
  rewrite E. reflexivity.
Qed.

(** The branches of [_handle_room_query]: the rooms are fetched only when the
    context has none; no room at all gives the apology; otherwise the answer
    is built from the rooms kept by the room-type filter, which also replace
    the room data of the context. *)
Lemma room_query_cases context o c :
  _handle_room_query cfg db context = Ok (o, c) ->
  exists fetched,
    ((has_room_data context = true /\ fetched = rooms_of context)
     \/ (has_room_data context = false /\ get_rooms db true = Ok fetched))
    /\ ((fetched = [] /\ o = no_rooms_apology)
        \/ (fetched <> []
            /\ let kept :=
                 match room_type_entities context with
                 | e :: _ => filter (name_matches (NLU.e_value e)) fetched
                 | [] => fetched
                 end in
               o = room_query_response cfg kept /\ rooms_of c = kept)).
Proof.
  unfold _handle_room_query, fetch_if_missing.
  destruct (has_room_data context) eqn:D.
  - cbn [bind]. rewrite D. cbn [negb]. intros H. inversion H; subst. clear H.
    exists (rooms_of context). split; [left; split; reflexivity|].
    right. split.
    + unfold has_room_data, rooms_of in *. destruct (room_data context) as [[|r l]|];
        discriminate.
    + cbv zeta. destruct (room_type_entities context); split; reflexivity.
  - destruct (get_rooms db true) as [rooms|e] eqn:G; cbn [bind]; [|discriminate].
    intros H. exists rooms. split; [right; split; reflexivity|].
    destruct rooms as [|r l].
    + left. inversion H. split; reflexivity.
    + right. split; [discriminate|].
      change (has_room_data (set_room_data context (r :: l))) with true in H.
      cbn [negb] in H. inversion H; subst. clear H.
      change (room_type_entities (set_room_data context (r :: l)))
        with (room_type_entities context).
      cbv zeta. destruct (room_type_entities context); split; reflexivity.
Qed.

End FetchedRooms.

(** ** The response generator on concrete stores *)

Definition suite_entity : NLU.Entity := NLU.mkEntity "room_type" "suite" (9 # 10).

(** What [get_rooms()] returns on the seeded store once the suites are taken. *)
Definition rooms_without_suite : list DB.Room :=
  [ DB.mkRoom 3 "Standard Room" "standard" 3000 2550 15
      (Some "Comfortable room with essential amenities") (Some "WiFi, TV, AC") 2
      (3000 - 2550)%Q 15;
    DB.mkRoom 1 "Deluxe Room" "deluxe" 5000 4250 10
      (Some "Spacious room with premium amenities") (Some "WiFi, TV, AC, Mini-bar") 2
      (5000 - 4250)%Q 15;
    DB.mkRoom 4 "Executive Room" "executive" 6500 5525 8
      (Some "Business-class room with work desk") (Some "WiFi, TV, AC, Mini-bar, Work Desk") 2
      (6500 - 5525)%Q 15 ].

Lemma get_rooms_suite_sold_out :
  DB.get_rooms Seed.store_suite_sold_out true = Ok rooms_without_suite.
Proof. vm_compute. reflexivity. Qed.

Definition zero_rooms_response : string :=
  "We have 0 room types available:" ++ PyStr.nl ++ PyStr.nl ++ PyStr.nl
  ++ "âœ¨ *All prices are 15% off OTA rates when you book direct!*".

(** C5.  The apology is given only when there is no room before the
    room-type filter.  With the suites taken, "show me the suite room" is a
    QUERY_ROOMS turn whose filter leaves no room, and the response is the
    comparison header for zero rooms, not an apology. *)
Theorem room_query_filtered_to_nothing (json_dumps : list DB.Room -> string) :
  let context :=
    RG.mkContext NLU.QUERY_ROOMS [suite_entity; suite_entity] "show me the suite room"
                 (Some rooms_without_suite) in
  NLU.intent (NLU.process "show me the suite room") = NLU.QUERY_ROOMS
  /\ NLU.entities (NLU.process "show me the suite room") = [suite_entity; suite_entity]
  /\ RG._handle_room_query default_business Seed.store_suite_sold_out context
     = Ok (zero_rooms_response, RG.set_room_data context [])
  /\ Brain.get_agent_response default_business Seed.store_suite_sold_out None json_dumps
       "show me the suite room" None
     = Ok (Some zero_rooms_response).
Proof.
  repeat split; vm_compute; reflexivity.
Qed.

Definition available_without_suite_response : string :=
  "We have 3 room types available:" ++ PyStr.nl ++ PyStr.nl
  ++ "- Standard Room: 15 rooms at ₹2,550" ++ PyStr.nl
  ++ "- Deluxe Room: 10 rooms at ₹4,250" ++ PyStr.nl
  ++ "- Executive Room: 8 rooms at ₹5,525" ++ PyStr.nl ++ PyStr.nl
  ++ "ðŸ’¡ Book directly to save 15%!".

Definition rooms_without_suite_response : string :=
  "We have 3 room types available:" ++ PyStr.nl ++ PyStr.nl
  ++ "**Standard Room** - ₹2,550/night (save ₹450!) â€¢ 15 available" ++ PyStr.nl
  ++ "**Deluxe Room** - ₹4,250/night (save ₹750!) â€¢ 10 available" ++ PyStr.nl
  ++ "**Executive Room** - ₹5,525/night (save ₹975!) â€¢ 8 available" ++ PyStr.nl ++ PyStr.nl
  ++ "âœ¨ *All prices are 15% off OTA rates when you book direct!*".

(** C3.  End to end the sold-out message cannot be reached: the orchestrator
    reads the rooms with [get_rooms()], which leaves out every room whose
    inventory is zero.  With the suites taken, "Is the suite available?"
    (CHECK_AVAILABILITY with a suite entity) is answered with the list of the
    other rooms; the handler does give the sold-out message when it is handed
    the unfiltered rooms.  The plural "suites" of the claim's own example
    yields no entity and the intent QUERY_ROOMS. *)
Theorem sold_out_message_unreachable (json_dumps : list DB.Room -> string) :
  NLU.process "Is the suite available?"
  = NLU.mkNLUResult NLU.CHECK_AVAILABILITY (1 # 5) [suite_entity] "Is the suite available?"
  /\ map DB.row_inventory
         (filter (fun r => String.eqb (DB.row_name r) "Suite Room")
                 (DB.rooms Seed.store_suite_sold_out)) = [0%Z]
  /\ Brain.get_agent_response default_business Seed.store_suite_sold_out None json_dumps
       "Is the suite available?" None
     = Ok (Some available_without_suite_response)
  /\ (exists all_rooms,
        DB.get_rooms Seed.store_suite_sold_out false = Ok all_rooms
        /\ option_map fst
             (match RG._handle_availability default_business Seed.store_suite_sold_out
                      (RG.mkContext NLU.CHECK_AVAILABILITY [suite_entity]
                                    "Is the suite available?" (Some all_rooms)) with
              | Ok r => Some r
              | Raise _ => None
              end)
           = Some "Sorry, Suite Room is currently sold out. Can I suggest another room type?")
  /\ NLU.process "Do you have any suites available?"
     = NLU.mkNLUResult NLU.QUERY_ROOMS (1 # 6) [] "Do you have any suites available?"
  /\ Brain.get_agent_response default_business Seed.store_suite_sold_out None json_dumps
       "Do you have any suites available?" None
     = Ok (Some rooms_without_suite_response).
Proof.
  repeat split; try (vm_compute; reflexivity).
  eexists. split; vm_compute; reflexivity.
Qed.

(** ** Calling the generator twice on one context *)
Section GenerateTwice.
Import DB RG.

Variable cfg : BusinessConfig.
Variable db : Store.

Lemma fetch_if_missing_inv context c :
  fetch_if_missing db context = Ok c ->
  (has_room_data context = true /\ c = context)
  \/ (has_room_data context = false
      /\ exists rooms, get_rooms db true = Ok rooms /\ c = set_room_data context rooms).
Proof.
  unfold fetch_if_missing. destruct (has_room_data context) eqn:E.
  - intros H. inversion H. left. split; reflexivity.
  - destruct (get_rooms db true) as [rooms|e] eqn:G; cbn [bind]; intros H; inversion H.
    right. split; [reflexivity|]. exists rooms. split; reflexivity.
Qed.

(** Once fetched, a further fetch changes nothing. *)
Lemma fetch_if_missing_stable context c :
  fetch_if_missing db context = Ok c -> fetch_if_missing db c = Ok c.
Proof.
  intros H. destruct (fetch_if_missing_inv _ _ H) as [[E ->]|[E [rooms [G ->]]]].
  - exact H.
  - unfold fetch_if_missing.
    destruct (has_room_data (set_room_data context rooms)); [reflexivity|].
    rewrite G. reflexivity.
Qed.

Lemma fetch_if_missing_entities context c :
  fetch_if_missing db context = Ok c -> room_type_entities c = room_type_entities context.
Proof.
  intros H. destruct (fetch_if_missing_inv _ _ H) as [[E ->]|[E [rooms [G ->]]]];
    reflexivity.
Qed.

Lemma filter_twice (A : Type) (p : A -> bool) l : filter p (filter p l) = filter p l.
Proof.
  induction l as [|x l IH]; simpl; [reflexivity|].
  destruct (p x) eqn:E; simpl; [rewrite E, IH|]; auto.
Qed.

(** A handler that fetches and then answers from the context as fetched. *)
Lemma fetch_then_answer_again (answer : ResponseContext -> string) context o c :
  (context' <- fetch_if_missing db context ;; Ok (answer context', context')) = Ok (o, c) ->
  (context' <- fetch_if_missing db c ;; Ok (answer context', context')) = Ok (o, c).
Proof.
  destruct (fetch_if_missing db context) as [c0|e] eqn:F; cbn [bind]; [|discriminate].
  intros H. inversion H; subst.
  rewrite (fetch_if_missing_stable _ _ F). reflexivity.
Qed.

Lemma handle_help_again context o c :
  _handle_help db context = Ok (o, c) -> _handle_help db c = Ok (o, c).
Proof.
  unfold _handle_help.
  destruct (find_faqs db (PyStr.lower (user_query context)) faq_keywords []) eqn:E;
    intros H; inversion H; subst; rewrite E; reflexivity.
Qed.

Lemma handle_booking_again context o c :
  _handle_booking cfg db context = Ok (o, c) -> _handle_booking cfg db c = Ok (o, c).
Proof.
  unfold _handle_booking, booking_options.
  destruct (fetch_if_missing db context) as [c0|x] eqn:F;
    [|destruct (room_type_entities context); discriminate].
  pose proof (fetch_if_missing_entities _ _ F) as He.
  pose proof (fetch_if_missing_stable _ _ F) as Hs.
  assert (Hc : forall r, (context' <- Ok c0 ;; r context') = Ok (o, c) ->
                         (exists s, r c0 = Ok (s, c0)) -> c = c0).
  { cbn [bind]. intros r H [s Hr]. rewrite Hr in H. inversion H. reflexivity. }
  destruct (room_type_entities context) as [|e l] eqn:E; cbn [bind].
  - intros H. inversion H; subst. rewrite He, Hs. reflexivity.
  - destruct (filter (name_matches (NLU.e_value e)) (rooms_of c0)) as [|room rs] eqn:M.
    + rewrite Hs. cbn [bind]. intros H. inversion H; subst.
      rewrite He, Hs. cbn [bind]. rewrite M, Hs. reflexivity.
    + intros H. inversion H; subst.
      rewrite He, Hs. cbn [bind]. rewrite M. reflexivity.
Qed.

(** [_handle_room_query] overwrites [room_data] with the filtered rooms, so
    this handler needs a condition: the context carried no room data before
    the call, or still carries some after it. *)
Lemma handle_room_query_again context o c :
  _handle_room_query cfg db context = Ok (o, c) ->
  has_room_data context = false \/ has_room_data c = true ->
  _handle_room_query cfg db c = Ok (o, c).
Proof.
  unfold _handle_room_query.
  destruct (fetch_if_missing db context) as [c0|x] eqn:F; cbn [bind]; [|discriminate].
  pose proof (fetch_if_missing_stable _ _ F) as Hs.
  destruct (has_room_data c0) eqn:D0; cbn [negb].
  - destruct (room_type_entities c0) as [|e l] eqn:E.
    + (* no room-type entity: the context is left as fetched *)
      intros H _. inversion H; subst.
      rewrite Hs. cbn [bind]. rewrite D0, E. reflexivity.
    + intros H Hcond. inversion H; subst. clear H.
      set (kept := filter (name_matches (NLU.e_value e)) (rooms_of c0)) in *.
      assert (Hkept : filter (name_matches (NLU.e_value e)) kept = kept)
        by apply filter_twice.
      assert (He' : room_type_entities (set_room_data c0 kept) = e :: l) by exact E.
      destruct kept as [|k ks] eqn:K.
      * (* the filter left nothing: the rooms are fetched again *)
        destruct Hcond as [Hno|Hyes]; [|discriminate Hyes].
        destruct (fetch_if_missing_inv _ _ F) as [[Ht _]|[_ [rooms [G Hc0]]]];
          [congruence|].
        subst c0.
        unfold fetch_if_missing at 1.
        change (has_room_data (set_room_data (set_room_data context rooms) [])) with false.
        cbv iota. rewrite G. cbn [bind].
        change (set_room_data (set_room_data (set_room_data context rooms) []) rooms)
          with (set_room_data context rooms).
        rewrite D0. cbn [negb]. rewrite E. fold kept. rewrite K. reflexivity.
      * (* the filter kept some room: filtering again keeps the same rooms *)
        unfold fetch_if_missing at 1.
        change (has_room_data (set_room_data c0 (k :: ks))) with true.
        cbv iota. cbn [bind negb]. rewrite He'.
        change (rooms_of (set_room_data c0 (k :: ks))) with (k :: ks).
        rewrite Hkept. reflexivity.
  - intros H _. inversion H; subst c.
    rewrite Hs. cbn [bind]. rewrite D0. reflexivity.
Qed.

End GenerateTwice.

(** The property the claim C8 describes: the second of two calls on one
    context object gives the output of the first. *)
Definition second_call_repeats (cfg : BusinessConfig) (db : DB.Store)
    (context : RG.ResponseContext) : Prop :=
  forall o1 c1,
    RG.generate_response cfg db context = Ok (o1, c1) ->
    exists c2, RG.generate_response cfg db c1 = Ok (o1, c2).

Definition deluxe_only : list DB.Room :=
  [ DB.mkRoom 1 "Deluxe Room" "deluxe" 5000 4250 10
      (Some "Spacious room with premium amenities") (Some "WiFi, TV, AC, Mini-bar") 2
      (5000 - 4250)%Q 15 ].

Definition suite_pitch : string :=
  "Great choice! Our **Suite Room** is available (5 rooms left)." ++ PyStr.nl ++ PyStr.nl
  ++ "ðŸ’° **Pricing:** OTA sites charge ₹8,000/night, but book direct for just ₹6,800 - save ₹1,200!"
  ++ PyStr.nl ++ PyStr.nl ++ "Ready to book?".

(** C8, as stated, fails: a QUERY_ROOMS context for "suite" that carries only
    the deluxe room is filtered to nothing by the first call (the header for
    zero rooms); the second call finds no room data, fetches the rooms anew
    and pitches the suite. *)
Lemma second_call_differs :
  let context :=
    RG.mkContext NLU.QUERY_ROOMS [suite_entity] "show me the suite" (Some deluxe_only) in
  RG.generate_response default_business Seed.store context
  = Ok (zero_rooms_response, RG.set_room_data context [])
  /\ option_map fst
       (match RG.generate_response default_business Seed.store
                (RG.set_room_data context []) with
        | Ok r => Some r
        | Raise _ => None
        end)
     = Some suite_pitch
  /\ ~ second_call_repeats default_business Seed.store context.
Proof.
  intros context.
  assert (H1 : RG.generate_response default_business Seed.store context
               = Ok (zero_rooms_response, RG.set_room_data context []))
    by (vm_compute; reflexivity).
  assert (H2 : option_map fst
                 (match RG.generate_response default_business Seed.store
                          (RG.set_room_data context []) with
                  | Ok r => Some r
                  | Raise _ => None
                  end) = Some suite_pitch)
    by (vm_compute; reflexivity).
  split; [exact H1|]. split; [exact H2|].
  intros H. destruct (H _ _ H1) as [c2 Hc2].
  rewrite Hc2 in H2. vm_compute in H2. discriminate H2.
Qed.

(** C8, amended.  Unless the intent is QUERY_ROOMS and the first call has
    filtered room data that the caller supplied down to nothing, the second
    call on the context the first call left behind returns the same output
    (and leaves the context as it found it), the store being unchanged. *)
Theorem second_call_repeats_first
    (cfg : BusinessConfig) (db : DB.Store) (context : RG.ResponseContext)
    (o1 : string) (c1 : RG.ResponseContext) :
  RG.generate_response cfg db context = Ok (o1, c1) ->
  RG.intent context <> NLU.QUERY_ROOMS
  \/ RG.has_room_data context = false
  \/ RG.has_room_data c1 = true ->
  RG.generate_response cfg db c1 = Ok (o1, c1).
Proof.
  intros H Hcond.
  assert (Hi : RG.intent c1 = RG.intent context).
  { revert H. unfold RG.generate_response.
    destruct (RG.intent context) eqn:I;
      try (unfold RG._handle_greeting, RG._handle_goodbye, RG._handle_unknown;
           intros H; inversion H; subst; exact I);
      try (unfold RG._handle_price_query, RG._handle_availability,
             RG._handle_rate_comparison;
           destruct (RG.fetch_if_missing db context) as [c0|e] eqn:F; cbn [bind];
           [|discriminate]; intros H; inversion H; subst;
           destruct (fetch_if_missing_inv _ _ _ F) as [[_ ->]|[_ [rooms [_ ->]]]];
           exact I).
    - (* QUERY_ROOMS *)
      unfold RG._handle_room_query.
      destruct (RG.fetch_if_missing db context) as [c0|e] eqn:F; cbn [bind];
        [|discriminate].
      assert (I0 : RG.intent c0 = NLU.QUERY_ROOMS).
      { destruct (fetch_if_missing_inv _ _ _ F) as [[_ ->]|[_ [rooms [_ ->]]]]; exact I. }
      destruct (negb (RG.has_room_data c0)); intros H; inversion H; subst; [exact I0|].
      destruct (RG.room_type_entities c0); exact I0.
    - (* BOOK_ROOM *)
      unfold RG._handle_booking, RG.booking_options.
      destruct (RG.fetch_if_missing db context) as [c0|e] eqn:F;
        [|destruct (RG.room_type_entities context); discriminate].
      assert (I0 : RG.intent c0 = NLU.BOOK_ROOM).
      { destruct (fetch_if_missing_inv _ _ _ F) as [[_ ->]|[_ [rooms [_ ->]]]]; exact I. }
      destruct (RG.room_type_entities context); cbn [bind].
      + intros H; inversion H; subst; exact I0.
      + destruct (filter _ _); [rewrite (fetch_if_missing_stable _ _ _ F); cbn [bind]|];
          intros H; inversion H; subst; exact I0.
    - (* HELP *)
      unfold RG._handle_help. destruct (RG.find_faqs _ _ _ _);
        intros H; inversion H; subst; exact I. }
  revert H. unfold RG.generate_response. rewrite Hi.
  destruct (RG.intent context) eqn:I.
  - intros H. apply (handle_room_query_again _ _ _ _ _ H).
    destruct Hcond as [Hc|Hc]; [exfalso; apply Hc; reflexivity|exact Hc].
  - apply fetch_then_answer_again.
  - apply fetch_then_answer_again.
  - apply fetch_then_answer_again.
  - apply handle_booking_again.
  - intros H. inversion H. reflexivity.
  - intros H. inversion H. reflexivity.
  - apply handle_help_again.
  - intros H. inversion H. reflexivity.
Qed.

Lemma second_call_repeats_first_witness :
  let context :=
    RG.mkContext NLU.QUERY_ROOMS [suite_entity] "show me the suite" None in
  RG.generate_response default_business Seed.store
    (RG.set_room_data context
       (filter (RG.name_matches "suite")
               (match DB.get_rooms Seed.store true with Ok l => l | Raise _ => [] end)))
  = Ok (suite_pitch,
        RG.set_room_data context
          (filter (RG.name_matches "suite")
                  (match DB.get_rooms Seed.store true with Ok l => l | Raise _ => [] end))).
Proof.
  intros context.
  apply (second_call_repeats_first default_business Seed.store context).
  - vm_compute. reflexivity.
  - right. left. reflexivity.
Defined.

(** ** The language-model path *)
Section LanguageModelPath.
Import DB Brain.

Variable cfg : BusinessConfig.
Variable db : Store.
Variable json_dumps : list Room -> string.

(** What the user gets when the language-model path falls back. *)
Definition fallback_output (nlu_result : NLU.NLUResult) (entities : list NLU.Entity)
    (room_data : option (list Room)) : res (option string) :=
  r <- _fallback_response cfg db nlu_result entities room_data ;; Ok (Some r).

(** An exception anywhere in the [try] block gives the rule-based answer:
    a failing first or second completion, a reply without choices, a
    failing room query. *)
Lemma exception_falls_back client user_text nlu_result room_data entities e :
  ai_attempt cfg db client json_dumps user_text nlu_result room_data entities = Raise e ->
  _generate_ai_response cfg db client json_dumps user_text nlu_result room_data entities
  = fallback_output nlu_result entities room_data.
Proof.
  intros H. unfold _generate_ai_response. rewrite H. reflexivity.
Qed.

(** So does a first completion without tool call and without content. *)
Lemma empty_first_content_falls_back (c : Client) user_text nlu_result room_data entities
    messages content :
  (forall ms tools, c ms tools = Ok messages) ->
  messages = [mkChatMessage content []] ->
  content = None \/ content = Some "" ->
  _generate_ai_response cfg db (Some c) json_dumps user_text nlu_result room_data entities
  = fallback_output nlu_result entities room_data.
Proof.
  intros Hc -> Hcontent.
  unfold _generate_ai_response, ai_attempt, create. rewrite Hc.
  cbn [bind first_choice tool_calls Brain.content].
  unfold fallback_output.
  destruct Hcontent as [-> | ->];
    destruct (_fallback_response cfg db nlu_result entities room_data); reflexivity.
Qed.

(** After a tool call the content of the second completion is the result,
    whatever it is. *)
Lemma final_content_returned (c : Client) user_text nlu_result room_data entities
    first_content call_id arguments rooms final_content :
  (forall ms, c ms true
              = Ok [mkChatMessage first_content [mkToolCall call_id "get_rooms" arguments]]) ->
  (forall ms, c ms false = Ok [mkChatMessage final_content []]) ->
  get_rooms db true = Ok rooms ->
  _generate_ai_response cfg db (Some c) json_dumps user_text nlu_result room_data entities
  = Ok final_content.
Proof.
  intros H1 H2 G.
  unfold _generate_ai_response, ai_attempt, create. rewrite H1.
  cbn [bind first_choice tool_calls tc_name]. rewrite String.eqb_refl, G.
  cbn [bind]. rewrite H2. reflexivity.
Qed.

End LanguageModelPath.

(** A language model that asks for the tool [get_rooms] and then answers with
    the given content. *)
Definition tool_then (final_content : option string) : Brain.Client :=
  fun messages tools =>
    if tools
    then Ok [Brain.mkChatMessage None [Brain.mkToolCall "call_1" "get_rooms" "{}"]]
    else Ok [Brain.mkChatMessage final_content []].

Definition four_rooms_response : string :=
  "We have 4 room types available:" ++ PyStr.nl ++ PyStr.nl
  ++ "**Standard Room** - ₹2,550/night (save ₹450!) â€¢ 15 available" ++ PyStr.nl
  ++ "**Deluxe Room** - ₹4,250/night (save ₹750!) â€¢ 10 available" ++ PyStr.nl
  ++ "**Executive Room** - ₹5,525/night (save ₹975!) â€¢ 8 available" ++ PyStr.nl
  ++ "**Suite Room** - ₹6,800/night (save ₹1,200!) â€¢ 5 available" ++ PyStr.nl ++ PyStr.nl
  ++ "âœ¨ *All prices are 15% off OTA rates when you book direct!*".

(** C4.  The content of the completion that follows a tool call is returned
    unchecked.  When that content is missing or empty, the turn "What rooms
    do you have available?" answers [None], respectively the empty string,
    where the rule-based generator on the same context gives the room
    comparison; a missing content on the first completion does fall back. *)
Theorem empty_final_completion_is_returned (json_dumps : list DB.Room -> string) :
  let text := "What rooms do you have available?" in
  let turn (client : option Brain.Client) (use_ai : option bool) :=
    Brain.get_agent_response default_business Seed.store client json_dumps text use_ai in
  turn (Some (tool_then None)) (Some true) = Ok None
  /\ turn (Some (tool_then (Some ""))) (Some true) = Ok (Some "")
  /\ turn (Some (tool_then None)) (Some false) = Ok (Some four_rooms_response)
  /\ (exists rooms,
        DB.get_rooms Seed.store true = Ok rooms
        /\ Brain._fallback_response default_business Seed.store (NLU.process text)
             (NLU.entities (NLU.process text)) (Some rooms)
           = Ok four_rooms_response)
  /\ turn (Some (fun (_ : list Brain.Message) (_ : bool) =>
                   Ok [Brain.mkChatMessage None []])) (Some true)
     = Ok (Some four_rooms_response)
  /\ turn (Some (fun (_ : list Brain.Message) (tools : bool) =>
                   if tools then tool_then None [] true else Raise "APITimeoutError"))
          (Some true)
     = Ok (Some four_rooms_response).
Proof.
  repeat split; try (vm_compute; reflexivity).
  eexists. split; vm_compute; reflexivity.
Qed.

(** * Further coverage *)

(** ** database.py: the remaining queries *)
Module Tables.
Import PyStr DB.

(** A row of table [bookings]. *)
Record BookingRow : Type := mkBookingRow
  { booking_id : Z; booking_room_id : Z; guest_name : option string;
    check_in : string; check_out : string; booking_source : string;
    total_amount : Q; status : string }.

(** The store together with its bookings. *)
Record Database : Type := mkDatabase { store : Store; bookings : list BookingRow }.

(** The dict [get_room_by_type] builds: the row and [savings]. *)
Record RoomDetails : Type := mkRoomDetails
  { d_id : Z; d_name : string; d_room_type : string;
    d_rack_rate : Q; d_direct_rate : Q; d_inventory : Z;
    d_description : option string; d_amenities : option string;
    d_max_occupancy : Z; d_savings : Q }.

(** [SELECT * FROM rooms WHERE room_type = ? AND inventory > 0], first row. *)
Definition get_room_by_type (db : Store) (room_type : string) : option RoomDetails :=
  match filter (fun r => String.eqb (row_room_type r) (lower room_type)
                         && (0 <? row_inventory r)%Z)
               (rooms db) with
  | r :: _ =>
      Some (mkRoomDetails (row_id r) (row_name r) (row_room_type r)
                          (row_rack_rate r) (row_direct_rate r) (row_inventory r)
                          (row_description r) (row_amenities r) (row_max_occupancy r)
                          (row_rack_rate r - row_direct_rate r)%Q)
  | [] => None
  end.

(** [get_faqs(category, limit)]: [ORDER BY priority DESC, id LIMIT ?]; the
    rows are kept in the order of their ids, a negative limit is no limit,
    and an empty [category] filters nothing. *)
Definition get_faqs (db : Store) (category : option string) (limit : Z) : list Faq :=
  let selected :=
    match category with
    | Some (String c s) =>
        filter (fun f => match row_category f with
                         | Some k => String.eqb k (String c s)
                         | None => false
                         end)
               (faqs db)
    | _ => faqs db
    end in
  let ordered := order_by (fun a b => (row_priority b <=? row_priority a)%Z) selected in
  map (fun f => mkFaq (row_question f) (row_answer f) (row_category f))
      (if (limit <? 0)%Z then ordered else firstn (Z.to_nat limit) ordered).

Section Stays.

(** [a <= b] as SQLite compares two values of the DATE columns. *)
Variable sql_le : string -> string -> bool.

Definition sql_lt (a b : string) : bool := negb (sql_le b a).

(** The date condition of [check_room_availability]. *)
Definition overlaps (b : BookingRow) (ci co : string) : bool :=
  (sql_le (check_in b) ci && sql_lt ci (check_out b))
  || (sql_lt (check_in b) co && sql_le co (check_out b))
  || (sql_le ci (check_in b) && sql_le (check_out b) co).

(** [SELECT COUNT( * ) FROM bookings b JOIN rooms r ON b.room_id = r.id WHERE
    r.room_type = ? AND b.status = 'confirmed' AND (...)] *)
Definition booked (db : Database) (room_type ci co : string) : Z :=
  Z.of_nat
    (List.length
       (flat_map
          (fun b =>
             filter (fun r => (booking_room_id b =? row_id r)%Z
                              && String.eqb (row_room_type r) room_type
                              && String.eqb (status b) "confirmed"
                              && overlaps b ci co)
                    (rooms (store db)))
          (bookings db))).

Definition check_room_availability (db : Database) (room_type ci co : string) : bool * Z :=
  match filter (fun r => String.eqb (row_room_type r) (lower room_type))
               (rooms (store db)) with
  | [] => (false, 0%Z)
  | r :: _ =>
      let total_inventory := row_inventory r in
      let available := (total_inventory - booked db (lower room_type) ci co)%Z in
      ((0 <? available)%Z, available)
  end.

End Stays.

Section NewBooking.

(** [datetime.strptime(s, "%Y-%m-%d")] as a day number; [None] is the
    ValueError of a malformed date. *)
Variable strptime : string -> option Z.

(** The id AUTOINCREMENT gives the next row: one more than the largest id. *)
Definition next_booking_id (rows : list BookingRow) : Z :=
  (fold_right (fun b m => Z.max (booking_id b) m) 0 rows + 1)%Z.

(** [create_booking]: the booking id (or [None] when no room has the type)
    and the database as it is left. *)
Definition create_booking (db : Database) (room_type ci co : string)
    (source : string) (guest : option string) : res (option Z * Database) :=
  match filter (fun r => String.eqb (row_room_type r) (lower room_type))
               (rooms (store db)) with
  | [] => Ok (None, db)
  | room :: _ =>
      match strptime ci, strptime co with
      | Some check_in_date, Some check_out_date =>
          let nights := (check_out_date - check_in_date)%Z in
          let rate :=
            if String.eqb source "direct" then row_direct_rate room else row_rack_rate room in
          let total := (rate * inject_Z nights)%Q in
          let new_id := next_booking_id (bookings db) in
          Ok (Some new_id,
              mkDatabase (store db)
                         (bookings db
                          ++ [mkBookingRow new_id (row_id room) guest ci co source total
                                           "confirmed"])%list)
      | _, _ => Raise "ValueError"
      end
  end.

End NewBooking.

End Tables.

(** ** The classifier: normalisation *)
Section Normalisation.
Import PyStr NLU.

Lemma lower_app a b : lower (a ++ b) = lower a ++ lower b.
Proof. induction a as [|c a IH]; simpl; [reflexivity|]. rewrite IH. reflexivity. Qed.

Lemma lower_char_twice c : lower_char (lower_char c) = lower_char c.
Proof.
  unfold lower_char. destruct (isupper c) eqn:E; [|rewrite E; reflexivity].
  unfold isupper in *. cbv zeta in *.
  apply andb_true_iff in E. destruct E as [E1 E2].
  apply Nat.leb_le in E1. apply Nat.leb_le in E2.
  rewrite nat_ascii_embedding by lia.
  replace (65 <=? nat_of_ascii c + 32) with true by (symmetry; apply Nat.leb_le; lia).
  replace (nat_of_ascii c + 32 <=? 90) with false by (symmetry; apply Nat.leb_gt; lia).
  reflexivity.
Qed.

Lemma lower_twice s : lower (lower s) = lower s.
Proof.
  induction s as [|c s IH]; simpl; [reflexivity|].
  rewrite lower_char_twice, IH. reflexivity.
Qed.

Lemma rstrip_all_space s : all_space s = true -> rstrip s = "".
Proof.
  induction s as [|c s IH]; simpl; [reflexivity|].
  intros H. apply andb_true_iff in H. destruct H as [Hc Hs].
  rewrite (IH Hs), Hc. reflexivity.
Qed.

Lemma rstrip_app_space s post : all_space post = true -> rstrip (s ++ post) = rstrip s.
Proof.
  intros H. induction s as [|c s IH]; simpl.
  - apply rstrip_all_space. exact H.
  - rewrite IH. reflexivity.
Qed.

Lemma lstrip_app_space pre s : all_space pre = true -> lstrip (pre ++ s) = lstrip s.
Proof.
  induction pre as [|c pre IH]; simpl; [reflexivity|].
  intros H. apply andb_true_iff in H. destruct H as [Hc Hs].
  rewrite Hc. exact (IH Hs).
Qed.

Lemma lstrip_app s post :
  lstrip (s ++ post) = if all_space s then lstrip post else lstrip s ++ post.
Proof.
  induction s as [|c s IH]; simpl; [reflexivity|].
  destruct (isspace c); simpl; [exact IH|reflexivity].
Qed.

Lemma strip_padding pre s post :
  all_space pre = true -> all_space post = true ->
  strip (pre ++ s ++ post) = strip s.
Proof.
  intros Hpre Hpost. unfold strip.
  rewrite (lstrip_app_space pre _ Hpre), lstrip_app.
  destruct (all_space s) eqn:E.
  - rewrite (lstrip_all_space post Hpost), (lstrip_all_space s E). reflexivity.
  - apply rstrip_app_space. exact Hpost.
Qed.

End Normalisation.

(** X1.  White space around the text and the case of its ASCII letters do
    not change the classification. *)
Theorem classification_ignores_case_and_padding (pre text post : string) :
  all_space pre = true -> all_space post = true ->
  let padded := NLU.process (pre ++ PyStr.lower text ++ post) in
  NLU.intent padded = NLU.intent (NLU.process text)
  /\ NLU.confidence padded = NLU.confidence (NLU.process text)
  /\ NLU.entities padded = NLU.entities (NLU.process text).
Proof.
  intros Hpre Hpost padded. subst padded.
  rewrite !process_intent, !process_confidence, !process_entities.
  assert (E : PyStr.strip (PyStr.lower (pre ++ PyStr.lower text ++ post))
              = PyStr.strip (PyStr.lower text)).
  { rewrite !lower_app, lower_twice.
    rewrite (lower_all_space pre Hpre), (lower_all_space post Hpost).
    apply strip_padding; assumption. }
  rewrite E. repeat split.
Qed.

Lemma classification_ignores_case_and_padding_witness :
  NLU.intent (NLU.process ("  " ++ PyStr.lower "I want to BOOK a Suite" ++ " "))
  = NLU.intent (NLU.process "I want to BOOK a Suite").
Proof.
  apply (classification_ignores_case_and_padding "  " "I want to BOOK a Suite" " ");
    reflexivity.
Defined.

(** ** The classifier: what the entities hold *)
Section EntityValues.
Import Re NLU.

(** What one table row promises for the entities it yields. *)
Definition row_vocabulary (entity_type : string) (default_value : option string) : Prop :=
  match default_value with
  | Some v =>
      (entity_type = "room_type"
       /\ (v = "deluxe" \/ v = "suite" \/ v = "standard" \/ v = "executive"))
      \/ (entity_type = "booking_source" /\ (v = "ota" \/ v = "direct"))
  | None => entity_type = "number" \/ entity_type = "date"
  end.

Lemma entity_patterns_vocabulary :
  Forall (fun entry => Forall (fun pd => row_vocabulary (fst entry) (snd pd)) (snd entry))
         entity_patterns.
Proof.
  unfold entity_patterns.
  repeat (apply Forall_cons || apply Forall_nil); cbn [fst snd row_vocabulary]; tauto.
Qed.

Lemma entity_origin text e :
  In e (_extract_entities text) ->
  exists entity_type default_value pattern m,
    row_vocabulary entity_type default_value
    /\ In m (finditer pattern text)
    /\ e = entity_of entity_type default_value m.
Proof.
  rewrite extract_entities_by_table. unfold entities_by_table.
  pose proof entity_patterns_vocabulary as V.
  intros H. apply in_flat_map in H. destruct H as [[ty pats] [Hentry H]].
  rewrite Forall_forall in V. specialize (V _ Hentry). cbn [fst snd] in V, H.
  apply in_flat_map in H. destruct H as [[p dv] [Hpd H]].
  rewrite Forall_forall in V. specialize (V _ Hpd). cbn [fst snd] in V, H.
  apply in_map_iff in H. destruct H as [m [He Hm]].
  exists ty, dv, p, m. repeat split; [exact V|exact Hm|symmetry; exact He].
Qed.

Lemma prefix_substring n : forall s, prefix (substring 0 n s) s = true.
Proof.
  induction n as [|n IH]; intros s; destruct s as [|c s]; simpl; try reflexivity.
  rewrite IH. destruct (ascii_dec c c); [reflexivity|contradiction].
Qed.

Lemma contains_tail needle c s :
  PyStr.contains needle s = true -> PyStr.contains needle (String c s) = true.
Proof.
  intros H. change (PyStr.contains needle (String c s))
    with (prefix needle (String c s) || PyStr.contains needle s).
  rewrite H. apply orb_true_r.
Qed.

Lemma contains_prefix needle s : prefix needle s = true -> PyStr.contains needle s = true.
Proof.
  intros H. destruct s as [|c s].
  - change (PyStr.contains needle "") with (prefix needle "" || false).
    rewrite H. reflexivity.
  - change (PyStr.contains needle (String c s))
      with (prefix needle (String c s) || PyStr.contains needle s).
    rewrite H. reflexivity.
Qed.

(** Every match is a piece of the subject. *)
Lemma finditer_from_contained r t : forall pos skip pv,
  Forall (fun m => PyStr.contains (group0 m) t = true) (finditer_from r pos skip pv t).
Proof.
  induction t as [|x t IH]; intros pos skip pv.
  - destruct skip; cbn [finditer_from]; [|constructor].
    destruct (match_at r _); constructor; [|constructor].
    cbn [group0]. apply contains_prefix, prefix_substring.
  - assert (Htail : forall pos' skip' pv',
               Forall (fun m => PyStr.contains (group0 m) (String x t) = true)
                      (finditer_from r pos' skip' pv' t)).
    { intros. eapply Forall_impl; [|apply IH]. intros m. apply contains_tail. }
    destruct skip as [|skip]; cbn [finditer_from]; [|apply Htail].
    destruct (match_at r _); [|apply Htail].
    constructor; [|apply Htail].
    cbn [group0]. apply contains_prefix, prefix_substring.
Qed.

End EntityValues.

(** X2.  Every entity has confidence 0.9; a room_type entity carries one of
    the canonical names deluxe, suite, standard, executive, a booking_source
    entity carries ota or direct, and there is no other entity type than
    these two, number and date. *)
Theorem entities_use_fixed_vocabulary (text : string) (e : NLU.Entity) :
  In e (NLU.entities (NLU.process text)) ->
  NLU.e_confidence e = (9 # 10)%Q
  /\ ((NLU.e_type e = "room_type"
       /\ In (NLU.e_value e) ["deluxe"; "suite"; "standard"; "executive"])
      \/ (NLU.e_type e = "booking_source" /\ In (NLU.e_value e) ["ota"; "direct"])
      \/ NLU.e_type e = "number"
      \/ NLU.e_type e = "date").
Proof.
  rewrite process_entities. intros H.
  destruct (entity_origin _ _ H) as [ty [dv [p [m [V [_ ->]]]]]].
  split; [reflexivity|]. cbn [NLU.entity_of NLU.e_type NLU.e_value].
  destruct dv as [v|]; cbn [row_vocabulary] in V.
  - destruct V as [[-> Hv]|[-> Hv]]; [left|right; left]; split; try reflexivity;
      cbn [In]; intuition (subst; auto).
  - destruct V as [->| ->]; [right; right; left|right; right; right]; reflexivity.
Qed.

Lemma entities_use_fixed_vocabulary_witness :
  NLU.e_confidence (NLU.mkEntity "room_type" "deluxe" (9 # 10)) = (9 # 10)%Q.
Proof.
  apply (entities_use_fixed_vocabulary "I want a luxury room").
  vm_compute. left. reflexivity.
Defined.

(** X3.  The value of a number or date entity is text found in the
    lower-cased, trimmed input. *)
Theorem literal_entity_values_occur_in_text (text : string) (e : NLU.Entity) :
  In e (NLU.entities (NLU.process text)) ->
  NLU.e_type e = "number" \/ NLU.e_type e = "date" ->
  PyStr.contains (NLU.e_value e) (PyStr.strip (PyStr.lower text)) = true.
Proof.
  rewrite process_entities. intros H Hty.
  destruct (entity_origin _ _ H) as [ty [dv [p [m [V [Hm ->]]]]]].
  cbn [NLU.entity_of NLU.e_type NLU.e_value] in *.
  destruct dv as [v|]; cbn [row_vocabulary] in V.
  - exfalso. destruct V as [[-> _]|[-> _]]; destruct Hty; discriminate.
  - pose proof (finditer_from_contained p (PyStr.strip (PyStr.lower text)) 0 0 None) as F.
    rewrite Forall_forall in F. exact (F m Hm).
Qed.

Lemma literal_entity_values_occur_in_text_witness :
  PyStr.contains "12/05/2025" "book 2 rooms on 12/05/2025" = true.
Proof.
  apply (literal_entity_values_occur_in_text "Book 2 rooms on 12/05/2025 "
           (NLU.mkEntity "date" "12/05/2025" (9 # 10))).
  - vm_compute. tauto.
  - right. reflexivity.
Defined.

(** X4.  The intent is UNKNOWN exactly when no pattern of any intent is found
    in the lower-cased, trimmed text. *)
Theorem unknown_iff_no_pattern_matches (text : string) :
  NLU.intent (NLU.process text) = NLU.UNKNOWN
  <-> forall i patterns pattern,
        In (i, patterns) NLU.intent_patterns -> In pattern patterns ->
        Re.search pattern (PyStr.strip (PyStr.lower text)) = false.
Proof.
  rewrite process_intent. set (t := PyStr.strip (PyStr.lower text)).
  assert (Hzero : forall ps, NLU.count_matches ps t = 0
                             <-> forall p, In p ps -> Re.search p t = false).
  { intros ps. rewrite count_matches_filter. split.
    - intros H p Hp. destruct (Re.search p t) eqn:E; [|reflexivity].
      assert (Hin : In p (filter (fun q => Re.search q t) ps))
        by (apply filter_In; split; assumption).
      destruct (filter _ ps); [destruct Hin|discriminate].
    - intros H. destruct (filter (fun q => Re.search q t) ps) as [|p l] eqn:F;
        [reflexivity|].
      assert (Hin : In p (filter (fun q => Re.search q t) ps)) by (rewrite F; left; reflexivity).
      apply filter_In in Hin. destruct Hin as [Hp Hs].
      rewrite (H p Hp) in Hs. discriminate. }
  destruct (recognize_intent_cases t) as [[Hu Hall]|[b [ps [a [Ht [Hc _]]]]]].
  - rewrite Hu. split; [|reflexivity]. intros _ i patterns pattern Hin Hp.
    rewrite Forall_forall in Hall. specialize (Hall _ Hin). cbn [snd] in Hall.
    exact (proj1 (Hzero patterns) Hall pattern Hp).
  - split.
    + intros E. exfalso. apply unknown_not_in_table.
      rewrite <- E. rewrite Ht. rewrite map_app. apply in_or_app.
      right. left. reflexivity.
    + intros H. exfalso.
      assert (Hin : In (fst (NLU._recognize_intent t), ps) NLU.intent_patterns).
      { rewrite Ht. apply in_or_app. right. left. reflexivity. }
      assert (Z0 : NLU.count_matches ps t = 0).
      { apply Hzero. intros p Hp. exact (H _ _ _ Hin Hp). }
      lia.
Qed.

(** ** The store queries *)
Section StoreQueries.
Import DB.

Lemma insert_by_In_iff (A : Type) (le : A -> A -> bool) x l y :
  In y (insert_by le x l) <-> y = x \/ In y l.
Proof.
  split; [apply insert_by_In|].
  induction l as [|z l IH]; simpl.
  - intros [->|[]]. left. reflexivity.
  - destruct (le x z); simpl.
    + intros [->|H]; [left; reflexivity|right; exact H].
    + intros [->|[->|H]]; [right; apply IH; left; reflexivity|left; reflexivity|].
      right. apply IH. right. exact H.
Qed.

Lemma order_by_In_iff (A : Type) (le : A -> A -> bool) l y :
  In y (order_by le l) <-> In y l.
Proof.
  unfold order_by. induction l as [|x l IH]; simpl; [tauto|].
  rewrite insert_by_In_iff, IH. split; intros [H|H]; auto.
Qed.

Lemma order_by_length (A : Type) (le : A -> A -> bool) l :
  List.length (order_by le l) = List.length l.
Proof.
  unfold order_by. induction l as [|x l IH]; simpl; [reflexivity|].
  rewrite <- IH. generalize (fold_right (insert_by le) [] l). intros s.
  induction s as [|z s IHs]; simpl; [reflexivity|].
  destruct (le x z); simpl; [reflexivity|]. rewrite IHs. reflexivity.
Qed.

Section Sorting.
Variable A : Type.
Variable le : A -> A -> bool.
Hypothesis le_total : forall a b, le a b = true \/ le b a = true.
Hypothesis le_trans : forall a b c, le a b = true -> le b c = true -> le a c = true.

Lemma insert_by_sorted x l :
  StronglySorted (fun a b => le a b = true) l ->
  StronglySorted (fun a b => le a b = true) (insert_by le x l).
Proof.
  induction l as [|z l IH]; simpl; intros H.
  - constructor; constructor.
  - inversion H as [|? ? Hl Hz]; subst.
    destruct (le x z) eqn:E.
    + constructor; [exact H|]. constructor; [exact E|].
      rewrite Forall_forall in *. intros y Hy. exact (le_trans _ _ _ E (Hz y Hy)).
    + constructor; [exact (IH Hl)|].
      rewrite Forall_forall in *. intros y Hy.
      apply insert_by_In_iff in Hy. destruct Hy as [->|Hy]; [|exact (Hz y Hy)].
      destruct (le_total x z) as [H1|H1]; [congruence|exact H1].
Qed.

Lemma order_by_sorted l : StronglySorted (fun a b => le a b = true) (order_by le l).
Proof.
  unfold order_by. induction l as [|x l IH]; simpl; [constructor|].
  apply insert_by_sorted. exact IH.
Qed.

End Sorting.

Lemma mapM_map (A B : Type) (f : A -> res B) (g : A -> B) l : forall ys,
  (forall x y, f x = Ok y -> y = g x) ->
  mapM f l = Ok ys -> ys = map g l.
Proof.
  induction l as [|x l IH]; simpl; intros ys Hg H.
  - inversion H. reflexivity.
  - destruct (f x) as [b|e] eqn:Fx; cbn [bind] in H; [|discriminate].
    destruct (mapM f l) as [bs|e] eqn:Ml; cbn [bind] in H; [|discriminate].
    inversion H; subst. rewrite (Hg x b Fx), (IH bs Hg eq_refl). reflexivity.
Qed.

Lemma mapM_total (A B : Type) (f : A -> res B) l :
  (forall x, In x l -> exists y, f x = Ok y) -> exists ys, mapM f l = Ok ys.
Proof.
  induction l as [|x l IH]; simpl; intros H; [eexists; reflexivity|].
  destruct (H x (or_introl eq_refl)) as [y Hy]. rewrite Hy. cbn [bind].
  destruct IH as [ys Hys]; [intros z Hz; apply H; right; exact Hz|].
  rewrite Hys. cbn [bind]. eexists. reflexivity.
Qed.


(** The rows a call of [get_rooms] selects. *)
Definition selected_rows (db : Store) (available_only : bool) : list RoomRow :=
  if available_only
  then filter (fun r => (0 <? row_inventory r)%Z) (rooms db)
  else rooms db.

(** The row a room dict was built from. *)
Definition row_of_room (r : Room) : RoomRow :=
  mkRoomRow (room_id r) (name r) (room_type r) (rack_rate r) (direct_rate r)
            (inventory r) (description r) (amenities r) (max_occupancy r).

(** The dict of a row, the division taken for granted. *)
Definition room_dict (r : RoomRow) : Room :=
  mkRoom (row_id r) (row_name r) (row_room_type r)
         (row_rack_rate r) (row_direct_rate r) (row_inventory r)
         (row_description r) (row_amenities r) (row_max_occupancy r)
         (row_rack_rate r - row_direct_rate r)%Q
         (PyNum.round_half_even
            (((row_rack_rate r - row_direct_rate r) / row_rack_rate r) * 100)%Q).

Lemma room_of_row_Ok r room : room_of_row r = Ok room -> room = room_dict r.
Proof.
  unfold room_of_row. destruct (Qeq_bool (row_rack_rate r) 0); [discriminate|].
  intros H. inversion H. reflexivity.
Qed.

Lemma row_of_room_dict r : row_of_room (room_dict r) = r.
Proof. destruct r. reflexivity. Qed.

Lemma get_rooms_unfold db available_only :
  get_rooms db available_only
  = mapM room_of_row
         (order_by (fun a b => Qle_bool (row_rack_rate a) (row_rack_rate b))
                   (selected_rows db available_only)).
Proof. reflexivity. Qed.

Lemma Qle_bool_total a b : Qle_bool a b = true \/ Qle_bool b a = true.
Proof.
  destruct (Qlt_le_dec b a) as [H|H].
  - right. apply Qle_bool_iff. apply Qlt_le_weak. exact H.
  - left. apply Qle_bool_iff. exact H.
Qed.

Lemma Qle_bool_trans a b c :
  Qle_bool a b = true -> Qle_bool b c = true -> Qle_bool a c = true.
Proof.
  rewrite !Qle_bool_iff. apply Qle_trans.
Qed.

Lemma StronglySorted_map (A B : Type) (f : A -> B) (R : B -> B -> Prop) l :
  StronglySorted (fun a b => R (f a) (f b)) l -> StronglySorted R (map f l).
Proof.
  induction 1 as [|x l Hl IH Hx]; simpl; constructor; [exact IH|].
  apply Forall_map. exact Hx.
Qed.

End StoreQueries.

(** X5.  The rooms [get_rooms] returns are in ascending order of rack rate,
    whether or not sold-out rooms are included. *)
Theorem get_rooms_sorted_by_rack_rate (db : DB.Store) (available_only : bool)
    (rooms : list DB.Room) :
  DB.get_rooms db available_only = Ok rooms ->
  StronglySorted (fun a b => (DB.rack_rate a <= DB.rack_rate b)%Q) rooms.
Proof.
  rewrite get_rooms_unfold. intros H.
  rewrite (mapM_map _ _ _ room_dict _ rooms room_of_row_Ok H).
  apply (StronglySorted_map _ _ room_dict
           (fun a b => (DB.rack_rate a <= DB.rack_rate b)%Q)).
  eapply StronglySorted_ind
    with (P := StronglySorted
                 (fun a b => (DB.rack_rate (room_dict a) <= DB.rack_rate (room_dict b))%Q)).
  - constructor.
  - intros x l _ IH Hx. constructor; [exact IH|].
    eapply Forall_impl; [|exact Hx]. intros y Hy. apply Qle_bool_iff. exact Hy.
  - apply order_by_sorted.
    + intros a b. apply Qle_bool_total.
    + intros a b c. apply Qle_bool_trans.
Qed.

Lemma get_rooms_sorted_by_rack_rate_witness :
  StronglySorted (fun a b => (DB.rack_rate a <= DB.rack_rate b)%Q) rooms_without_suite.
Proof.
  apply (get_rooms_sorted_by_rack_rate Seed.store_suite_sold_out true).
  vm_compute. reflexivity.
Defined.

(** X6.  [get_rooms] returns one dict per selected row and nothing else: read
    back as rows, the result is a rearrangement of the rows with inventory
    above zero (of all rows when [available_only] is off), and the savings
    of each dict are its rack rate less its direct rate. *)
Theorem get_rooms_returns_the_selected_rows (db : DB.Store) (available_only : bool)
    (rooms : list DB.Room) :
  DB.get_rooms db available_only = Ok rooms ->
  (forall row, In row (map row_of_room rooms)
               <-> In row (DB.rooms db)
                   /\ (available_only = true -> (0 < DB.row_inventory row)%Z))
  /\ List.length rooms = List.length (selected_rows db available_only)
  /\ Forall (fun r => DB.savings r = (DB.rack_rate r - DB.direct_rate r)%Q) rooms.
Proof.
  rewrite get_rooms_unfold. intros H.
  rewrite (mapM_map _ _ _ room_dict _ rooms room_of_row_Ok H).
  split; [|split].
  - intros row. rewrite map_map.
    rewrite (map_ext _ (fun r => r) row_of_room_dict), map_id.
    rewrite order_by_In_iff. unfold selected_rows.
    destruct available_only.
    + rewrite filter_In. rewrite Z.ltb_lt. tauto.
    + split; [intros Hin; split; [exact Hin|discriminate]|tauto].
  - rewrite length_map. apply order_by_length.
  - apply Forall_map. apply Forall_forall. intros r _. reflexivity.
Qed.

Lemma get_rooms_returns_the_selected_rows_witness :
  List.length rooms_without_suite
  = List.length (selected_rows Seed.store_suite_sold_out true).
Proof.
  apply (get_rooms_returns_the_selected_rows Seed.store_suite_sold_out true).
  vm_compute. reflexivity.
Defined.


Section FaqQueries.
Import DB.


Definition faq_dict (f : FaqRow) : Faq :=
  mkFaq (row_question f) (row_answer f) (row_category f).

Definition by_priority (a b : FaqRow) : bool := (row_priority b <=? row_priority a)%Z.





Lemma firstn_subset (A : Type) n : forall (l : list A) x, In x (firstn n l) -> In x l.
Proof.
  induction n as [|n IH]; intros l x H; [destruct H|].
  destruct l as [|y l]; [destruct H|].
  destruct H as [<-|H]; [left; reflexivity|right; exact (IH l x H)].
Qed.

End FaqQueries.


(** X9.  [get_faqs] returns at most [limit] FAQs when the limit is not
    negative, every one of them the dict of a stored FAQ, and with a
    non-empty category only FAQs of that category. *)
Theorem get_faqs_respects_limit_and_category
    (db : DB.Store) (category : option string) (limit : Z) :
  ((0 <= limit)%Z -> Z.of_nat (List.length (Tables.get_faqs db category limit)) <= limit)%Z
  /\ (forall f, In f (Tables.get_faqs db category limit) ->
                exists row, In row (DB.faqs db) /\ f = faq_dict row)
  /\ (forall c s f, category = Some (String c s) ->
                    In f (Tables.get_faqs db category limit) ->
                    DB.category f = Some (String c s)).
Proof.
  unfold Tables.get_faqs.
  set (selected := match category with
                   | Some (String c s) => filter _ (DB.faqs db)
                   | _ => DB.faqs db
                   end).
  set (ordered := DB.order_by _ selected).
  assert (Hsub : forall row,
             In row (if (limit <? 0)%Z then ordered else firstn (Z.to_nat limit) ordered) ->
             In row selected).
  { intros row H. apply (order_by_In_iff _ by_priority selected row).
    destruct (limit <? 0)%Z; [exact H|]. eapply firstn_subset. exact H. }
  split; [|split].
  - intros Hl. rewrite length_map.
    replace (limit <? 0)%Z with false by (symmetry; apply Z.ltb_ge; exact Hl).
    pose proof (firstn_le_length (Z.to_nat limit) ordered). lia.
  - intros f Hf. apply in_map_iff in Hf. destruct Hf as [row [<- Hrow]].
    exists row. split; [|reflexivity].
    apply Hsub in Hrow. subst selected.
    destruct category as [[|c s]|]; try exact Hrow.
    apply filter_In in Hrow. exact (proj1 Hrow).
  - intros c s f -> Hf. apply in_map_iff in Hf. destruct Hf as [row [<- Hrow]].
    apply Hsub in Hrow. subst selected. cbv iota beta in Hrow.
    apply filter_In in Hrow. destruct Hrow as [_ Hc]. cbn [DB.category].
    destruct (DB.row_category row) as [k|]; [|discriminate].
    apply String.eqb_eq in Hc. rewrite Hc. reflexivity.
Qed.

Section RoomByType.
Import DB Tables.

(** The WHERE clause of [get_room_by_type]. *)
Definition bookable (room_type : string) (r : RoomRow) : bool :=
  String.eqb (row_room_type r) (PyStr.lower room_type) && (0 <? row_inventory r)%Z.

Definition room_details (r : RoomRow) : RoomDetails :=
  mkRoomDetails (row_id r) (row_name r) (row_room_type r)
                (row_rack_rate r) (row_direct_rate r) (row_inventory r)
                (row_description r) (row_amenities r) (row_max_occupancy r)
                (row_rack_rate r - row_direct_rate r)%Q.

Lemma get_room_by_type_unfold db room_type :
  get_room_by_type db room_type
  = match filter (bookable room_type) (rooms db) with
    | r :: _ => Some (room_details r)
    | [] => None
    end.
Proof. reflexivity. Qed.

End RoomByType.

(** X10.  [get_room_by_type] answers with a room of the asked type (compared
    in lower case) that has inventory left, and with [None] exactly when the
    table has no such room; the case of the argument does not matter. *)
Theorem get_room_by_type_finds_a_bookable_room (db : DB.Store) (room_type : string) :
  (Tables.get_room_by_type db room_type = None
   <-> forall row, In row (DB.rooms db) -> bookable room_type row = false)
  /\ (forall d, Tables.get_room_by_type db room_type = Some d ->
                Tables.d_room_type d = PyStr.lower room_type
                /\ (0 < Tables.d_inventory d)%Z
                /\ Tables.d_savings d = (Tables.d_rack_rate d - Tables.d_direct_rate d)%Q
                /\ exists row, In row (DB.rooms db) /\ d = room_details row)
  /\ Tables.get_room_by_type db (PyStr.lower room_type)
     = Tables.get_room_by_type db room_type.
Proof.
  rewrite !get_room_by_type_unfold. split; [|split].
  - destruct (filter (bookable room_type) (DB.rooms db)) as [|r l] eqn:F.
    + split; [|reflexivity]. intros _ row Hrow.
      destruct (bookable room_type row) eqn:E; [exfalso|reflexivity].
      assert (Hin : In row (filter (bookable room_type) (DB.rooms db)))
        by (apply filter_In; split; assumption).
      rewrite F in Hin. destruct Hin.
    + split; [discriminate|]. intros H. exfalso.
      assert (Hin : In r (filter (bookable room_type) (DB.rooms db)))
        by (rewrite F; left; reflexivity).
      apply filter_In in Hin. destruct Hin as [Hr Hb]. rewrite (H r Hr) in Hb.
      discriminate.
  - intros d H.
    destruct (filter (bookable room_type) (DB.rooms db)) as [|r l] eqn:F; [discriminate|].
    inversion H; subst d. clear H.
    assert (Hin : In r (filter (bookable room_type) (DB.rooms db)))
      by (rewrite F; left; reflexivity).
    apply filter_In in Hin. destruct Hin as [Hr Hb].
    unfold bookable in Hb. apply andb_true_iff in Hb. destruct Hb as [Ht Hi].
    apply String.eqb_eq in Ht. apply Z.ltb_lt in Hi.
    repeat split; try assumption. exists r. split; [exact Hr|reflexivity].
  - unfold bookable. rewrite lower_twice. reflexivity.
Qed.

(** X11.  A room [get_room_by_type] finds is also among the rooms
    [get_rooms()] lists, with the same id, name, rates and inventory. *)
Theorem room_by_type_is_listed (db : DB.Store) (room_type : string)
    (d : Tables.RoomDetails) (rooms : list DB.Room) :
  Tables.get_room_by_type db room_type = Some d ->
  DB.get_rooms db true = Ok rooms ->
  exists room,
    In room rooms
    /\ DB.room_id room = Tables.d_id d /\ DB.name room = Tables.d_name d
    /\ DB.room_type room = Tables.d_room_type d
    /\ DB.rack_rate room = Tables.d_rack_rate d
    /\ DB.direct_rate room = Tables.d_direct_rate d
    /\ DB.inventory room = Tables.d_inventory d
    /\ DB.savings room = Tables.d_savings d.
Proof.
  rewrite get_room_by_type_unfold, get_rooms_unfold. intros Hd Hrooms.
  destruct (filter (bookable room_type) (DB.rooms db)) as [|r l] eqn:F; [discriminate|].
  inversion Hd; subst d. clear Hd.
  assert (Hin : In r (filter (bookable room_type) (DB.rooms db)))
    by (rewrite F; left; reflexivity).
  apply filter_In in Hin. destruct Hin as [Hr Hb].
  unfold bookable in Hb. apply andb_true_iff in Hb. destruct Hb as [_ Hi].
  rewrite (mapM_map _ _ _ room_dict _ rooms room_of_row_Ok Hrooms).
  exists (room_dict r). split; [|repeat split].
  apply in_map. apply order_by_In_iff. unfold selected_rows.
  apply filter_In. split; assumption.
Qed.

Lemma room_by_type_is_listed_witness :
  exists room,
    In room rooms_without_suite
    /\ DB.room_id room = 1%Z /\ DB.name room = "Deluxe Room"
    /\ DB.room_type room = "deluxe"
    /\ DB.rack_rate room = 5000%Q
    /\ DB.direct_rate room = 4250%Q
    /\ DB.inventory room = 10%Z
    /\ DB.savings room = (5000 - 4250)%Q.
Proof.
  apply (room_by_type_is_listed Seed.store_suite_sold_out "Deluxe"
           (room_details (nth 0 (DB.rooms Seed.store_suite_sold_out)
                                (DB.mkRoomRow 0 "" "" 0 0 0 None None 0)))).
  - vm_compute. reflexivity.
  - vm_compute. reflexivity.
Defined.

(** ** Bookings *)

(** Two TEXT values compared byte by byte, as SQLite orders dates written
    YYYY-MM-DD. *)
Fixpoint text_le (a b : string) : bool :=
  match a, b with
  | EmptyString, _ => true
  | String _ _, EmptyString => false
  | String x a', String y b' =>
      if nat_of_ascii x <? nat_of_ascii y then true
      else if nat_of_ascii y <? nat_of_ascii x then false
      else text_le a' b'
  end.

Lemma text_le_refl a : text_le a a = true.
Proof.
  induction a as [|x a IH]; simpl; [reflexivity|].
  rewrite Nat.ltb_irrefl. exact IH.
Qed.

Lemma text_le_total a : forall b, text_le a b = true \/ text_le b a = true.
Proof.
  induction a as [|x a IH]; intros [|y b]; simpl; auto.
  destruct (nat_of_ascii x <? nat_of_ascii y) eqn:E1; [left; reflexivity|].
  destruct (nat_of_ascii y <? nat_of_ascii x) eqn:E2; [right; reflexivity|].
  apply IH.
Qed.

Lemma text_le_trans a : forall b c,
  text_le a b = true -> text_le b c = true -> text_le a c = true.
Proof.
  induction a as [|x a IH]; intros [|y b] [|z c]; simpl; try congruence.
  destruct (Nat.ltb_spec (nat_of_ascii x) (nat_of_ascii y));
    destruct (Nat.ltb_spec (nat_of_ascii y) (nat_of_ascii x));
    destruct (Nat.ltb_spec (nat_of_ascii y) (nat_of_ascii z));
    destruct (Nat.ltb_spec (nat_of_ascii z) (nat_of_ascii y));
    destruct (Nat.ltb_spec (nat_of_ascii x) (nat_of_ascii z));
    destruct (Nat.ltb_spec (nat_of_ascii z) (nat_of_ascii x));
    try lia; try congruence; try (intros; reflexivity).
  apply IH.
Qed.

Section StayOverlap.
Import Tables.

Variable sql_le : string -> string -> bool.
Hypothesis sql_le_total : forall a b, sql_le a b = true \/ sql_le b a = true.
Hypothesis sql_le_trans :
  forall a b c, sql_le a b = true -> sql_le b c = true -> sql_le a c = true.

Lemma sql_lt_le a b : sql_lt sql_le a b = true -> sql_le a b = true.
Proof.
  unfold sql_lt. intros H. apply negb_true_iff in H.
  destruct (sql_le_total a b) as [E|E]; [exact E|congruence].
Qed.

Lemma sql_lt_le_trans a b c :
  sql_lt sql_le a b = true -> sql_le b c = true -> sql_lt sql_le a c = true.
Proof.
  unfold sql_lt. intros H1 H2. apply negb_true_iff in H1. apply negb_true_iff.
  destruct (sql_le c a) eqn:E; [|reflexivity].
  rewrite (sql_le_trans _ _ _ H2 E) in H1. discriminate.
Qed.

Lemma sql_le_lt_trans a b c :
  sql_le a b = true -> sql_lt sql_le b c = true -> sql_lt sql_le a c = true.
Proof.
  unfold sql_lt. intros H1 H2. apply negb_true_iff in H2. apply negb_true_iff.
  destruct (sql_le c a) eqn:E; [|reflexivity].
  rewrite (sql_le_trans _ _ _ E H1) in H2. discriminate.
Qed.

Lemma overlaps_iff b ci co :
  sql_lt sql_le (check_in b) (check_out b) = true ->
  sql_lt sql_le ci co = true ->
  overlaps sql_le b ci co = true
  <-> sql_lt sql_le (check_in b) co = true /\ sql_lt sql_le ci (check_out b) = true.
Proof.
  intros Hb Hr. unfold overlaps.
  rewrite !orb_true_iff, !andb_true_iff. split.
  - intros [[[H1 H2]|[H1 H2]]|[H1 H2]].
    + split; [exact (sql_le_lt_trans _ _ _ H1 Hr)|exact H2].
    + split; [exact H1|exact (sql_lt_le_trans _ _ _ Hr H2)].
    + split; [exact (sql_lt_le_trans _ _ _ Hb H2)|exact (sql_le_lt_trans _ _ _ H1 Hb)].
  - intros [H1 H2].
    destruct (sql_le (check_in b) ci) eqn:E1; [left; left; split; [reflexivity|exact H2]|].
    assert (E1' : sql_le ci (check_in b) = true)
      by (destruct (sql_le_total ci (check_in b)); congruence).
    destruct (sql_le (check_out b) co) eqn:E2; [right; split; [exact E1'|reflexivity]|].
    assert (E2' : sql_le co (check_out b) = true)
      by (destruct (sql_le_total co (check_out b)); congruence).
    left. right. split; [exact H1|exact E2'].
Qed.

End StayOverlap.

(** X12.  For a booking and a request whose check-in precede their
    check-out, the date condition of [check_room_availability] holds exactly
    when the two stays overlap: the booking starts before the requested
    check-out and ends after the requested check-in. *)
Theorem booking_counts_iff_stays_overlap
    (sql_le : string -> string -> bool) (b : Tables.BookingRow) (ci co : string) :
  (forall x y, sql_le x y = true \/ sql_le y x = true) ->
  (forall x y z, sql_le x y = true -> sql_le y z = true -> sql_le x z = true) ->
  Tables.sql_lt sql_le (Tables.check_in b) (Tables.check_out b) = true ->
  Tables.sql_lt sql_le ci co = true ->
  Tables.overlaps sql_le b ci co
  = Tables.sql_lt sql_le (Tables.check_in b) co
    && Tables.sql_lt sql_le ci (Tables.check_out b).
Proof.
  intros Htotal Htrans Hb Hr.
  apply Bool.eq_iff_eq_true. rewrite andb_true_iff.
  apply overlaps_iff; assumption.
Qed.

Lemma booking_counts_iff_stays_overlap_witness :
  Tables.overlaps text_le
    (Tables.mkBookingRow 1 2 None "2025-12-01" "2025-12-05" "direct" 27200 "confirmed")
    "2025-12-05" "2025-12-07"
  = false.
Proof.
  rewrite (booking_counts_iff_stays_overlap text_le).
  - reflexivity.
  - intros x y. apply text_le_total.
  - intros x y z. apply text_le_trans.
  - reflexivity.
  - reflexivity.
Defined.

Section BookingEffects.
Import DB Tables.

Variable strptime : string -> option Z.

Lemma next_booking_id_above rows :
  Forall (fun b => (booking_id b < next_booking_id rows)%Z) rows.
Proof.
  unfold next_booking_id. induction rows as [|b rows IH]; [constructor|].
  cbn [fold_right]. constructor; [lia|].
  eapply Forall_impl; [|exact IH]. cbv beta. intros a Ha. lia.
Qed.

Lemma next_booking_id_fresh rows : ~ In (next_booking_id rows) (map booking_id rows).
Proof.
  intros H. apply in_map_iff in H. destruct H as [b [Hb Hin]].
  pose proof (next_booking_id_above rows) as F. rewrite Forall_forall in F.
  specialize (F b Hin). lia.
Qed.

(** The rooms of one type, as both functions select them. *)
Definition rooms_of_type (db : Database) (room_type : string) : list RoomRow :=
  filter (fun r => String.eqb (row_room_type r) (PyStr.lower room_type)) (rooms (store db)).

Lemma absent_id_filter (p : RoomRow -> bool) r0 l :
  ~ In (row_id r0) (map row_id l) ->
  filter (fun r => (row_id r0 =? row_id r)%Z && p r) l = [].
Proof.
  induction l as [|z l IH]; intros Hnotin; [reflexivity|]. cbn [filter].
  destruct (row_id r0 =? row_id z)%Z eqn:E.
  - exfalso. apply Hnotin. left. apply Z.eqb_eq in E. symmetry. exact E.
  - cbn [andb]. apply IH. intros H. apply Hnotin. right. exact H.
Qed.

Lemma unique_id_filter (p : RoomRow -> bool) r0 l :
  NoDup (map row_id l) -> In r0 l -> p r0 = true ->
  List.length (filter (fun r => (row_id r0 =? row_id r)%Z && p r) l) = 1.
Proof.
  induction l as [|r l IH]; intros Hnd Hin Hp; [destruct Hin|].
  inversion Hnd as [|? ? Hnotin Hnd']; subst. cbn [filter].
  destruct Hin as [->|Hin].
  - rewrite Z.eqb_refl, Hp. cbn [andb List.length]. f_equal.
    rewrite (absent_id_filter p r0 l Hnotin). reflexivity.
  - destruct (row_id r0 =? row_id r)%Z eqn:E.
    + exfalso. apply Hnotin. apply Z.eqb_eq in E. rewrite <- E.
      apply in_map. exact Hin.
    + cbn [andb]. exact (IH Hnd' Hin Hp).
Qed.

End BookingEffects.

(** X13.  [create_booking] returns [None] and leaves the database alone when
    no room has the type; it raises ValueError, the room being found, when a
    date is malformed; otherwise it appends one confirmed booking for the
    first room of the type, under an id no booking had before, priced at the
    nights times the direct rate (source "direct") or the rack rate, and
    leaves the rooms as they were: inventory is neither read nor reduced. *)
Theorem create_booking_outcome
    (strptime : string -> option Z) (db : Tables.Database)
    (room_type ci co source : string) (guest : option string) :
  match Tables.create_booking strptime db room_type ci co source guest with
  | Ok (None, db') => db' = db /\ rooms_of_type db room_type = []
  | Ok (Some id, db') =>
      Tables.store db' = Tables.store db
      /\ ~ In id (map Tables.booking_id (Tables.bookings db))
      /\ exists room others day_in day_out,
           rooms_of_type db room_type = room :: others
           /\ strptime ci = Some day_in /\ strptime co = Some day_out
           /\ Tables.bookings db'
              = (Tables.bookings db
                 ++ [Tables.mkBookingRow id (DB.row_id room) guest ci co source
                       ((if String.eqb source "direct"
                         then DB.row_direct_rate room else DB.row_rack_rate room)
                        * inject_Z (day_out - day_in))%Q
                       "confirmed"])%list
  | Raise e =>
      e = "ValueError"
      /\ rooms_of_type db room_type <> []
      /\ (strptime ci = None \/ strptime co = None)
  end.
Proof.
  unfold Tables.create_booking. fold (rooms_of_type db room_type).
  destruct (rooms_of_type db room_type) as [|room others] eqn:R.
  - split; reflexivity.
  - destruct (strptime ci) as [day_in|] eqn:Ein; [destruct (strptime co) as [day_out|] eqn:Eout|].
    + split; [reflexivity|]. split; [apply next_booking_id_fresh|].
      exists room, others, day_in, day_out. repeat split.
    + repeat split; [discriminate|right; reflexivity].
    + repeat split; [discriminate|left; reflexivity].
Qed.

Lemma create_booking_success
    (strptime : string -> option Z) (db db' : Tables.Database)
    (room_type ci co source : string) (guest : option string) (id : Z) :
  Tables.create_booking strptime db room_type ci co source guest = Ok (Some id, db') ->
  exists room others total,
    rooms_of_type db room_type = room :: others
    /\ db' = Tables.mkDatabase (Tables.store db)
               (Tables.bookings db
                ++ [Tables.mkBookingRow id (DB.row_id room) guest ci co source total
                                        "confirmed"])%list.
Proof.
  unfold Tables.create_booking. fold (rooms_of_type db room_type).
  destruct (rooms_of_type db room_type) as [|room others]; [discriminate|].
  destruct (strptime ci); [|discriminate]. destruct (strptime co); [|discriminate].
  intros H. inversion H; subst. do 3 eexists. split; reflexivity.
Qed.

(** X14.  After a successful [create_booking], and rooms having distinct ids,
    [check_room_availability] for the same room type and dates reports one
    room fewer than before. *)
Theorem booking_takes_one_room
    (sql_le : string -> string -> bool) (strptime : string -> option Z)
    (db db' : Tables.Database) (room_type ci co source : string)
    (guest : option string) (id : Z) :
  (forall x, sql_le x x = true) ->
  NoDup (map DB.row_id (DB.rooms (Tables.store db))) ->
  Tables.create_booking strptime db room_type ci co source guest = Ok (Some id, db') ->
  Tables.check_room_availability sql_le db' room_type ci co
  = let available := (snd (Tables.check_room_availability sql_le db room_type ci co) - 1)%Z in
    ((0 <? available)%Z, available).
Proof.
  intros Hrefl Hnd Hcreate.
  destruct (create_booking_success _ _ _ _ _ _ _ _ _ Hcreate)
    as [room [others [total [R Hdb]]]].
  assert (Hstore : Tables.store db' = Tables.store db) by (rewrite Hdb; reflexivity).
  assert (Hb : Tables.bookings db'
               = (Tables.bookings db
                  ++ [Tables.mkBookingRow id (DB.row_id room) guest ci co source total
                                          "confirmed"])%list)
    by (rewrite Hdb; reflexivity).
  unfold Tables.check_room_availability. rewrite Hstore.
  fold (rooms_of_type db room_type). rewrite R. cbv zeta. cbn [snd].
  assert (Hroom : In room (DB.rooms (Tables.store db))
                  /\ String.eqb (DB.row_room_type room) (PyStr.lower room_type) = true).
  { assert (Hin : In room (rooms_of_type db room_type)) by (rewrite R; left; reflexivity).
    apply filter_In in Hin. exact Hin. }
  destruct Hroom as [Hin Htype].
  assert (Hbooked : Tables.booked sql_le db' (PyStr.lower room_type) ci co
                    = (Tables.booked sql_le db (PyStr.lower room_type) ci co + 1)%Z).
  { unfold Tables.booked. rewrite Hstore, Hb.
    rewrite flat_map_app, length_app. cbn [flat_map]. rewrite app_nil_r.
    cbn [Tables.booking_room_id Tables.status].
    assert (Hov : Tables.overlaps sql_le
                    (Tables.mkBookingRow id (DB.row_id room) guest ci co source total
                                         "confirmed") ci co = true).
    { unfold Tables.overlaps. cbn [Tables.check_in Tables.check_out].
      rewrite !Hrefl. apply orb_true_r. }
    rewrite Hov.
    rewrite (filter_ext _
               (fun r => (DB.row_id room =? DB.row_id r)%Z
                         && String.eqb (DB.row_room_type r) (PyStr.lower room_type))).
    - rewrite (unique_id_filter _ room _ Hnd Hin Htype). lia.
    - intros r. rewrite String.eqb_refl, !andb_true_r. reflexivity. }
  rewrite Hbooked.
  replace (DB.row_inventory room
           - (Tables.booked sql_le db (PyStr.lower room_type) ci co + 1))%Z
    with (DB.row_inventory room
          - Tables.booked sql_le db (PyStr.lower room_type) ci co - 1)%Z by lia.
  reflexivity.
Qed.

Definition day_of_december (s : string) : option Z :=
  if String.eqb s "2025-12-01" then Some 1%Z
  else if String.eqb s "2025-12-05" then Some 5%Z
  else None.

Lemma booking_takes_one_room_witness :
  let db := Tables.mkDatabase Seed.store [] in
  exists db',
    Tables.create_booking day_of_december db "Suite" "2025-12-01" "2025-12-05" "direct" None
    = Ok (Some 1%Z, db')
    /\ Tables.check_room_availability text_le db "suite" "2025-12-01" "2025-12-05"
       = (true, 5%Z)
    /\ Tables.check_room_availability text_le db' "Suite" "2025-12-01" "2025-12-05"
       = (true, 4%Z).
Proof.
  intros db. eexists. split; [vm_compute; reflexivity|]. split; [vm_compute; reflexivity|].
  rewrite (booking_takes_one_room text_le day_of_december db _ "Suite" "2025-12-01"
             "2025-12-05" "direct" None 1%Z).
  - vm_compute. reflexivity.
  - intros x. apply text_le_refl.
  - vm_compute. repeat (constructor; [simpl; intuition discriminate|]). constructor.
  - vm_compute. reflexivity.
Defined.

(** ** The generator: errors and what a call leaves behind *)
Section GeneratorFrame.
Import DB RG.

Variable cfg : BusinessConfig.
Variable db : Store.

(** The intents whose handlers read the rooms. *)
Definition reads_rooms (i : NLU.Intent) : bool :=
  match i with
  | NLU.QUERY_ROOMS | NLU.QUERY_PRICES | NLU.CHECK_AVAILABILITY
  | NLU.COMPARE_RATES | NLU.BOOK_ROOM => true
  | _ => false
  end.

Lemma fetch_if_missing_raise context e :
  fetch_if_missing db context = Raise e
  <-> has_room_data context = false /\ get_rooms db true = Raise e.
Proof.
  unfold fetch_if_missing. destruct (has_room_data context).
  - split; [discriminate|intros [H _]; discriminate].
  - destruct (get_rooms db true) as [rooms|e']; cbn [bind].
    + split; [discriminate|intros [_ H]; discriminate].
    + split; [intros H; inversion H; split; reflexivity|].
      intros [_ H]. inversion H. reflexivity.
Qed.

(** The handlers that fetch first fail exactly when the fetch fails. *)
Lemma fetching_handler_raise context e :
  reads_rooms (intent context) = true ->
  (generate_response cfg db context = Raise e <-> fetch_if_missing db context = Raise e).
Proof.
  unfold generate_response.
  destruct (intent context); cbn [reads_rooms]; try discriminate; intros _.
  - unfold _handle_room_query.
    destruct (fetch_if_missing db context) as [c|e']; cbn [bind].
    + destruct (negb (has_room_data c)); split; discriminate.
    + split; intros H; inversion H; reflexivity.
  - unfold _handle_price_query.
    destruct (fetch_if_missing db context) as [c|e']; cbn [bind].
    + split; discriminate.
    + split; intros H; inversion H; reflexivity.
  - unfold _handle_availability.
    destruct (fetch_if_missing db context) as [c|e']; cbn [bind].
    + split; discriminate.
    + split; intros H; inversion H; reflexivity.
  - unfold _handle_rate_comparison.
    destruct (fetch_if_missing db context) as [c|e']; cbn [bind].
    + split; discriminate.
    + split; intros H; inversion H; reflexivity.
  - unfold _handle_booking, booking_options.
    destruct (fetch_if_missing db context) as [c|e'] eqn:F.
    + pose proof (fetch_if_missing_stable _ _ _ F) as S.
      destruct (room_type_entities context); cbn [bind]; [split; discriminate|].
      destruct (filter _ _); [rewrite S; cbn [bind]|]; split; discriminate.
    + destruct (room_type_entities context); cbn [bind];
        split; intros H; inversion H; reflexivity.
Qed.

Lemma static_handler_ok context :
  reads_rooms (intent context) = false ->
  exists o, generate_response cfg db context = Ok (o, context).
Proof.
  unfold generate_response.
  destruct (intent context); cbn [reads_rooms]; try discriminate; intros _;
    try (eexists; reflexivity).
  unfold _handle_help. destruct (find_faqs _ _ _ _); eexists; reflexivity.
Qed.

(** A successful fetch keeps the context apart from filling in the rooms. *)
Lemma fetch_if_missing_frame context c :
  fetch_if_missing db context = Ok c ->
  intent c = intent context /\ entities c = entities context
  /\ user_query c = user_query context
  /\ (has_room_data context = true -> c = context).
Proof.
  intros F. destruct (fetch_if_missing_inv _ _ _ F) as [[E ->]|[E [rooms [_ ->]]]].
  - repeat split.
  - repeat split. intros H. congruence.
Qed.

(** What the handlers other than the room query leave behind is the context
    as fetched. *)
Lemma fetching_handler_context context o c :
  reads_rooms (intent context) = true -> intent context <> NLU.QUERY_ROOMS ->
  generate_response cfg db context = Ok (o, c) ->
  fetch_if_missing db context = Ok c.
Proof.
  unfold generate_response.
  destruct (intent context); cbn [reads_rooms]; try discriminate; intros _ Hq;
    [exfalso; apply Hq; reflexivity| | | |].
  - unfold _handle_price_query.
    destruct (fetch_if_missing db context) as [c0|e']; cbn [bind]; [|discriminate].
    intros H. inversion H. reflexivity.
  - unfold _handle_availability.
    destruct (fetch_if_missing db context) as [c0|e']; cbn [bind]; [|discriminate].
    intros H. inversion H. reflexivity.
  - unfold _handle_rate_comparison.
    destruct (fetch_if_missing db context) as [c0|e']; cbn [bind]; [|discriminate].
    intros H. inversion H. reflexivity.
  - unfold _handle_booking, booking_options.
    destruct (fetch_if_missing db context) as [c0|e'] eqn:F;
      [|destruct (room_type_entities context); discriminate].
    pose proof (fetch_if_missing_stable _ _ _ F) as S.
    destruct (room_type_entities context); cbn [bind].
    + intros H. inversion H. reflexivity.
    + destruct (filter _ _); [rewrite S; cbn [bind]|]; intros H; inversion H; reflexivity.
Qed.

(** The room query leaves the context as fetched, or with the fetched rooms
    filtered. *)
Lemma room_query_context context o c :
  _handle_room_query cfg db context = Ok (o, c) ->
  exists c0,
    fetch_if_missing db context = Ok c0
    /\ (c = c0 \/ exists p, c = set_room_data c0 (filter p (rooms_of c0))).
Proof.
  unfold _handle_room_query.
  destruct (fetch_if_missing db context) as [c0|e']; cbn [bind]; [|discriminate].
  intros H. exists c0. split; [reflexivity|].
  destruct (negb (has_room_data c0)); [inversion H; left; reflexivity|].
  destruct (room_type_entities c0) as [|x l]; inversion H; [left; reflexivity|].
  right. eexists. reflexivity.
Qed.

Lemma search_faqs_same_faqs db' term :
  faqs db = faqs db' -> search_faqs db term = search_faqs db' term.
Proof. unfold search_faqs. intros ->. reflexivity. Qed.

Lemma find_faqs_same_faqs db' query table :
  faqs db = faqs db' ->
  forall acc, find_faqs db query table acc = find_faqs db' query table acc.
Proof.
  intros E. induction table as [|[term kws] table IH]; intros acc; cbn [find_faqs];
    [reflexivity|].
  rewrite (search_faqs_same_faqs db' term E).
  destruct (existsb _ kws); [|apply IH].
  destruct (search_faqs db' term); [apply IH|reflexivity].
Qed.

(** With no FAQ to find, the search through the keyword table ends empty. *)
Lemma find_faqs_nothing query table :
  (forall term kws, In (term, kws) table ->
     existsb (fun keyword => PyStr.contains keyword query) kws = false
     \/ search_faqs db term = []) ->
  find_faqs db query table [] = [].
Proof.
  induction table as [|[term kws] table IH]; intros H; cbn [find_faqs]; [reflexivity|].
  assert (IH' : find_faqs db query table [] = [])
    by (apply IH; intros t k Hin; apply (H t k); right; exact Hin).
  destruct (H term kws (or_introl eq_refl)) as [E|E].
  - rewrite E. exact IH'.
  - rewrite E. destruct (existsb _ kws); exact IH'.
Qed.

End GeneratorFrame.

(** X15.  [generate] raises only for the intents that read the rooms, only
    when the context carries no rooms, and then exactly what [get_rooms()]
    raises; in every other case it returns a text. *)
Theorem generate_raises_only_when_the_fetch_fails
    (cfg : BusinessConfig) (db : DB.Store) (context : RG.ResponseContext) :
  (forall e,
     RG.generate_response cfg db context = Raise e
     <-> reads_rooms (RG.intent context) = true
         /\ RG.has_room_data context = false
         /\ DB.get_rooms db true = Raise e)
  /\ ((exists o c, RG.generate_response cfg db context = Ok (o, c))
      \/ exists e, RG.generate_response cfg db context = Raise e
                   /\ DB.get_rooms db true = Raise e).
Proof.
  assert (Hiff : forall e,
             RG.generate_response cfg db context = Raise e
             <-> reads_rooms (RG.intent context) = true
                 /\ RG.has_room_data context = false
                 /\ DB.get_rooms db true = Raise e).
  { intros e. destruct (reads_rooms (RG.intent context)) eqn:R.
    - rewrite (fetching_handler_raise cfg db context e R), fetch_if_missing_raise. tauto.
    - destruct (static_handler_ok cfg db context R) as [o Ho]. rewrite Ho.
      split; [discriminate|intros [H _]; discriminate]. }
  split; [exact Hiff|].
  destruct (RG.generate_response cfg db context) as [[o c]|e] eqn:G.
  - left. exists o, c. reflexivity.
  - right. exists e. split; [reflexivity|].
    rewrite <- G in Hiff. apply (proj1 (Hiff e)). exact G.
Qed.

(** X16.  A call of [generate] that succeeds keeps the intent, the entities
    and the user query of the context.  It leaves the whole context alone for
    GREETING, GOODBYE, HELP and UNKNOWN, and also, when the context already
    carries rooms, for every intent but QUERY_ROOMS; rooms the context
    carries are at most filtered, never replaced by others. *)
Theorem generate_keeps_the_context
    (cfg : BusinessConfig) (db : DB.Store) (context c : RG.ResponseContext) (o : string) :
  RG.generate_response cfg db context = Ok (o, c) ->
  RG.intent c = RG.intent context
  /\ RG.entities c = RG.entities context
  /\ RG.user_query c = RG.user_query context
  /\ (reads_rooms (RG.intent context) = false -> c = context)
  /\ (RG.has_room_data context = true -> RG.intent context <> NLU.QUERY_ROOMS ->
      c = context)
  /\ (RG.has_room_data context = true -> incl (RG.rooms_of c) (RG.rooms_of context)).
Proof.
  intros G.
  destruct (reads_rooms (RG.intent context)) eqn:R.
  - assert (Hcases : exists c0,
               RG.fetch_if_missing db context = Ok c0
               /\ (c = c0
                   \/ (RG.intent context = NLU.QUERY_ROOMS
                       /\ exists p, c = RG.set_room_data c0 (filter p (RG.rooms_of c0))))).
    { destruct (RG.intent context) eqn:I; try discriminate R;
        try (exists c; split; [|left; reflexivity];
             apply (fetching_handler_context cfg db context o c);
             [rewrite I; reflexivity|rewrite I; discriminate|exact G]).
      unfold RG.generate_response in G. rewrite I in G.
      destruct (room_query_context cfg db context o c G) as [c0 [F [E|E]]];
        exists c0; (split; [exact F|]); [left; exact E|right; split; [reflexivity|exact E]]. }
    destruct Hcases as [c0 [F Hc]].
    destruct (fetch_if_missing_frame db context c0 F) as [Hi [He [Hq Hsame]]].
    destruct Hc as [->|[Hroom [p ->]]].
    + repeat split; try assumption; try discriminate.
      * intros Hd _. exact (Hsame Hd).
      * intros Hd. rewrite (Hsame Hd). apply incl_refl.
    + repeat split; try assumption; try discriminate.
      * intros _ Hn. exfalso. exact (Hn Hroom).
      * intros Hd. rewrite (Hsame Hd).
        change (RG.rooms_of (RG.set_room_data context (filter p (RG.rooms_of context))))
          with (filter p (RG.rooms_of context)).
        apply incl_filter.
  - destruct (static_handler_ok cfg db context R) as [o' Ho].
    rewrite Ho in G. inversion G; subst.
    repeat split; intros; apply incl_refl.
Qed.

Lemma generate_keeps_the_context_witness :
  RG.intent (RG.set_room_data
               (RG.mkContext NLU.QUERY_ROOMS [suite_entity; suite_entity]
                             "show me the suite room" (Some rooms_without_suite)) [])
  = NLU.QUERY_ROOMS.
Proof.
  apply (generate_keeps_the_context default_business Seed.store_suite_sold_out
           (RG.mkContext NLU.QUERY_ROOMS [suite_entity; suite_entity]
                         "show me the suite room" (Some rooms_without_suite))
           _ zero_rooms_response).
  vm_compute. reflexivity.
Defined.

(** X17.  When the context carries rooms, the answer does not depend on the
    rooms table: two stores with the same FAQs give the same result, so the
    rooms are never fetched again. *)
Theorem carried_rooms_are_not_fetched_again
    (cfg : BusinessConfig) (db db' : DB.Store) (context : RG.ResponseContext) :
  RG.has_room_data context = true ->
  DB.faqs db = DB.faqs db' ->
  RG.generate_response cfg db context = RG.generate_response cfg db' context.
Proof.
  intros Hd Hf.
  assert (F : forall d, RG.fetch_if_missing d context = Ok context)
    by (intros d; unfold RG.fetch_if_missing; rewrite Hd; reflexivity).
  unfold RG.generate_response.
  destruct (RG.intent context); try reflexivity.
  - unfold RG._handle_room_query. rewrite !F. reflexivity.
  - unfold RG._handle_price_query. rewrite !F. reflexivity.
  - unfold RG._handle_availability. rewrite !F. reflexivity.
  - unfold RG._handle_rate_comparison. rewrite !F. reflexivity.
  - unfold RG._handle_booking, RG.booking_options. rewrite !F. cbn [bind].
    rewrite !F. reflexivity.
  - unfold RG._handle_help. rewrite (find_faqs_same_faqs db db' _ _ Hf). reflexivity.
Qed.

Lemma carried_rooms_are_not_fetched_again_witness :
  RG.generate_response default_business Seed.store
    (RG.mkContext NLU.QUERY_PRICES [] "prices please" (Some rooms_without_suite))
  = RG.generate_response default_business Seed.store_suite_sold_out
      (RG.mkContext NLU.QUERY_PRICES [] "prices please" (Some rooms_without_suite)).
Proof.
  apply carried_rooms_are_not_fetched_again; reflexivity.
Defined.

(** X18.  HELP answers with the generic capability list whenever the query
    holds no keyword of the topic table, and whenever the store has no FAQ;
    the context is left as it was. *)
Theorem help_without_topic_lists_capabilities
    (db : DB.Store) (context : RG.ResponseContext) :
  (forall term keywords keyword,
     In (term, keywords) RG.faq_keywords -> In keyword keywords ->
     PyStr.contains keyword (PyStr.lower (RG.user_query context)) = false)
  \/ DB.faqs db = [] ->
  RG._handle_help db context = Ok (RG.help_template, context).
Proof.
  intros H. unfold RG._handle_help.
  rewrite find_faqs_nothing; [reflexivity|].
  intros term kws Hin. destruct H as [H|H].
  - left. destruct (existsb _ kws) eqn:E; [|reflexivity].
    apply existsb_exists in E. destruct E as [kw [Hkw Hc]].
    rewrite (H term kws kw Hin Hkw) in Hc. discriminate.
  - right. unfold DB.search_faqs. rewrite H. reflexivity.
Qed.

Lemma help_without_topic_lists_capabilities_witness :
  RG._handle_help Seed.store (RG.mkContext NLU.HELP [] "Please HELP me" None)
  = Ok (RG.help_template, RG.mkContext NLU.HELP [] "Please HELP me" None).
Proof.
  apply help_without_topic_lists_capabilities. left.
  intros term keywords keyword Hin Hkw.
  unfold RG.faq_keywords in Hin. cbn [In] in Hin.
  repeat (destruct Hin as [Hin|Hin];
          [inversion Hin; subst; cbn [In] in Hkw;
           repeat (destruct Hkw as [Hkw|Hkw]; [subst; reflexivity|]); destruct Hkw|]).
  destruct Hin.
Defined.

(** ** The orchestrator: which path answers *)
Section TurnPaths.
Import DB Brain.

Variable cfg : BusinessConfig.
Variable db : Store.
Variable json_dumps : list Room -> string.

(** The turn as the rule-based branch of [get_agent_response] answers it. *)
Definition rule_based_turn (user_text : string) : res (option string) :=
  let nlu_result := NLU.process user_text in
  room_data <-
    (if needs_rooms (NLU.intent nlu_result)
     then rooms <- get_rooms db true ;; Ok (Some rooms)
     else Ok None) ;;
  r <- RG.generate_response cfg db
         (RG.mkContext (NLU.intent nlu_result) (NLU.entities nlu_result) user_text room_data) ;;
  Ok (Some (fst r)).

(** The first completion raises, or comes back without a choice. *)
Definition completion_fails (c : Client) (tools : bool) : Prop :=
  forall messages, (exists e, c messages tools = Raise e) \/ c messages tools = Ok [].

(** The first completion asks for the tool [get_rooms]. *)
Definition requests_rooms (c : Client) : Prop :=
  forall messages, exists m others call calls,
    c messages true = Ok (m :: others)
    /\ tool_calls m = call :: calls /\ tc_name call = "get_rooms".

(** The first completion has no content and asks for no tool, or for
    another tool than [get_rooms]. *)
Definition answers_nothing (c : Client) : Prop :=
  forall messages, exists m others,
    c messages true = Ok (m :: others)
    /\ (content m = None \/ content m = Some "")
    /\ (tool_calls m = []
        \/ exists call calls,
             tool_calls m = call :: calls /\ String.eqb (tc_name call) "get_rooms" = false).

Lemma process_original_text text : NLU.original_text (NLU.process text) = text.
Proof. unfold NLU.process. destruct (NLU._recognize_intent _). reflexivity. Qed.

Lemma fallback_is_rule_based text room_data :
  (r <- _fallback_response cfg db (NLU.process text) (NLU.entities (NLU.process text))
          room_data ;; Ok (Some r))
  = (r <- RG.generate_response cfg db
            (RG.mkContext (NLU.intent (NLU.process text)) (NLU.entities (NLU.process text))
                          text room_data) ;;
     Ok (Some (fst r))).
Proof.
  unfold _fallback_response. rewrite process_original_text.
  destruct (RG.generate_response cfg db _); reflexivity.
Qed.

Lemma failed_attempt_falls_back (c : Client) text room_data :
  completion_fails c true
  \/ (requests_rooms c /\ completion_fails c false)
  \/ answers_nothing c ->
  _generate_ai_response cfg db (Some c) json_dumps text (NLU.process text) room_data
    (NLU.entities (NLU.process text))
  = (r <- RG.generate_response cfg db
            (RG.mkContext (NLU.intent (NLU.process text)) (NLU.entities (NLU.process text))
                          text room_data) ;;
     Ok (Some (fst r))).
Proof.
  intros H. rewrite <- fallback_is_rule_based.
  unfold _generate_ai_response, ai_attempt, create.
  set (messages := [SystemMsg _; UserMsg text]).
  set (fallback := _fallback_response cfg db (NLU.process text)
                     (NLU.entities (NLU.process text)) room_data).
  destruct H as [H|[[Hreq H]|H]].
  - destruct (H messages) as [[e E]|E]; rewrite E; reflexivity.
  - destruct (Hreq messages) as [m [others [call [calls [E [Ht Hn]]]]]].
    rewrite E. cbn [bind first_choice]. rewrite Ht, Hn.
    replace (String.eqb "get_rooms" "get_rooms") with true by reflexivity.
    destruct (get_rooms db true) as [rooms|e]; cbn [bind]; [|reflexivity].
    match goal with |- context [c ?ms false] => destruct (H ms) as [[e E2]|E2] end;
      rewrite E2; reflexivity.
  - destruct (H messages) as [m [others [E [Hc Ht]]]].
    rewrite E. cbn [bind first_choice].
    assert (Hno : match content m with
                  | Some (String a s) => Ok (Some (String a s))
                  | _ => r <- fallback ;; Ok (Some r)
                  end = (r <- fallback ;; Ok (Some r)))
      by (destruct Hc as [-> | ->]; reflexivity).
    destruct Ht as [->|[call [calls [-> Hn]]]]; [|rewrite Hn]; rewrite Hno;
      destruct fallback; reflexivity.
Qed.

End TurnPaths.

(** X19.  Unless [use_ai] is true and a client is configured, the turn is
    answered by the rule-based generator: the result does not depend on the
    client, is never [None], and is what the app gets, which calls
    [get_agent_response] without [use_ai]. *)
Theorem turn_is_rule_based_by_default
    (cfg : BusinessConfig) (db : DB.Store) (client : option Brain.Client)
    (json_dumps : list DB.Room -> string) (text : string) (use_ai : option bool) :
  use_ai <> Some true \/ client = None ->
  Brain.get_agent_response cfg db client json_dumps text use_ai
  = rule_based_turn cfg db text
  /\ Brain.get_agent_response cfg db client json_dumps text use_ai <> Ok None.
Proof.
  intros H.
  assert (E : Brain.get_agent_response cfg db client json_dumps text use_ai
              = rule_based_turn cfg db text).
  { unfold Brain.get_agent_response, rule_based_turn.
    destruct (if Brain.needs_rooms _ then _ else _) as [room_data|e]; cbn [bind];
      [|reflexivity].
    destruct use_ai as [[|]|]; destruct client as [c|]; try reflexivity.
    exfalso. destruct H as [H|H]; [apply H; reflexivity|discriminate H]. }
  split; [exact E|]. rewrite E. unfold rule_based_turn.
  destruct (if Brain.needs_rooms _ then _ else _) as [room_data|e]; cbn [bind];
    [|discriminate].
  destruct (RG.generate_response cfg db _); cbn [bind]; discriminate.
Qed.

Lemma turn_is_rule_based_by_default_witness :
  Brain.get_agent_response default_business Seed.store (Some (tool_then None))
    (fun _ => "") "What rooms do you have available?" None
  = rule_based_turn default_business Seed.store "What rooms do you have available?".
Proof.
  apply turn_is_rule_based_by_default. left. discriminate.
Defined.

(** X20.  On the language-model path the turn gets the rule-based answer
    whenever the first completion raises or has no choice, whenever it asks
    for [get_rooms] and the second completion raises or has no choice, and
    whenever it carries neither content nor a call of [get_rooms]. *)
Theorem failed_completion_gives_rule_based_answer
    (cfg : BusinessConfig) (db : DB.Store) (c : Brain.Client)
    (json_dumps : list DB.Room -> string) (text : string) :
  completion_fails c true
  \/ (requests_rooms c /\ completion_fails c false)
  \/ answers_nothing c ->
  Brain.get_agent_response cfg db (Some c) json_dumps text (Some true)
  = rule_based_turn cfg db text.
Proof.
  intros H. unfold Brain.get_agent_response, rule_based_turn.
  destruct (if Brain.needs_rooms _ then _ else _) as [room_data|e]; cbn [bind];
    [|reflexivity].
  apply failed_attempt_falls_back. exact H.
Qed.

Lemma failed_completion_gives_rule_based_answer_witness :
  Brain.get_agent_response default_business Seed.store
    (Some (fun (_ : list Brain.Message) (tools : bool) =>
             if tools then tool_then None [] true else Raise "APITimeoutError"))
    (fun _ => "") "What rooms do you have available?" (Some true)
  = rule_based_turn default_business Seed.store "What rooms do you have available?".
Proof.
  apply failed_completion_gives_rule_based_answer. right. left. split.
  - intros messages. do 4 eexists. split; [reflexivity|]. split; reflexivity.
  - intros messages. left. eexists. reflexivity.
Defined.

(** ** The orchestrator: two things the turn does *)
Section TurnFacts.
Import DB RG.

Lemma fold_left_keeps_head (A : Type) (f : A -> string) l : forall c s,
  exists rest, fold_left (fun response x => response ++ f x) l (String c s) = String c rest.
Proof.
  induction l as [|x l IH]; intros c s; cbn [fold_left].
  - exists s. reflexivity.
  - change (String c s ++ f x) with (String c (s ++ f x)). apply IH.
Qed.

Lemma general_availability_head cfg context :
  exists c rest,
    general_availability cfg context = String c rest /\ c <> "S"%char.
Proof.
  unfold general_availability.
  destruct (filter _ (rooms_of context)) as [|r l].
  - do 2 eexists. split; [reflexivity|discriminate].
  - cbv zeta.
    destruct (fold_left_keeps_head _
                (fun room => "- " ++ name room ++ ": " ++ PyStr.of_Z (inventory room)
                             ++ " rooms at " ++ _format_price cfg (direct_rate room)
                             ++ PyStr.nl)
                (r :: l) "W"%char
                ("e have " ++ str_len (r :: l) ++ " room types available:"
                 ++ PyStr.nl ++ PyStr.nl)) as [rest E].
    change ("We have " ++ str_len (r :: l) ++ " room types available:"
            ++ PyStr.nl ++ PyStr.nl)
      with (String "W" ("e have " ++ str_len (r :: l) ++ " room types available:"
                        ++ PyStr.nl ++ PyStr.nl)).
    rewrite E. do 2 eexists. split; [reflexivity|discriminate].
Qed.

End TurnFacts.

(** X21.  End to end, a CHECK_AVAILABILITY turn never gets the sold-out
    answer, whatever the store holds: the rooms it works on come from
    [get_rooms()], which omits every room without inventory. *)
Theorem availability_turn_never_says_sold_out
    (cfg : BusinessConfig) (db : DB.Store) (text o : string) (room : DB.Room) :
  NLU.intent (NLU.process text) = NLU.CHECK_AVAILABILITY ->
  rule_based_turn cfg db text = Ok (Some o) ->
  o <> RG.sold_out_message room.
Proof.
  intros Hi Ht. unfold rule_based_turn in Ht. rewrite Hi in Ht.
  cbn [Brain.needs_rooms] in Ht.
  destruct (DB.get_rooms db true) as [rooms|e] eqn:G; cbn [bind] in Ht; [|discriminate].
  unfold RG.generate_response in Ht. cbn [RG.intent] in Ht.
  destruct (RG._handle_availability cfg db _) as [[o' c]|e] eqn:H; cbn [bind] in Ht;
    [|discriminate].
  inversion Ht; subst o. clear Ht. cbn [fst].
  destruct (availability_after_get_rooms cfg db _ _ _ _ _ G H) as [-> [_ Hinv]].
  unfold RG.availability_response.
  destruct (RG.matching_rooms c) as [|r others] eqn:M.
  - destruct (general_availability_head cfg c) as [a [rest [E Ha]]]. rewrite E.
    unfold RG.sold_out_message. intros Heq. inversion Heq. contradiction.
  - rewrite (Hinv r others eq_refl).
    unfold RG.sold_out_message. intros Heq. inversion Heq.
Qed.

Lemma availability_turn_never_says_sold_out_witness :
  available_without_suite_response
  <> RG.sold_out_message
       (DB.mkRoom 2 "Suite Room" "suite" 8000 6800 0 None None 4 1200 15).
Proof.
  apply (availability_turn_never_says_sold_out default_business
           Seed.store_suite_sold_out "Is the suite available?").
  - vm_compute. reflexivity.
  - vm_compute. reflexivity.
Defined.

(** X22.  On the language-model path, when the first completion asks for
    [get_rooms] and the rooms can be read, the turn returns the content of
    the second completion as it is, an absent content included. *)
Theorem tool_call_turn_returns_the_final_content
    (cfg : BusinessConfig) (db : DB.Store) (c : Brain.Client)
    (json_dumps : list DB.Room -> string) (text : string)
    (rooms : list DB.Room) (final : Brain.ChatMessage) (others : list Brain.ChatMessage) :
  requests_rooms c ->
  (forall messages, c messages false = Ok (final :: others)) ->
  DB.get_rooms db true = Ok rooms ->
  Brain.get_agent_response cfg db (Some c) json_dumps text (Some true)
  = Ok (Brain.content final).
Proof.
  intros Hreq Hfinal G. unfold Brain.get_agent_response.
  rewrite G.
  destruct (Brain.needs_rooms _); cbn [bind];
    unfold Brain._generate_ai_response, Brain.ai_attempt, Brain.create;
    match goal with |- context [c ?ms true] =>
      destruct (Hreq ms) as [m [rest [call [calls [E [Ht Hn]]]]]]; rewrite E
    end;
    cbn [bind Brain.first_choice]; rewrite Ht, Hn;
    replace (String.eqb "get_rooms" "get_rooms") with true by reflexivity;
    rewrite G; cbn [bind]; rewrite Hfinal; reflexivity.
Qed.

Lemma tool_call_turn_returns_the_final_content_witness :
  Brain.get_agent_response default_business Seed.store (Some (tool_then None))
    (fun _ => "") "hello" (Some true)
  = Ok None.
Proof.
  apply (tool_call_turn_returns_the_final_content default_business Seed.store
           (tool_then None) (fun _ => "") "hello"
           (match DB.get_rooms Seed.store true with Ok l => l | Raise _ => [] end)
           (Brain.mkChatMessage None []) []).
  - intros messages. do 4 eexists. split; [reflexivity|]. split; reflexivity.
  - intros messages. reflexivity.
  - vm_compute. reflexivity.
Defined.

(** ** config.py: the language-model settings *)
Module Config.

(** The process environment: [os.getenv(key, default)]. *)
Definition getenv (env : string -> option string) (key default : string) : string :=
  match env key with
  | Some v => v
  | None => default
  end.

(** [AIConfig] *)
Record AIConfig : Type := mkAIConfig
  { groq_api_key : option string; model_name : string; max_tokens : Z;
    temperature : Q; use_ai : bool }.

Definition placeholder_key : string := "PASTE_YOUR_GROQ_KEY_HERE".

(** [_load_ai_config] *)
Definition _load_ai_config (env : string -> option string) : AIConfig :=
  let api_key := getenv env "GROQ_API_KEY" "" in
  let use_ai := negb (String.eqb api_key "") && negb (String.eqb api_key placeholder_key) in
  mkAIConfig (if use_ai then Some api_key else None)
             "llama3-groq-70b-8192-tool-use-preview" 200 (7 # 10) use_ai.

(** The key brain.py builds its client with: [Groq(api_key=...)] when
    [config.ai.use_ai and config.ai.groq_api_key], no client otherwise. *)
Definition client_key (ai : AIConfig) : option string :=
  match use_ai ai, groq_api_key ai with
  | true, Some (String c s) => Some (String c s)
  | _, _ => None
  end.

End Config.

(** X23.  A client is built exactly when GROQ_API_KEY is set to something
    other than the empty string and the placeholder, and then with that key;
    the loaded settings hold a key exactly when [use_ai] is on. *)
Theorem client_needs_a_real_key (env : string -> option string) (key : string) :
  (Config.client_key (Config._load_ai_config env) = Some key
   <-> env "GROQ_API_KEY" = Some key /\ key <> "" /\ key <> Config.placeholder_key)
  /\ (Config.use_ai (Config._load_ai_config env) = true
      <-> Config.groq_api_key (Config._load_ai_config env) <> None).
Proof.
  unfold Config._load_ai_config, Config.client_key, Config.getenv.
  cbn [Config.use_ai Config.groq_api_key].
  destruct (env "GROQ_API_KEY") as [v|].
  - destruct (String.eqb_spec v "") as [->|Hne]; cbn [negb andb].
    + split; [|split; [discriminate|intros H; exfalso; apply H; reflexivity]].
      split; [discriminate|]. intros [H [Hk _]]. inversion H. subst. contradiction.
    + destruct (String.eqb_spec v Config.placeholder_key) as [->|Hnp]; cbn [negb].
      * split; [|split; [discriminate|intros H; exfalso; apply H; reflexivity]].
        split; [discriminate|]. intros [H [_ Hk]]. inversion H. subst. contradiction.
      * split; [|split; [discriminate|reflexivity]].
        destruct v as [|a s]; [contradiction|].
        split.
        -- intros H. inversion H; subst. repeat split; assumption.
        -- intros [H _]. inversion H. reflexivity.
  - cbn [negb andb String.eqb]. split.
    + split; [discriminate|intros [H _]; discriminate].
    + split; [discriminate|intros H; exfalso; apply H; reflexivity].
Qed.
